(** * Lighthouse: the acquisition core of SpecEChemProgram.py

    A shallow embedding of the [MyWindow] methods that configure, start and
    run a spectroelectrochemistry measurement, and the properties of the
    acquisition core stated over it.

    Python floats and numpy float64 values are IEEE binary64 numbers and are
    modelled by Rocq's primitive floats.  The attributes of [self] are
    record fields; an attribute that [__init__] does not create is an
    [option] whose [None] stands for "attribute not set".  Every method is
    a computation in a state-and-exception monad over the window and a log
    of the effects it performed on the outside world (dialogs, files,
    instruments, threads). *)

From Stdlib Require Import ZArith List String Ascii Floats Lia Sorted.
From stdpp Require Import base option list strings gmap pretty sorting.

Set Default Proof Using "Type".
#[local] Set Warnings "-inexact-float".

(** ** The Python runtime *)

(** Exceptions that the modelled code can raise. *)
Inductive exn :=
| ValueError (msg : string)
| TypeError (msg : string)
| KeyError (key : string)
| IndexError (msg : string)
| AttributeError (attr : string)
| UnboundLocalError (var : string)
| OSError (strerror : string)
| OverflowError (msg : string)
| DriverError (msg : string).

(** Builtins whose result is fixed by the Python and numpy runtimes, not by
    the program: text to number conversion, number formatting and the
    decimal logarithm. *)
Class Builtins := {
  (** [float(s)]; [None] is [ValueError]. *)
  float_of_str : string → option float;
  (** [int(s)]; [None] is [ValueError]. *)
  int_of_str : string → option Z;
  (** [f"{x}"] for a float. *)
  str_of_float : float → string;
  (** [f"{x:.Nf}"] for a float. *)
  fixed : nat → float → string;
  (** [np.log10]. *)
  np_log10 : float → float
}.

(** Computations that can only raise. *)
Definition result (A : Type) : Type := (exn + A)%type.

#[export] Instance result_ret : MRet result := λ A a, inr a.
#[export] Instance result_bind : MBind result := λ A B f m,
  match m with
  | inr a => f a
  | inl e => inl e
  end.

(** The line feed, Python's ["\n"]. *)
Definition nl : string := String (ascii_of_nat 10) EmptyString.

(** [f"{b}"] for a bool. *)
Definition str_of_bool (b : bool) : string := if b then "True" else "False".

(** [f"{n:d}"] for the length of an array. *)
Definition str_of_len {A} (l : list A) : string := pretty (length l).

(** [s.replace(":", "-")]. *)
Fixpoint replace_colons (s : string) : string :=
  match s with
  | EmptyString => EmptyString
  | String c r =>
      String (if Ascii.eqb c ":"%char then "-"%char else c) (replace_colons r)
  end.

(** Conversion of a Python int to a float, round to nearest even, as the
    multiplication of a float by an int performs it. *)
Definition float_of_int (z : Z) : float :=
  SF2Prim (binary_normalize prec emax z 0 false).

(** Elementwise numpy arithmetic on one-dimensional arrays: equal lengths
    combine pointwise, a length-one operand is broadcast, anything else is
    the broadcasting [ValueError]. *)
Definition np_binop (f : float → float → float) (a b : list float)
  : result (list float) :=
  if decide (length a = length b) then inr (zip_with f a b)
  else match a, b with
       | _, [y] => inr ((λ x, f x y) <$> a)
       | [x], _ => inr (f x <$> b)
       | _, _ => inl (ValueError "operands could not be broadcast together")
       end.

(** An operand of numpy arithmetic that may be Python's [None]. *)
Definition is_array (name : string) (o : option (list float))
  : result (list float) :=
  match o with
  | Some a => inr a
  | None => inl (TypeError name)
  end.

(** ** Instruments *)

(** A data point of the potentiostat's acquisition curve; the columns are
    [point,time,vf,vu,im,ach,vsig,temp,cycle,ie_range,overload,stop_test]. *)
Definition data_point := list float.

(** The vendor's [RcvCurve]: the acquisition buffer the potentiostat driver
    fills on its own while the curve runs. *)
Record RcvCurve := MkRcvCurve {
  rc_capacity : Z;
  (** [set_stop_i_max(True, m)] *)
  rc_stop_i_max : option float;
  (** what [running()] answers *)
  rc_running : bool;
  (** the driver stopped the curve because the current limit was exceeded *)
  rc_tripped : bool;
  (** acquired points, oldest first *)
  rc_points : list data_point
}.

Definition last_data_point (c : RcvCurve) : option data_point :=
  last (rc_points c).

(** Whether the driver's current-limit stop test fires on a point. *)
Definition exceeds_i_max (c : RcvCurve) (p : data_point) : bool :=
  match rc_stop_i_max c, p !! 4%nat with
  | Some m, Some i => PrimFloat.ltb m (PrimFloat.abs i)
  | _, _ => false
  end.

(** The driver acquires one more point (environment step).  A running curve
    stores the point and stops itself when the stop test fires on it. *)
Definition curve_acquire (p : data_point) (c : RcvCurve) : RcvCurve :=
  if rc_running c then
    if exceeds_i_max c p
    then MkRcvCurve (rc_capacity c) (rc_stop_i_max c) false true
           (rc_points c ++ [p])
    else MkRcvCurve (rc_capacity c) (rc_stop_i_max c) true (rc_tripped c)
           (rc_points c ++ [p])
  else c.

(** [acq_curve.run(True)], and the end of the curve: [acq_curve.stop()] or
    the programmed signal running out. *)
Definition curve_run (c : RcvCurve) : RcvCurve :=
  MkRcvCurve (rc_capacity c) (rc_stop_i_max c) true (rc_tripped c) (rc_points c).

Definition curve_stop (c : RcvCurve) : RcvCurve :=
  MkRcvCurve (rc_capacity c) (rc_stop_i_max c) false (rc_tripped c) (rc_points c).

Definition set_stop_i_max (m : float) (c : RcvCurve) : RcvCurve :=
  MkRcvCurve (rc_capacity c) (Some m) (rc_running c) (rc_tripped c) (rc_points c).

(** Handles of the connected instruments. *)
Record Pstat := MkPstat { model_no : string }.

Record Spectrometer := MkSpectrometer {
  model : string;
  integration_time_micros_limits : float * float;
  spectrometer_wavelengths : list float
}.

(** ** Effects on the outside world *)

Inductive pstat_cmd :=
| SignalRUpDnNew (v : list float) (rates : list float) (holds : list float)
                 (sample_period : float) (cycles : Z)
| SetSignalRUpDn
| InitSignal
| NewRcvCurve (capacity : Z)
| SetStopIMax (enable : bool) (i_max : float)
| SetCell (on : bool)
| CurveRun
| CurveStop
| AcqData.

(** Every call of [intensities] in the program passes the two
    [BooleanVar] objects themselves, not their values: the driver sees two
    true arguments whatever the checkboxes say. *)
Inductive spec_cmd :=
| Intensities (dark nonlinearity : bool)
| SetIntegrationTime (micros : float).

Inductive effect :=
| MboxWarning (title text : string)   (* messagebox.showwarning *)
| MboxError (title text : string)     (* messagebox.showerror *)
| FileOpen (path : string)            (* open(path, 'w') *)
| FileWrite (path : string) (data : string)
| FileFlush (path : string)
| FileClose (path : string)
| SaveTxt (path header : string) (table : list data_point)  (* np.savetxt *)
| PstatCmd (c : pstat_cmd)
| SpecCmd (c : spec_cmd)
| Configure (widget text colour : string)  (* a label's configure *)
| StdoutLine (text : string)          (* print *)
| Elapsed (seconds : float)           (* time a spectrum capture took *)
| Sleep (seconds : float)             (* time.sleep *)
| ThreadStart (target : string)       (* threading.Thread(...).start() *)
| SendEmails.

Definition is_file_effect (e : effect) : bool :=
  match e with
  | FileOpen _ | FileWrite _ _ | FileFlush _ | FileClose _ | SaveTxt _ _ _ => true
  | _ => false
  end.

Definition is_hardware_effect (e : effect) : bool :=
  match e with
  | PstatCmd _ | SpecCmd _ => true
  | _ => false
  end.

Definition is_report (e : effect) : bool :=
  match e with
  | MboxWarning _ _ | MboxError _ _ => true
  | _ => false
  end.

(** Everything written to a path, in order: the content of a file that was
    opened once with mode ["w"]. *)
Fixpoint file_content (path : string) (log : list effect) : string :=
  match log with
  | [] => EmptyString
  | FileWrite p data :: rest =>
      if String.eqb p path then data +:+ file_content path rest
      else file_content path rest
  | _ :: rest => file_content path rest
  end.

(** A [datetime]: the two renderings the program uses. *)
Record datetime := MkDatetime {
  isoformat : string;
  datetime_str : string
}.

(** ** The window *)

(** The Tk variables and the settings edited through the menus: what the
    user can change at any time. *)
Record Gui := MkGui {
  vertex_pot1_text : string;
  vertex_pot2_text : string;
  scan_rate_text : string;
  num_cycles_text : string;
  step_size_text : string;
  spec_freq_txt : string;
  spec_freq_units : string;
  spec_intensity_type : string;
  use_pstat : bool;
  use_spec : bool;
  enable_dark_correction : bool;
  enable_nonlinearity_correction : bool;
  experiment_name : string;
  operator : string;
  description : string;
  emails : string;
  save_dir : string
}.

(** The attributes about the instruments.  [integration_time_micros],
    [wavelengths] and [has_reference_spec] are first assigned by
    [connect_spectrometer]; [reference_spec] and [dark_spec] start as
    Python's [None]. *)
Record Devices := MkDevices {
  has_potentiostat : bool;
  potentiostat : option Pstat;
  has_spectrometer : bool;
  spectrometer : option Spectrometer;
  integration_time_micros : option float;
  wavelengths : option (list float);
  has_reference_spec : option bool;
  reference_spec : option (list float);
  dark_spec : option (list float)
}.

(** The attributes of a measurement; all but the two flags are first
    assigned by [start_measurement] and [run_measurement]. *)
Record Session := MkSession {
  running : bool;
  should_draw_pstat : bool;
  running_intensity_type : option string;
  filename_time : option datetime;
  outfile : option string;
  filename : option string;
  reference_filename : option string;
  dark_filename : option string;
  acq_curve : option RcvCurve;
  time_start : option float;
  calc_run_time : option float;
  num_freq_s : option float;
  last_file_flush : option float;
  most_recent_pstat_pt : option data_point;
  end_time : option float;
  pstat_data_filename : option string
}.

Record World := MkWorld {
  gui : Gui;
  dev : Devices;
  ses : Session;
  log : list effect
}.

Definition set_running v (s : Session) : Session :=
  MkSession v (should_draw_pstat s) (running_intensity_type s)
    (filename_time s) (outfile s) (filename s) (reference_filename s)
    (dark_filename s) (acq_curve s) (time_start s) (calc_run_time s)
    (num_freq_s s) (last_file_flush s) (most_recent_pstat_pt s) (end_time s)
    (pstat_data_filename s).

Definition set_should_draw_pstat v (s : Session) : Session :=
  MkSession (running s) v (running_intensity_type s) (filename_time s)
    (outfile s) (filename s) (reference_filename s) (dark_filename s)
    (acq_curve s) (time_start s) (calc_run_time s) (num_freq_s s)
    (last_file_flush s) (most_recent_pstat_pt s) (end_time s)
    (pstat_data_filename s).

Definition set_running_intensity_type v (s : Session) : Session :=
  MkSession (running s) (should_draw_pstat s) (Some v) (filename_time s)
    (outfile s) (filename s) (reference_filename s) (dark_filename s)
    (acq_curve s) (time_start s) (calc_run_time s) (num_freq_s s)
    (last_file_flush s) (most_recent_pstat_pt s) (end_time s)
    (pstat_data_filename s).

Definition set_filename_time v (s : Session) : Session :=
  MkSession (running s) (should_draw_pstat s) (running_intensity_type s)
    (Some v) (outfile s) (filename s) (reference_filename s) (dark_filename s)
    (acq_curve s) (time_start s) (calc_run_time s) (num_freq_s s)
    (last_file_flush s) (most_recent_pstat_pt s) (end_time s)
    (pstat_data_filename s).

Definition set_outfile v (s : Session) : Session :=
  MkSession (running s) (should_draw_pstat s) (running_intensity_type s)
    (filename_time s) (Some v) (filename s) (reference_filename s)
    (dark_filename s) (acq_curve s) (time_start s) (calc_run_time s)
    (num_freq_s s) (last_file_flush s) (most_recent_pstat_pt s) (end_time s)
    (pstat_data_filename s).

Definition set_filename v (s : Session) : Session :=
  MkSession (running s) (should_draw_pstat s) (running_intensity_type s)
    (filename_time s) (outfile s) (Some v) (reference_filename s)
    (dark_filename s) (acq_curve s) (time_start s) (calc_run_time s)
    (num_freq_s s) (last_file_flush s) (most_recent_pstat_pt s) (end_time s)
    (pstat_data_filename s).

Definition set_reference_filename v (s : Session) : Session :=
  MkSession (running s) (should_draw_pstat s) (running_intensity_type s)
    (filename_time s) (outfile s) (filename s) (Some v) (dark_filename s)
    (acq_curve s) (time_start s) (calc_run_time s) (num_freq_s s)
    (last_file_flush s) (most_recent_pstat_pt s) (end_time s)
    (pstat_data_filename s).

Definition set_dark_filename v (s : Session) : Session :=
  MkSession (running s) (should_draw_pstat s) (running_intensity_type s)
    (filename_time s) (outfile s) (filename s) (reference_filename s) (Some v)
    (acq_curve s) (time_start s) (calc_run_time s) (num_freq_s s)
    (last_file_flush s) (most_recent_pstat_pt s) (end_time s)
    (pstat_data_filename s).

Definition set_acq_curve v (s : Session) : Session :=
  MkSession (running s) (should_draw_pstat s) (running_intensity_type s)
    (filename_time s) (outfile s) (filename s) (reference_filename s)
    (dark_filename s) (Some v) (time_start s) (calc_run_time s) (num_freq_s s)
    (last_file_flush s) (most_recent_pstat_pt s) (end_time s)
    (pstat_data_filename s).

Definition set_time_start v (s : Session) : Session :=
  MkSession (running s) (should_draw_pstat s) (running_intensity_type s)
    (filename_time s) (outfile s) (filename s) (reference_filename s)
    (dark_filename s) (acq_curve s) (Some v) (calc_run_time s) (num_freq_s s)
    (last_file_flush s) (most_recent_pstat_pt s) (end_time s)
    (pstat_data_filename s).

Definition set_calc_run_time v (s : Session) : Session :=
  MkSession (running s) (should_draw_pstat s) (running_intensity_type s)
    (filename_time s) (outfile s) (filename s) (reference_filename s)
    (dark_filename s) (acq_curve s) (time_start s) (Some v) (num_freq_s s)
    (last_file_flush s) (most_recent_pstat_pt s) (end_time s)
    (pstat_data_filename s).

Definition set_num_freq_s v (s : Session) : Session :=
  MkSession (running s) (should_draw_pstat s) (running_intensity_type s)
    (filename_time s) (outfile s) (filename s) (reference_filename s)
    (dark_filename s) (acq_curve s) (time_start s) (calc_run_time s) (Some v)
    (last_file_flush s) (most_recent_pstat_pt s) (end_time s)
    (pstat_data_filename s).

Definition set_last_file_flush v (s : Session) : Session :=
  MkSession (running s) (should_draw_pstat s) (running_intensity_type s)
    (filename_time s) (outfile s) (filename s) (reference_filename s)
    (dark_filename s) (acq_curve s) (time_start s) (calc_run_time s)
    (num_freq_s s) (Some v) (most_recent_pstat_pt s) (end_time s)
    (pstat_data_filename s).

Definition set_most_recent_pstat_pt v (s : Session) : Session :=
  MkSession (running s) (should_draw_pstat s) (running_intensity_type s)
    (filename_time s) (outfile s) (filename s) (reference_filename s)
    (dark_filename s) (acq_curve s) (time_start s) (calc_run_time s)
    (num_freq_s s) (last_file_flush s) v (end_time s) (pstat_data_filename s).

Definition set_end_time v (s : Session) : Session :=
  MkSession (running s) (should_draw_pstat s) (running_intensity_type s)
    (filename_time s) (outfile s) (filename s) (reference_filename s)
    (dark_filename s) (acq_curve s) (time_start s) (calc_run_time s)
    (num_freq_s s) (last_file_flush s) (most_recent_pstat_pt s) (Some v)
    (pstat_data_filename s).

Definition set_pstat_data_filename v (s : Session) : Session :=
  MkSession (running s) (should_draw_pstat s) (running_intensity_type s)
    (filename_time s) (outfile s) (filename s) (reference_filename s)
    (dark_filename s) (acq_curve s) (time_start s) (calc_run_time s)
    (num_freq_s s) (last_file_flush s) (most_recent_pstat_pt s) (end_time s)
    (Some v).

(** The user picks another entry of the intensity-type combobox. *)
Definition select_intensity_type (v : string) (g : Gui) : Gui :=
  MkGui (vertex_pot1_text g) (vertex_pot2_text g) (scan_rate_text g)
        (num_cycles_text g) (step_size_text g) (spec_freq_txt g)
        (spec_freq_units g) v (use_pstat g) (use_spec g)
        (enable_dark_correction g) (enable_nonlinearity_correction g)
        (experiment_name g) (operator g) (description g) (emails g)
        (save_dir g).

(** The combobox is read-only: these are the only values it can hold. *)
Definition intensity_type_values : list string :=
  ["Raw Int."; "Raw Int. - Ref"; "%T or %R"; "Abs"].

Definition spec_freq_unit_values : list string := ["ms"; "s"; "min"; "hr"].

(** ** The monad of methods: state, effect log and exceptions *)

Definition M (A : Type) : Type := World → result A * World.

#[export] Instance M_ret : MRet M := λ A a w, (inr a, w).
#[export] Instance M_bind : MBind M := λ A B f m w,
  match m w with
  | (inr a, w') => f a w'
  | (inl e, w') => (inl e, w')
  end.

Definition raise {A} (e : exn) : M A := λ w, (inl e, w).

Definition emit (e : effect) : M unit := λ w,
  (inr tt, MkWorld (gui w) (dev w) (ses w) (log w ++ [e])).

Definition read {A} (f : World → A) : M A := λ w, (inr (f w), w).

(** Reading an attribute that may not have been assigned yet. *)
Definition attr {A} (name : string) (f : World → option A) : M A := λ w,
  match f w with
  | Some a => (inr a, w)
  | None => (inl (AttributeError name), w)
  end.

(** Using a value that may be Python's [None]. *)
Definition not_none {A} (what : string) (o : option A) : M A :=
  match o with
  | Some a => mret a
  | None => raise (TypeError what)
  end.

Definition modify_ses (f : Session → Session) : M unit := λ w,
  (inr tt, MkWorld (gui w) (dev w) (f (ses w)) (log w)).

Definition modify_dev (f : Devices → Devices) : M unit := λ w,
  (inr tt, MkWorld (gui w) (f (dev w)) (ses w) (log w)).

Definition lift_exn {A} (r : result A) : M A :=
  match r with
  | inl e => raise e
  | inr a => mret a
  end.

(** [for x in xs: body x] *)
Fixpoint for_each {A} (xs : list A) (body : A → M unit) : M unit :=
  match xs with
  | [] => mret tt
  | x :: rest => body x ;; for_each rest body
  end.

(** [with open(path, "w") as f: body]: an [OSError] when the file cannot be
    opened (the environment decides), and the file is closed on the way
    out, also when the body raises. *)
Definition with_open (open_error : string → option string) (path : string)
  (body : M unit) : M unit := λ w,
  match open_error path with
  | Some msg => (inl (OSError msg), w)
  | None =>
      match (emit (FileOpen path) ;; body) w with
      | (r, w') => (r, snd (emit (FileClose path) w'))
      end
  end.

Definition write (path data : string) : M unit := emit (FileWrite path data).

(** [l[i]] on a Python sequence. *)
Definition getitem {A} (l : list A) (i : nat) : M A :=
  match l !! i with
  | Some x => mret x
  | None => raise (IndexError "index out of range")
  end.

(** [d[k]] on a Python dict. *)
Definition dict_get (d : gmap string string) (k : string) : M string :=
  match d !! k with
  | Some v => mret v
  | None => raise (KeyError k)
  end.

(** [self.spectrometer.<name>]: the handle is [None] until a spectrometer
    is connected. *)
Definition the_spectrometer (name : string) : M Spectrometer := λ w,
  match spectrometer (dev w) with
  | Some s => (inr s, w)
  | None => (inl (AttributeError name), w)
  end.

Definition the_potentiostat (name : string) : M Pstat := λ w,
  match potentiostat (dev w) with
  | Some p => (inr p, w)
  | None => (inl (AttributeError name), w)
  end.

(** What the environment answers while a method runs. *)
Record Env := MkEnv {
  (** [datetime.datetime.now()] *)
  now : datetime;
  (** [time.time()] *)
  time_time : float;
  (** [open(path, "w")] failing with this [strerror] *)
  open_error : string → option string;
  (** [signal_r_up_dn_new] refusing the signal, e.g. more than 2^18-1
      points *)
  signal_error : option string
}.

(** ** [__init__] *)

Definition init_gui : Gui :=
  MkGui EmptyString EmptyString EmptyString EmptyString EmptyString
        EmptyString "ms" "Raw Int." true true true true
        "Experiment" "Graham Lab" EmptyString EmptyString ".".

Definition init_devices : Devices :=
  MkDevices false None false None None None None None None.

Definition init_session : Session :=
  MkSession false false None None None None None None None None None None
            None None None None.

Definition init_window : World :=
  MkWorld init_gui init_devices init_session [].

(** ** Connecting instruments and storing baselines *)

(** [connect_pstat]: [devices] is what [tkp.enum_sections()] lists. *)
Definition connect_pstat (devices : list Pstat) : M unit :=
  match devices with
  | [] => emit (MboxWarning "Warning" "No connected Gamry Potentiostats found!")
  | p :: _ =>
      modify_dev (λ d, MkDevices true (Some p) (has_spectrometer d)
        (spectrometer d) (integration_time_micros d) (wavelengths d)
        (has_reference_spec d) (reference_spec d) (dark_spec d)) ;;
      emit (Configure "lbl_pstat_connected" "connected" "green") ;;
      emit (Configure "lbl_pstat_model" ("Model: " +:+ model_no p) EmptyString) ;;
      emit (ThreadStart "update_pstat_readinglabels")
  end.

(** [connect_spectrometer]: [found] is the result of
    [Spectrometer.from_first_available()], [None] for [SeaBreezeError]. *)
Definition connect_spectrometer (found : option Spectrometer) : M unit :=
  match found with
  | Some s =>
      let limits := integration_time_micros_limits s in
      let wl := spectrometer_wavelengths s in
      emit (Configure "lbl_spec_connected" "Connected" "green") ;;
      emit (Configure "lbl_spec_model" ("Model: " +:+ model s) EmptyString) ;;
      emit (SpecCmd (SetIntegrationTime (fst limits))) ;;
      modify_dev (λ d, MkDevices (has_potentiostat d) (potentiostat d) true
        (Some s) (Some (fst limits)) (Some wl) (Some false) (reference_spec d)
        (Some (replicate (length wl) 0%float))) ;;
      emit (ThreadStart "draw_spec")
  | None =>
      modify_dev (λ d, MkDevices (has_potentiostat d) (potentiostat d)
        (has_spectrometer d) None (integration_time_micros d) (wavelengths d)
        (has_reference_spec d) (reference_spec d) (dark_spec d)) ;;
      emit (MboxWarning "Failed to connect to OceanOptics Spectrometer" EmptyString)
  end.

(** [store_reference_spectrum]: [reading] is what the spectrometer returns. *)
Definition store_reference_spectrum (reading : list float) : M unit :=
  d ← read dev;
  if has_spectrometer d then
    the_spectrometer "intensities" ;;
    emit (SpecCmd (Intensities true true)) ;;
    modify_dev (λ d, MkDevices (has_potentiostat d) (potentiostat d)
      (has_spectrometer d) (spectrometer d) (integration_time_micros d)
      (wavelengths d) (Some true) (Some reading) (dark_spec d))
  else mret tt.

Definition store_dark_spectrum (reading : list float) : M unit :=
  d ← read dev;
  if has_spectrometer d then
    the_spectrometer "intensities" ;;
    emit (SpecCmd (Intensities true true)) ;;
    modify_dev (λ d, MkDevices (has_potentiostat d) (potentiostat d)
      (has_spectrometer d) (spectrometer d) (integration_time_micros d)
      (wavelengths d) (has_reference_spec d) (reference_spec d) (Some reading))
  else mret tt.

(** ** [collect_spec_now] *)

(** The dictionary literal of [collect_spec_now], keys as the source spells
    them. *)
Definition collect_filename_intensity_type : gmap string string :=
  list_to_map [("Raw Int.", "Raw_Intensity");
               ("Raw. Int. - Ref", "Reference_Sub_Intensity");
               ("%T or %R", "Transmittance");
               ("Abs", "Abs")].

(** One body of the row loop of [collect_spec_now]. *)
Definition collect_row `{Builtins} (outfile : string)
  (now_intensities : list float) (i : nat) : M unit :=
  g ← read gui;
  d ← read dev;
  wl ← attr "wavelengths" (wavelengths ∘ dev);
  w_i ← getitem wl i;
  write outfile (str_of_float w_i +:+ ",") ;;
  (if String.eqb (spec_intensity_type g) "Raw Int." then
     x ← getitem now_intensities i;
     write outfile (str_of_float x +:+ ",")
   else if String.eqb (spec_intensity_type g) "Raw Int. - Ref" then
     x ← getitem now_intensities i;
     ref ← not_none "reference_spec" (reference_spec d);
     r ← getitem ref i;
     write outfile (str_of_float (x - r) +:+ ",")
   else if String.eqb (spec_intensity_type g) "%T or %R" then
     x ← getitem now_intensities i;
     dark ← not_none "dark_spec" (dark_spec d);
     k ← getitem dark i;
     ref ← not_none "reference_spec" (reference_spec d);
     r ← getitem ref i;
     write outfile (str_of_float ((x - k) / (r - k)) +:+ ",")
   else if String.eqb (spec_intensity_type g) "Abs" then
     x ← getitem now_intensities i;
     dark ← not_none "dark_spec" (dark_spec d);
     k ← getitem dark i;
     ref ← not_none "reference_spec" (reference_spec d);
     r ← getitem ref i;
     write outfile (str_of_float (-1 * np_log10 ((x - k) / (r - k))) +:+ ",")
   else mret tt) ;;
  has_ref ← attr "has_reference_spec" (has_reference_spec ∘ dev);
  (if has_ref : bool then
     ref ← not_none "reference_spec" (reference_spec d);
     r ← getitem ref i;
     write outfile (str_of_float r +:+ ",")
   else mret tt) ;;
  dark ← not_none "dark_spec" (dark_spec d);
  k ← getitem dark i;
  write outfile (str_of_float k +:+ nl).

(** [collect_spec_now]: [reading] is the spectrum the spectrometer returns. *)
Definition collect_spec_now `{Builtins} (env : Env) (reading : list float)
  : M unit :=
  g ← read gui;
  d ← read dev;
  if negb (has_spectrometer d) then mret tt else
  needs_ref ←
    (if negb (String.eqb (spec_intensity_type g) "Raw Int.") then
       h ← attr "has_reference_spec" (has_reference_spec ∘ dev);
       mret (negb h)
     else mret false);
  if needs_ref : bool then
    emit (MboxWarning "Error saving file"
            "Chosen intensity type requires a reference spectrum")
  else
    the_spectrometer "intensities" ;;
    emit (SpecCmd (Intensities true true)) ;;
    let now_intensities := reading in
    let intensity_type := spec_intensity_type g in
    intensity_type_text ← dict_get collect_filename_intensity_type intensity_type;
    let filename :=
      save_dir g +:+ "/" +:+
      replace_colons (intensity_type_text +:+ "_" +:+ isoformat (now env) +:+ ".csv") in
    with_open (open_error env) filename (
      write filename ("Ocean Optics spectrometer spectrum generated by Lighthouse" +:+ nl) ;;
      s ← the_spectrometer "model";
      write filename ("Spectrometer model: " +:+ model s +:+ nl) ;;
      itm ← attr "integration_time_micros" (integration_time_micros ∘ dev);
      write filename ("Integration time (ms): " +:+ fixed 0 (itm / 1000) +:+ nl) ;;
      write filename ("Electric dark correction enabled: "
                      +:+ str_of_bool (enable_dark_correction g) +:+ nl) ;;
      write filename ("Nonlinearity correction enabled: "
                      +:+ str_of_bool (enable_nonlinearity_correction g) +:+ nl) ;;
      wl ← attr "wavelengths" (wavelengths ∘ dev);
      write filename ("Number of data points: " +:+ str_of_len wl +:+ nl +:+ nl) ;;
      write filename (">>>Begin Data<<<" +:+ nl) ;;
      write filename ("Wavelength_nm," +:+ spec_intensity_type g +:+ ",") ;;
      has_ref ← attr "has_reference_spec" (has_reference_spec ∘ dev);
      (if has_ref : bool then write filename "Reference Int.," else mret tt) ;;
      write filename ("Dark Int." +:+ nl) ;;
      for_each (seq 0 (length wl)) (collect_row filename now_intensities)).

(** ** [start_measurement] *)

(** The [try] block that converts the potentiostat parameters: [None] when
    any conversion raises [ValueError]. *)
Definition parse_pstat_parameters `{Builtins} (g : Gui)
  : option (float * float * float * Z * float) :=
  v1_num ← float_of_str (vertex_pot1_text g);
  v2_num ← float_of_str (vertex_pot2_text g);
  scanrate_num ← float_of_str (scan_rate_text g);
  cycles_num ← int_of_str (num_cycles_text g);
  sample_period ← float_of_str (step_size_text g);
  Some (v1_num, v2_num, scanrate_num, cycles_num, sample_period).

(** The unit conversion of the collection time; no branch assigns
    [collection_time_ms] for a unit outside the combobox's values. *)
Definition collection_time_in_ms (collection_time_unit : string)
  (collection_time_num : float) : option float :=
  if String.eqb collection_time_unit "ms" then
    Some (collection_time_num * 1)%float
  else if String.eqb collection_time_unit "s" then
    Some (collection_time_num * 1000)%float
  else if String.eqb collection_time_unit "min" then
    Some (collection_time_num * 60 * 1000)%float
  else if String.eqb collection_time_unit "hr" then
    Some (collection_time_num * 3600 * 1000)%float
  else None.

(** The dictionary literal of [start_measurement]. *)
Definition filename_intensity_type : gmap string string :=
  list_to_map [("Raw Int.", "Raw_Intensity");
               ("Raw Int. - Ref", "Reference_Sub_Intensity");
               ("%T or %R", "Transmittance");
               ("Abs", "Abs")].

(** The reference and the dark spectrum files are written by two copies of
    the same code, which differ in the word of the title line, the suffix
    of the file name, the array written and the attribute that keeps the
    name. *)
Definition write_baseline_file `{Builtins} (env : Env) (title suffix : string)
  (array_name : string) (array : Devices → option (list float))
  (keep_name : string → Session → Session) : M unit :=
  g ← read gui;
  let baseline_filename :=
    save_dir g +:+ "/" +:+
    replace_colons (experiment_name g +:+ "_" +:+ isoformat (now env)
                    +:+ "_" +:+ suffix +:+ ".csv") in
  with_open (open_error env) baseline_filename (
    write baseline_filename ("Ocean Optics spectrometer " +:+ title
                             +:+ " spectrum generated by Lighthouse" +:+ nl) ;;
    write baseline_filename ("For experiment: " +:+ experiment_name g +:+ nl) ;;
    write baseline_filename ("Experiment began at: " +:+ isoformat (now env) +:+ nl) ;;
    s ← the_spectrometer "model";
    write baseline_filename ("Spectrometer model: " +:+ model s +:+ nl) ;;
    itm ← attr "integration_time_micros" (integration_time_micros ∘ dev);
    write baseline_filename ("Integration time (ms): " +:+ fixed 0 (itm / 1000) +:+ nl) ;;
    write baseline_filename ("Electric dark correction enabled: "
                             +:+ str_of_bool (enable_dark_correction g) +:+ nl) ;;
    write baseline_filename ("Nonlinearity correction enabled: "
                             +:+ str_of_bool (enable_nonlinearity_correction g) +:+ nl) ;;
    wl ← attr "wavelengths" (wavelengths ∘ dev);
    write baseline_filename ("Number of data points: " +:+ str_of_len wl +:+ nl +:+ nl) ;;
    write baseline_filename (">>>Begin Data<<<" +:+ nl) ;;
    write baseline_filename "Wavelength_nm,Intensity" ;;
    for_each (seq 0 (length wl)) (λ i,
      wavelength ← getitem wl i;
      d ← read dev;
      spectrum ← not_none array_name (array d);
      intensity ← getitem spectrum i;
      write baseline_filename (str_of_float wavelength +:+ ","
                               +:+ str_of_float intensity +:+ nl)) ;;
    emit (FileClose baseline_filename) ;;
    modify_ses (keep_name baseline_filename)).

Definition write_reference_file `{Builtins} (env : Env) : M unit :=
  write_baseline_file env "reference" "REFERENCE_SPECTRUM" "reference_spec"
    reference_spec set_reference_filename.

Definition write_dark_file `{Builtins} (env : Env) : M unit :=
  write_baseline_file env "dark" "DARK_SPECTRUM" "dark_spec"
    dark_spec set_dark_filename.

(** The header of the main data file. *)
Definition write_main_header `{Builtins} (env : Env) : M unit :=
  g ← read gui;
  out ← attr "outfile" (outfile ∘ ses);
  write out ("Spectroelectrochemistry data file generated by Lighthouse" +:+ nl) ;;
  write out ("For experiment: " +:+ experiment_name g +:+ nl) ;;
  write out ("Operator: " +:+ operator g +:+ nl) ;;
  write out ("Description: " +:+ description g +:+ nl) ;;
  write out ("Experiment began at: " +:+ isoformat (now env) +:+ nl) ;;
  write out ("Use Potentiostat?: " +:+ str_of_bool (use_pstat g) +:+ nl) ;;
  (if use_pstat g then
     p ← the_potentiostat "model_no";
     write out ("Potentiostat Model Number: " +:+ model_no p +:+ nl) ;;
     write out ("Vertex Potential 1 (V): " +:+ vertex_pot1_text g +:+ nl) ;;
     write out ("Vertex Potential 2 (V): " +:+ vertex_pot2_text g +:+ nl) ;;
     write out ("Scan Rate (V/s): " +:+ scan_rate_text g +:+ nl) ;;
     write out ("Step Size (V): " +:+ step_size_text g +:+ nl) ;;
     write out ("# Cycles: " +:+ num_cycles_text g +:+ nl)
   else mret tt) ;;
  write out ("Use Spectrometer?: " +:+ str_of_bool (use_spec g) +:+ nl) ;;
  (if use_spec g then
     s ← the_spectrometer "model";
     write out ("Spectrometer model: " +:+ model s +:+ nl) ;;
     itm ← attr "integration_time_micros" (integration_time_micros ∘ dev);
     write out ("Integration time (ms): " +:+ fixed 0 (itm / 1000) +:+ nl) ;;
     write out ("Electric dark correction enabled: "
                +:+ str_of_bool (enable_dark_correction g) +:+ nl) ;;
     write out ("Nonlinearity correction enabled: "
                +:+ str_of_bool (enable_nonlinearity_correction g) +:+ nl) ;;
     t ← attr "running_intensity_type" (running_intensity_type ∘ ses);
     write out ("Intensity Type: " +:+ t +:+ nl) ;;
     wl ← attr "wavelengths" (wavelengths ∘ dev);
     write out ("Number of distinct wavelengths: " +:+ str_of_len wl +:+ nl)
   else mret tt) ;;
  write out ("Column headers to the right of potentiostat data are the spectrometer wavelengths in nm."
             +:+ nl +:+ nl) ;;
  write out (">>>Begin Data<<<" +:+ nl) ;;
  write out "Time_s,Potential_V,Current_A" ;;
  wl ← attr "wavelengths" (wavelengths ∘ dev);
  for_each wl (λ wavelength, write out ("," +:+ fixed 1 wavelength)).

(** [np.abs(v2-v1) / scanrate * 2 * cycles]: float arithmetic from left to
    right, the int [cycles_num] converted to a float by the last product. *)
Definition run_time_formula (v1_num v2_num scanrate_num : float)
  (cycles_num : Z) : float :=
  (PrimFloat.abs (v2_num - v1_num) / scanrate_num * 2 * float_of_int cycles_num)%float.

(** Setting up the waveform and the acquisition curve, and beginning the
    run: the last part of [start_measurement]. *)
Definition arm_and_begin `{Builtins} (env : Env)
  (v1_num v2_num scanrate_num : float) (cycles_num : Z)
  (sample_period collection_time_ms : float) : M unit :=
  the_potentiostat "signal_r_up_dn_new" ;;
  emit (PstatCmd (SignalRUpDnNew [v1_num; v1_num; v2_num; v2_num]
                    [scanrate_num; scanrate_num; scanrate_num]
                    [0; 0; 0]%float sample_period cycles_num)) ;;
  match signal_error env with
  | Some msg => raise (DriverError msg)
  | None =>
      emit (PstatCmd SetSignalRUpDn) ;;
      emit (PstatCmd InitSignal) ;;
      emit (PstatCmd (NewRcvCurve 4000000)) ;;
      emit (PstatCmd (SetStopIMax true 5)) ;;
      modify_ses (set_acq_curve
        (set_stop_i_max 5 (MkRcvCurve 4000000 None false false []))) ;;
      emit (Configure "lbl_running" "Running..." "green") ;;
      modify_ses (set_time_start (time_time env)) ;;
      (if is_infinity (float_of_int cycles_num)
       then raise (OverflowError "int too large to convert to float")
       else mret tt) ;;
      let calc_run_time := run_time_formula v1_num v2_num scanrate_num cycles_num in
      modify_ses (set_calc_run_time calc_run_time) ;;
      emit (StdoutLine ("Estimated experiment time: "
                        +:+ fixed 2 (calc_run_time / 60) +:+ " minutes.")) ;;
      modify_ses (set_num_freq_s (collection_time_ms / 1000)) ;;
      emit (ThreadStart "run_measurement")
  end.

(** Opening the output files and writing their headers: the part of
    [start_measurement] between the checks and the waveform set-up. *)
Definition open_output_files `{Builtins} (env : Env)
  (v1_num v2_num scanrate_num : float) (cycles_num : Z)
  (sample_period collection_time_ms : float) : M unit :=
  g ← read gui;
  modify_ses (set_running_intensity_type (spec_intensity_type g)) ;;
  intensity_type_text ← dict_get filename_intensity_type (spec_intensity_type g);
  modify_ses (set_filename_time (now env)) ;;
  let filename :=
    save_dir g +:+ "/" +:+
    replace_colons (experiment_name g +:+ "_" +:+ isoformat (now env)
                    +:+ "_" +:+ intensity_type_text +:+ ".csv") in
  match open_error env filename with
  | Some strerror => emit (MboxError "Error opening file" strerror)
  | None =>
      emit (FileOpen filename) ;;
      modify_ses (set_outfile filename) ;;
      modify_ses (set_filename filename) ;;
      has_ref ← attr "has_reference_spec" (has_reference_spec ∘ dev);
      (if has_ref : bool then write_reference_file env else mret tt) ;;
      write_dark_file env ;;
      write_main_header env ;;
      arm_and_begin env v1_num v2_num scanrate_num cycles_num sample_period
        collection_time_ms
  end.

Definition warn_value_error : M unit :=
  emit (MboxWarning "Value Error"
    "One of the PStat parameters does not appear to be a valid number.").

Definition warn_collection_number : M unit :=
  emit (MboxWarning "Value Error"
    "Could not convert contents of collection frequency box into a number!").

Definition warn_collection_frequency : M unit :=
  emit (MboxWarning "Collection Frequency Error"
    "Minimum time between collecting spectra must be larger than integration time!").

Definition warn_reference_required : M unit :=
  emit (MboxWarning "Error saving file"
    "Chosen intensity type requires a reference spectrum").

Definition warn_potentiostat : M unit :=
  emit (MboxWarning "Potentiostat Not Connected"
    "You are using the potentiostat for this measurement, but it does not appear to be connected.").

Definition warn_spectrometer : M unit :=
  emit (MboxWarning "Spectrometer Not Connected"
    "You are using the spectrometer for this measurement, but it does not appear to be connected.").

(** [start_measurement]: every [return] of the source is the end of a
    branch here. *)
Definition start_measurement `{Builtins} (env : Env) : M unit :=
  g ← read gui;
  s ← read ses;
  if running s then mret tt else
  match parse_pstat_parameters g with
  | None => warn_value_error
  | Some (v1_num, v2_num, scanrate_num, cycles_num, sample_period) =>
  itm ← attr "integration_time_micros" (integration_time_micros ∘ dev);
  let integration_time_ms := (itm / 1000)%float in
  match float_of_str (spec_freq_txt g) with
  | None => warn_collection_number
  | Some collection_time_num =>
  match collection_time_in_ms (spec_freq_units g) collection_time_num with
  | None => raise (UnboundLocalError "collection_time_ms")
  | Some collection_time_ms =>
  if PrimFloat.leb collection_time_ms integration_time_ms
  then warn_collection_frequency else
  needs_ref ←
    (if negb (String.eqb (spec_intensity_type g) "Raw Int.") then
       h ← attr "has_reference_spec" (has_reference_spec ∘ dev);
       mret (negb h)
     else mret false);
  if needs_ref : bool then warn_reference_required else
  d ← read dev;
  if use_pstat g && negb (has_potentiostat d) then warn_potentiostat else
  if use_spec g && negb (has_spectrometer d) then warn_spectrometer else
  open_output_files env v1_num v2_num scanrate_num cycles_num sample_period
    collection_time_ms
  end end end.

(** ** [run_measurement] *)

(** One row of the main data file. *)
Record MergedRecord := MkMergedRecord {
  rec_elapsed_time : float;
  rec_potential : float;
  rec_current : float;
  rec_intensities : list float
}.

(** The part of [run_measurement] before the loop. *)
Definition run_measurement_begin : M unit :=
  modify_ses (set_last_file_flush (-100)%float) ;;
  modify_ses (set_running true) ;;
  modify_ses (set_should_draw_pstat true) ;;
  emit (Configure "lbl_cell_state" "Cell On" "green") ;;
  the_potentiostat "set_cell" ;;
  emit (PstatCmd (SetCell true)) ;;
  c ← attr "acq_curve" (acq_curve ∘ ses);
  emit (PstatCmd CurveRun) ;;
  modify_ses (set_acq_curve (curve_run c)) ;;
  emit (ThreadStart "plot_pstat_curve").

(** The intensity computed from the raw spectrum, by the intensity type
    kept at start.  [None] for a baseline is Python's [None], on which the
    subtraction raises [TypeError]. *)
Definition calculate_intensities `{Builtins} (running_intensity_type : string)
  (now_raw_intensities : list float) (d : Devices) : result (list float) :=
  if String.eqb running_intensity_type "Raw Int." then
    inr now_raw_intensities
  else if String.eqb running_intensity_type "Raw Int. - Ref" then
    ref ← is_array "reference_spec" (reference_spec d);
    np_binop PrimFloat.sub now_raw_intensities ref
  else if String.eqb running_intensity_type "%T or %R" then
    dark ← is_array "dark_spec" (dark_spec d);
    num ← np_binop PrimFloat.sub now_raw_intensities dark;
    ref ← is_array "reference_spec" (reference_spec d);
    den ← np_binop PrimFloat.sub ref dark;
    np_binop PrimFloat.div num den
  else
    dark ← is_array "dark_spec" (dark_spec d);
    num ← np_binop PrimFloat.sub now_raw_intensities dark;
    ref ← is_array "reference_spec" (reference_spec d);
    den ← np_binop PrimFloat.sub ref dark;
    now_intensities ← np_binop PrimFloat.div num den;
    inr ((λ x, -1 * np_log10 x)%float <$> now_intensities).

(** One body of the [while] loop.  [raw] is the spectrum that the
    spectrometer returns on this tick and [capture_s] the time the capture
    call took, which the program does not measure. *)
Definition merge_tick `{Builtins} (raw : list float) (capture_s : float)
  : M MergedRecord :=
  c ← attr "acq_curve" (acq_curve ∘ ses);
  let now_pstat_pt := last_data_point c in
  modify_ses (set_most_recent_pstat_pt now_pstat_pt) ;;
  pt ← not_none "'NoneType' object is not subscriptable" now_pstat_pt;
  elapsed_time ← getitem pt 1;
  now_potential ← getitem pt 2;
  now_current ← getitem pt 4;
  the_spectrometer "intensities" ;;
  emit (SpecCmd (Intensities true true)) ;;
  emit (Elapsed capture_s) ;;
  t ← attr "running_intensity_type" (running_intensity_type ∘ ses);
  d ← read dev;
  now_intensities ← lift_exn (calculate_intensities t raw d);
  out ← attr "outfile" (outfile ∘ ses);
  write out nl ;;
  write out (str_of_float elapsed_time +:+ "," +:+ str_of_float now_potential
             +:+ "," +:+ str_of_float now_current) ;;
  for_each now_intensities (λ intensity, write out ("," +:+ str_of_float intensity)) ;;
  last_flush ← attr "last_file_flush" (last_file_flush ∘ ses);
  (if PrimFloat.ltb 30 (elapsed_time - last_flush) then
     emit (FileFlush out) ;;
     modify_ses (set_last_file_flush elapsed_time)
   else mret tt) ;;
  period ← attr "num_freq_s" (num_freq_s ∘ ses);
  emit (Sleep period) ;;
  mret (MkMergedRecord elapsed_time now_potential now_current now_intensities).

(** The part of [run_measurement] after the loop. *)
Definition run_measurement_end `{Builtins} (env : Env) : M unit :=
  the_potentiostat "set_cell" ;;
  emit (PstatCmd (SetCell false)) ;;
  emit (Configure "lbl_cell_state" "Cell Off" "red") ;;
  out ← attr "outfile" (outfile ∘ ses);
  emit (FileClose out) ;;
  modify_ses (set_should_draw_pstat false) ;;
  modify_ses (set_end_time (time_time env)) ;;
  g ← read gui;
  t ← attr "filename_time" (filename_time ∘ ses);
  let pstat_data_filename :=
    save_dir g +:+ "/" +:+
    replace_colons (experiment_name g +:+ "_Raw_PStat_Data_" +:+ datetime_str t
                    +:+ ".csv") in
  with_open (open_error env) pstat_data_filename (
    c ← attr "acq_curve" (acq_curve ∘ ses);
    emit (PstatCmd AcqData) ;;
    emit (SaveTxt pstat_data_filename
            "point,time,vf,vu,im,ach,vsig,temp,cycle,ie_range,overload,stop_test"
            (rc_points c)) ;;
    modify_ses (set_pstat_data_filename pstat_data_filename)) ;;
  emit (Configure "lbl_running" "not running" "red") ;;
  modify_ses (set_running false) ;;
  if negb (String.eqb (emails g) EmptyString) then emit SendEmails else mret tt.

(** [abort_measurement] *)
Definition abort_measurement : M unit :=
  s ← read ses;
  if running s then
    c ← attr "acq_curve" (acq_curve ∘ ses);
    emit (PstatCmd CurveStop) ;;
    modify_ses (set_acq_curve (curve_stop c))
  else mret tt.

(** What happens around the merge worker while it runs: the driver stores a
    point or reaches the end of the signal, the user edits the intensity
    type or presses Abort, and the worker itself gets to run: [Tick] is one
    evaluation of the loop condition followed, when it holds, by one loop
    body. *)
Inductive event :=
| Acquire (p : data_point)
| SignalDone
| UserSelect (intensity_type : string)
| UserAbort
| Tick (raw : list float) (capture_s : float).

Inductive status :=
| Looping
| Finished
| Crashed (e : exn).

(** A step of the driver on the acquisition curve, when there is one. *)
Definition driver_step (f : RcvCurve → RcvCurve) (w : World) : World :=
  match acq_curve (ses w) with
  | Some c => MkWorld (gui w) (dev w) (set_acq_curve (f c) (ses w)) (log w)
  | None => w
  end.

Definition user_select (v : string) (w : World) : World :=
  MkWorld (select_intensity_type v (gui w)) (dev w) (ses w) (log w).

(** The [while self.acq_curve.running()] loop against a schedule of events;
    the records are those of the executed loop bodies, in order. *)
Fixpoint run_loop `{Builtins} (env : Env) (events : list event) (w : World)
  : status * list MergedRecord * World :=
  match events with
  | [] => (Looping, [], w)
  | Acquire p :: rest => run_loop env rest (driver_step (curve_acquire p) w)
  | SignalDone :: rest => run_loop env rest (driver_step curve_stop w)
  | UserSelect v :: rest => run_loop env rest (user_select v w)
  | UserAbort :: rest =>
      match abort_measurement w with
      | (_, w') => run_loop env rest w'
      end
  | Tick raw capture_s :: rest =>
      match attr "acq_curve" (acq_curve ∘ ses) w with
      | (inl e, w') => (Crashed e, [], w')
      | (inr c, w') =>
          if rc_running c then
            match merge_tick raw capture_s w' with
            | (inl e, w'') => (Crashed e, [], w'')
            | (inr r, w'') =>
                match run_loop env rest w'' with
                | (st, rs, w''') => (st, r :: rs, w''')
                end
            end
          else
            match run_measurement_end env w' with
            | (inl e, w'') => (Crashed e, [], w'')
            | (inr _, w'') => (Finished, [], w'')
            end
      end
  end.

(** [run_measurement], the target of the measurement thread. *)
Definition run_measurement `{Builtins} (env : Env) (events : list event)
  (w : World) : status * list MergedRecord * World :=
  match run_measurement_begin w with
  | (inl e, w') => (Crashed e, [], w')
  | (inr _, w') => run_loop env events w'
  end.

(** ** A runtime for running the model on concrete inputs

    [demo_builtins] implements the builtins on the inputs that the examples
    below use, where it returns what Python and numpy return:
    texts of the form [-]digits[.digits] with at most 15 digits for
    [float] and [int], any float for the fixed-point format, floats with an
    integral value below 10^16, infinities and NaN for [f"{x}"], and the
    arguments 1, 10, 100, zero, negative numbers, infinity and NaN for
    [np.log10].  Other inputs are outside its domain. *)

Fixpoint digits_value (acc : Z) (n : nat) (s : string) : option (Z * nat) :=
  match s with
  | EmptyString => Some (acc, n)
  | String c r =>
      let k := Z.of_nat (nat_of_ascii c) - 48 in
      if (0 <=? k) && (k <=? 9) then digits_value (10 * acc + k) (S n) r
      else None
  end%Z.

(** The digits before and after the first dot of a text. *)
Fixpoint split_dot (s : string) : string * option string :=
  match s with
  | EmptyString => (EmptyString, None)
  | String c r =>
      if Ascii.eqb c "."%char then (EmptyString, Some r)
      else let '(a, b) := split_dot r in (String c a, b)
  end.

Definition unsigned_decimal (s : string) : option float :=
  match split_dot s with
  | (a, None) =>
      '(v, n) ← digits_value 0 0 a;
      if decide (0 < n ≤ 15)%nat then Some (float_of_int v) else None
  | (a, Some b) =>
      '(v, n) ← digits_value 0 0 a;
      '(v', n') ← digits_value v 0 b;
      if decide (0 < n + n' ≤ 15)%nat
      then Some (float_of_int v' / float_of_int (10 ^ Z.of_nat n'))%float
      else None
  end.

Definition demo_float_of_str (s : string) : option float :=
  match s with
  | String "-"%char r => PrimFloat.opp <$> unsigned_decimal r
  | _ => unsigned_decimal s
  end.

Definition demo_int_of_str (s : string) : option Z :=
  let digits r :=
    '(v, n) ← digits_value 0 0 r;
    if decide (0 < n ≤ 15)%nat then Some v else None in
  match s with
  | String "-"%char r => Z.opp <$> digits r
  | _ => digits s
  end.

(** [a / b] rounded to the nearest integer, ties to even; [0 ≤ a], [0 < b]. *)
Definition div_half_even (a b : Z) : Z :=
  let q := (a / b)%Z in
  let r := (a mod b)%Z in
  if (2 * r <? b)%Z then q
  else if (b <? 2 * r)%Z then (q + 1)%Z
  else if Z.even q then q else (q + 1)%Z.

Fixpoint zero_pad (n : nat) (s : string) : string :=
  match n with
  | O => s
  | S k => if decide (String.length s < n)%nat then zero_pad k ("0" +:+ s) else s
  end.

(** [f"{x:.Nf}"]: the exact binary value, rounded to [n] decimals. *)
Definition demo_fixed (n : nat) (x : float) : string :=
  let render (negative : bool) (scaled : Z) :=
    (if negative then "-" else EmptyString) +:+
    pretty (scaled / 10 ^ Z.of_nat n)%Z +:+
    match n with
    | O => EmptyString
    | _ => "." +:+ zero_pad n (pretty (scaled mod 10 ^ Z.of_nat n)%Z)
    end in
  match Prim2SF x with
  | S754_nan => "nan"
  | S754_infinity s => if s then "-inf" else "inf"
  | S754_zero s => render s 0%Z
  | S754_finite s m e =>
      render s (if (0 <=? e)%Z then (Z.pos m * 2 ^ e * 10 ^ Z.of_nat n)%Z
                else div_half_even (Z.pos m * 10 ^ Z.of_nat n) (2 ^ (- e)))
  end.

Definition is_integral (x : float) : bool :=
  match Prim2SF x with
  | S754_zero _ => true
  | S754_finite _ m e =>
      if (0 <=? e)%Z then true else (Z.pos m mod 2 ^ (- e) =? 0)%Z
  | _ => false
  end.

Definition demo_str_of_float (x : float) : string :=
  if is_nan x then "nan"
  else if is_infinity x then (if PrimFloat.ltb x 0 then "-inf" else "inf")
  else if is_integral x && PrimFloat.ltb (PrimFloat.abs x) 1e16
  then demo_fixed 1 x
  else "<float>".

Definition demo_log10 (x : float) : float :=
  if is_nan x then nan
  else if PrimFloat.ltb x 0 then nan
  else if PrimFloat.eqb x 0 then neg_infinity
  else if PrimFloat.eqb x 1 then 0%float
  else if PrimFloat.eqb x 10 then 1%float
  else if PrimFloat.eqb x 100 then 2%float
  else if is_infinity x then infinity
  else nan.

Definition demo_builtins : Builtins := {|
  float_of_str := demo_float_of_str;
  int_of_str := demo_int_of_str;
  str_of_float := demo_str_of_float;
  fixed := demo_fixed;
  np_log10 := demo_log10
|}.

(** A bench: a spectrometer with five pixels and a potentiostat, an
    environment in which every file opens and the driver accepts the
    signal. *)
Definition demo_spectrometer : Spectrometer :=
  MkSpectrometer "USB2000" (3000, 65000000)%float
    [400; 401; 402; 403; 404]%float.

Definition demo_pstat : Pstat := MkPstat "REF600".

Definition demo_env : Env :=
  MkEnv (MkDatetime "2026-02-16T10:30:00" "2026-02-16 10:30:00") 1771237800
        (λ _, None) None.

(** The user fills in the parameters of the scenario of the specification:
    0 V to 1 V at 0.01 V/s, one cycle, 0.1 s sample period, a spectrum
    every 5 s. *)
Definition fill_in (intensity_type : string) (w : World) : World :=
  MkWorld (MkGui "0.0" "1.0" "0.01" "1" "0.1" "5" "s" intensity_type
                 true true true true "Experiment" "Graham Lab" EmptyString EmptyString ".")
          (dev w) (ses w) (log w).

(** Running methods one after the other, as the GUI thread does. *)
Definition exec {A} (m : M A) (w : World) : World := snd (m w).

Definition demo_connected : World :=
  exec (connect_pstat [demo_pstat])
    (exec (connect_spectrometer (Some demo_spectrometer)) init_window).

(** A reference and a dark spectrum that agree on two pixels. *)
Definition demo_dark : list float := [0; 100; 400; 400; 50]%float.
Definition demo_reference : list float := [100; 100; 400; 401; 60]%float.
Definition demo_raw : list float := [1000; 50; 400; 500; 50]%float.

Definition demo_with_baselines : World :=
  exec (store_dark_spectrum demo_dark)
    (exec (store_reference_spectrum demo_reference) demo_connected).

(** The window once [start_measurement] has returned, and once the
    measurement thread has reached its loop. *)
Definition demo_started (intensity_type : string) (w : World) : World :=
  exec (start_measurement (H:=demo_builtins) demo_env) (fill_in intensity_type w).

Definition demo_looping (intensity_type : string) (w : World) : World :=
  exec run_measurement_begin (demo_started intensity_type w).

(** A data point with the given number, elapsed time, potential and
    current. *)
Definition demo_point (n t vf im : float) : data_point :=
  [n; t; vf; vf; im; 0; vf; 0; 1; 10; 0; 0]%float.

(** Points that the driver acquires in the examples: number, elapsed time,
    potential, current. *)
Definition demo_p0 : data_point := demo_point 1 0 0 1.
Definition demo_p1 : data_point := demo_point 2 30 1 2.

(** The main data file of the examples. *)
Definition demo_outfile : string :=
  "./Experiment_2026-02-16T10-30-00_Raw_Intensity.csv".

(** The window at the loop of a raw-intensity measurement, and schedules
    for it: two ticks that see the same point, two ticks with a new point
    in between, and a point above the current limit between two ticks. *)
Definition demo_loop_start : World := demo_looping "Raw Int." demo_connected.




(** The window before the second tick of [demo_two_points]: the file was
    flushed at elapsed time 0 and the most recent point is 30 s old. *)
Definition demo_before_second_tick : World :=
  driver_step (curve_acquire demo_p1)
    (snd (run_loop (H:=demo_builtins) demo_env
            [Acquire demo_p0; Tick demo_raw 0.25] demo_loop_start)).


(** The user asks to start while only the potentiostat is connected. *)
Definition demo_no_spectrometer : World :=
  fill_in "Raw Int." (exec (connect_pstat [demo_pstat]) init_window).

(** Schedules that differ only in the user's edits of the selector. *)
Definition demo_edits_1 : list event :=
  [Acquire demo_p0; Tick demo_raw 0.25; UserSelect "Raw Int.";
   Acquire demo_p1; Tick demo_raw 0.25].

Definition demo_edits_2 : list event :=
  [Acquire demo_p0; UserSelect "%T or %R"; Tick demo_raw 0.25;
   Acquire demo_p1; UserSelect "Raw Int. - Ref"; Tick demo_raw 0.25].

(** ** Notions used in the statements *)

Definition add_log (l : list effect) (w : World) : World :=
  MkWorld (gui w) (dev w) (ses w) (log w ++ l).

Definition with_ses (f : Session → Session) (w : World) : World :=
  MkWorld (gui w) (dev w) (f (ses w)) (log w).

(** The effects performed between two states of the window. *)
Definition new_effects (w w' : World) : list effect :=
  drop (length (log w)) (log w').

(** The lines of a text. *)
Fixpoint lines_from (current : string) (s : string) : list string :=
  match s with
  | EmptyString => [current]
  | String c r =>
      if Ascii.eqb c (ascii_of_nat 10) then current :: lines_from EmptyString r
      else lines_from (current +:+ String c EmptyString) r
  end.

Definition lines (s : string) : list string := lines_from EmptyString s.

(** The writes of one row of the main data file, and its text. *)
Definition row_effects `{Builtins} (out : string) (r : MergedRecord)
  : list effect :=
  [FileWrite out nl;
   FileWrite out (str_of_float (rec_elapsed_time r) +:+ ","
                  +:+ str_of_float (rec_potential r) +:+ ","
                  +:+ str_of_float (rec_current r))]
  ++ ((λ x, FileWrite out ("," +:+ str_of_float x)) <$> rec_intensities r).


(** The name, the metadata lines up to the sentinel, one data row, and all
    the effects of a baseline file. *)
Definition baseline_path (env : Env) (g : Gui) (suffix : string) : string :=
  save_dir g +:+ "/" +:+
  replace_colons (experiment_name g +:+ "_" +:+ isoformat (now env)
                  +:+ "_" +:+ suffix +:+ ".csv").

Definition baseline_metadata `{Builtins} (env : Env) (g : Gui) (title : string)
  (s : Spectrometer) (itm : float) (wl : list float) : list string :=
  ["Ocean Optics spectrometer " +:+ title
     +:+ " spectrum generated by Lighthouse" +:+ nl;
   "For experiment: " +:+ experiment_name g +:+ nl;
   "Experiment began at: " +:+ isoformat (now env) +:+ nl;
   "Spectrometer model: " +:+ model s +:+ nl;
   "Integration time (ms): " +:+ fixed 0 (itm / 1000) +:+ nl;
   "Electric dark correction enabled: "
     +:+ str_of_bool (enable_dark_correction g) +:+ nl;
   "Nonlinearity correction enabled: "
     +:+ str_of_bool (enable_nonlinearity_correction g) +:+ nl;
   "Number of data points: " +:+ str_of_len wl +:+ nl +:+ nl;
   ">>>Begin Data<<<" +:+ nl].

Definition baseline_row `{Builtins} (path : string)
  (wavelength intensity : float) : effect :=
  FileWrite path (str_of_float wavelength +:+ ","
                  +:+ str_of_float intensity +:+ nl).

Definition baseline_effects `{Builtins} (env : Env) (g : Gui)
  (title suffix : string) (s : Spectrometer) (itm : float)
  (wl spectrum : list float) : list effect :=
  let path := baseline_path env g suffix in
  [FileOpen path]
  ++ (FileWrite path <$> baseline_metadata env g title s itm wl)
  ++ [FileWrite path "Wavelength_nm,Intensity"]
  ++ zip_with (baseline_row path) wl spectrum
  ++ [FileClose path; FileClose path].





(** The schedule without the user's edits of the intensity type. *)
Fixpoint without_selections (events : list event) : list event :=
  match events with
  | [] => []
  | UserSelect _ :: rest => without_selections rest
  | e :: rest => e :: without_selections rest
  end.

(** Two windows that differ at most in the live intensity-type selector. *)
Definition same_but_selection (w1 w2 : World) : Prop :=
  user_select EmptyString w1 = user_select EmptyString w2.

(** A computation that does not look at the selector. *)
Definition blind {A} (m : M A) : Prop :=
  ∀ w1 w2, same_but_selection w1 w2 →
  fst (m w1) = fst (m w2) ∧ same_but_selection (snd (m w1)) (snd (m w2)).

(** The windows that the user can reach before a measurement is started:
    any edit of the settings, connecting the instruments and storing
    baselines. *)
Inductive before_start : World → Prop :=
| before_start_init : before_start init_window
| before_start_edit g w :
    before_start w → before_start (MkWorld g (dev w) (ses w) (log w))
| before_start_connect_pstat devices w :
    before_start w → before_start (exec (connect_pstat devices) w)
| before_start_connect_spectrometer found w :
    before_start w → before_start (exec (connect_spectrometer found) w)
| before_start_store_reference reading w :
    before_start w → before_start (exec (store_reference_spectrum reading) w)
| before_start_store_dark reading w :
    before_start w → before_start (exec (store_dark_spectrum reading) w).

(** * The rest of the window

    The handlers and thread bodies of [MyWindow] that the measurement path
    above does not go through, and the notions used to state their
    properties. *)

(** ** Handlers of the spectrometer frame and of the File menu *)

Definition modify_gui (f : Gui → Gui) : M unit := λ w,
  (inr tt, MkWorld (f (gui w)) (dev w) (ses w) (log w)).

Definition set_integration_time_micros v (d : Devices) : Devices :=
  MkDevices (has_potentiostat d) (potentiostat d) (has_spectrometer d)
    (spectrometer d) (Some v) (wavelengths d) (has_reference_spec d)
    (reference_spec d) (dark_spec d).

Definition set_save_dir v (g : Gui) : Gui :=
  MkGui (vertex_pot1_text g) (vertex_pot2_text g) (scan_rate_text g)
    (num_cycles_text g) (step_size_text g) (spec_freq_txt g)
    (spec_freq_units g) (spec_intensity_type g) (use_pstat g) (use_spec g)
    (enable_dark_correction g) (enable_nonlinearity_correction g)
    (experiment_name g) (operator g) (description g) (emails g) v.

(** [set_integ_time]: [text] is the content of the integration-time entry.
    The [try] block catches [ValueError] only, which [float] raises. *)
Definition set_integ_time `{Builtins} (text : string) : M unit :=
  d ← read dev;
  if has_spectrometer d then
    match float_of_str text with
    | None =>
        emit (MboxWarning "Could not set integ. time"
                "Value does not appear to be a string")
    | Some x =>
        let integ_time_micros := (1000 * x)%float in
        s ← the_spectrometer "integration_time_micros_limits";
        let limits := integration_time_micros_limits s in
        if PrimFloat.ltb (fst limits) integ_time_micros
           && PrimFloat.ltb integ_time_micros (snd limits)
        then
          emit (SpecCmd (SetIntegrationTime integ_time_micros)) ;;
          modify_dev (set_integration_time_micros integ_time_micros)
        else
          emit (MboxWarning "Could not set integ. time"
                  "Value is outside hardcoded spectrometer limits")
    end
  else mret tt.

(** [choose_out_dir]: [answer] is what [filedialog.askdirectory] returns. *)
Definition choose_out_dir (answer : string) : M unit :=
  modify_gui (set_save_dir answer) ;;
  g ← read gui;
  emit (Configure "lbl_filename" ("Save to: " +:+ save_dir g) EmptyString).

(** ** The drawing threads *)

(** The calls on a matplotlib axes and its canvas. *)
Inductive axes_cmd :=
| AxesClear
| AxesPlot (x y : list float) (fmt colour : option string)
| AxesSetXLabel (label : string)
| AxesSetYLabel (label : string)
| AxesSetXLim (left right : float)
| AxesSetYLim (bottom top : float)
| AxesGrid
| CanvasDraw.

(** [axes.plot(x, y, ...)] refuses two sequences of different lengths. *)
Definition axes_plot (x y : list float) (fmt colour : option string)
  : M axes_cmd :=
  if decide (length x = length y) then mret (AxesPlot x y fmt colour)
  else raise (ValueError "x and y must have same first dimension").

(** [l[-1]] *)
Definition getitem_last {A} (l : list A) : M A :=
  match last l with
  | Some x => mret x
  | None => raise (IndexError "index out of range")
  end.

(** The calls that the three branches of [draw_spec] for a computed
    intensity have in common. *)
Definition draw_computed (wl ys : list float) (colour : option string)
  (ylabel : string) : M (list axes_cmd) :=
  p ← axes_plot wl ys None colour;
  left ← getitem wl 0;
  right ← getitem_last wl;
  mret [AxesClear; p; AxesSetXLabel "Wavelength (nm)"; AxesSetYLabel ylabel;
        AxesSetXLim left right; AxesGrid; CanvasDraw].

(** One body of the [while self.should_draw_spec] loop of [draw_spec]:
    [reading] is the spectrum the spectrometer returns, the result is what
    is drawn.  Without a spectrometer the body is left by [continue],
    before the sleep. *)
Definition draw_spec_body `{Builtins} (reading : list float)
  : M (list axes_cmd) :=
  d ← read dev;
  if negb (has_spectrometer d) then mret [] else
  the_spectrometer "intensities" ;;
  emit (SpecCmd (Intensities true true)) ;;
  let now_intensities := reading in
  g ← read gui;
  let intensity_type := spec_intensity_type g in
  let selected_with_reference (name : string) : M bool :=
    if String.eqb intensity_type name
    then attr "has_reference_spec" (has_reference_spec ∘ dev)
    else mret false in
  drawn ←
    (if String.eqb intensity_type "Raw Int." then
       wl ← attr "wavelengths" (wavelengths ∘ dev);
       p ← axes_plot wl now_intensities None (Some "blue");
       q ← axes_plot [0; 3000]%float [170000; 170000]%float
             (Some "--") (Some "red");
       left ← getitem wl 0;
       right ← getitem_last wl;
       mret [AxesClear; p; q; AxesSetXLabel "Wavelength (nm)";
             AxesSetYLabel "Raw Intensity (a.u.)"; AxesSetXLim left right;
             AxesSetYLim 0 180000; AxesGrid; CanvasDraw]
     else
     subtracted ← selected_with_reference "Raw Int. - Ref";
     if subtracted : bool then
       ref ← lift_exn (is_array "reference_spec" (reference_spec d));
       calc_intensities ← lift_exn (np_binop PrimFloat.sub now_intensities ref);
       wl ← attr "wavelengths" (wavelengths ∘ dev);
       draw_computed wl calc_intensities (Some "blue") "Subtracted Intensity"
     else
     fractional ← selected_with_reference "%T or %R";
     if fractional : bool then
       dark ← lift_exn (is_array "dark_spec" (dark_spec d));
       num ← lift_exn (np_binop PrimFloat.sub now_intensities dark);
       ref ← lift_exn (is_array "reference_spec" (reference_spec d));
       den ← lift_exn (np_binop PrimFloat.sub ref dark);
       calc_intensities ← lift_exn (np_binop PrimFloat.div num den);
       wl ← attr "wavelengths" (wavelengths ∘ dev);
       draw_computed wl calc_intensities (Some "blue") "Fractional T or R"
     else
     absorbance ← selected_with_reference "Abs";
     if absorbance : bool then
       dark ← lift_exn (is_array "dark_spec" (dark_spec d));
       num ← lift_exn (np_binop PrimFloat.sub now_intensities dark);
       ref ← lift_exn (is_array "reference_spec" (reference_spec d));
       den ← lift_exn (np_binop PrimFloat.sub ref dark);
       fraction ← lift_exn (np_binop PrimFloat.div num den);
       let calc_abs := (λ x, -1 * np_log10 x)%float <$> fraction in
       wl ← attr "wavelengths" (wavelengths ∘ dev);
       draw_computed wl calc_abs None "Absorbance"
     else mret []) ;
  emit (Sleep 5) ;;
  mret drawn.

(** [data[:, j]] on the table of acquired points. *)
Fixpoint column (data : list data_point) (j : nat) : M (list float) :=
  match data with
  | [] => mret []
  | row :: rest =>
      x ← getitem row j;
      xs ← column rest j;
      mret (x :: xs)
  end.

(** One body of the [while self.should_draw_pstat] loop of
    [plot_pstat_curve]; with fewer than two points the body is left by
    [continue], before the sleep. *)
Definition plot_pstat_body : M (list axes_cmd) :=
  c ← attr "acq_curve" (acq_curve ∘ ses);
  match (length (rc_points c) <? 2)%nat, last_data_point c with
  | false, Some now_pstat_pt =>
      let data := rc_points c in
      elapsed_time ← getitem now_pstat_pt 1;
      potentials ← column data 2;
      currents ← column data 4;
      p ← axes_plot potentials currents None (Some "blue");
      emit (Sleep (if PrimFloat.ltb 60 elapsed_time then 60 else 3)) ;;
      mret [AxesClear; p; AxesSetXLabel "WE Potential (V)";
            AxesSetYLabel "Current (A)"; AxesGrid; CanvasDraw]
  | _, _ => mret []
  end.

(** ** What the user and the threads can do, in any order *)

Inductive action :=
| Edit (g : Gui)
| ConnectPstat (devices : list Pstat)
| ConnectSpectrometer (found : option Spectrometer)
| SetIntegTime (text : string)
| StoreReference (reading : list float)
| StoreDark (reading : list float)
| ChooseOutDir (answer : string)
| CollectNow (env : Env) (reading : list float)
| Start (env : Env)
| WorkerBegin
| Worker (env : Env) (ev : event)
| DrawSpec (reading : list float)
| PlotPstat.

(** [Edit] is any change of the Tk variables and of the settings of the
    Edit menu; [WorkerBegin] and [Worker] are the steps of the measurement
    thread and of what goes on around it, the Abort button included. *)
Definition perform `{Builtins} (a : action) (w : World) : World :=
  match a with
  | Edit g => MkWorld g (dev w) (ses w) (log w)
  | ConnectPstat devices => exec (connect_pstat devices) w
  | ConnectSpectrometer found => exec (connect_spectrometer found) w
  | SetIntegTime text => exec (set_integ_time text) w
  | StoreReference reading => exec (store_reference_spectrum reading) w
  | StoreDark reading => exec (store_dark_spectrum reading) w
  | ChooseOutDir answer => exec (choose_out_dir answer) w
  | CollectNow env reading => exec (collect_spec_now env reading) w
  | Start env => exec (start_measurement env) w
  | WorkerBegin => exec run_measurement_begin w
  | Worker env ev => snd (run_loop env [ev] w)
  | DrawSpec reading => exec (draw_spec_body reading) w
  | PlotPstat => exec plot_pstat_body w
  end.

Definition perform_all `{Builtins} (actions : list action) (w : World)
  : World :=
  foldl (λ w a, perform a w) w actions.

(** The window after a sequence of actions on a new window. *)
Definition after `{Builtins} (actions : list action) : World :=
  perform_all actions init_window.


(** The integration time last sent to the spectrometer. *)
Definition integration_time_sent (l : list effect) : option float :=
  foldl (λ sent e, match e with
                   | SpecCmd (SetIntegrationTime x) => Some x
                   | _ => sent
                   end) None l.

(** An integration time that a spectrometer's handle can have been given:
    its minimum, or a value strictly between its limits. *)
Definition within_limits (s : Spectrometer) (x : float) : Prop :=
  x = fst (integration_time_micros_limits s)
  ∨ (PrimFloat.ltb (fst (integration_time_micros_limits s)) x = true
     ∧ PrimFloat.ltb x (snd (integration_time_micros_limits s)) = true).

(** What the attributes about the spectrometer satisfy together. *)
Definition consistent (w : World) : Prop :=
  (has_reference_spec (dev w) = Some true → is_Some (reference_spec (dev w)))
  ∧ (has_spectrometer (dev w) = true →
     is_Some (integration_time_micros (dev w)))
  ∧ (is_Some (integration_time_micros (dev w)) →
     is_Some (wavelengths (dev w)) ∧ is_Some (has_reference_spec (dev w))
     ∧ is_Some (dark_spec (dev w)))
  ∧ (∀ t, running_intensity_type (ses w) = Some t → t ≠ "Raw Int." →
          is_Some (reference_spec (dev w)) ∧ is_Some (dark_spec (dev w)))
  ∧ (∀ s, spectrometer (dev w) = Some s →
          ∃ x, integration_time_micros (dev w) = Some x ∧ within_limits s x)
  ∧ integration_time_sent (log w) = integration_time_micros (dev w).

(** A computation keeps a property of the window, whatever its outcome. *)
Definition keeps {A} (I : World → Prop) (m : M A) : Prop :=
  ∀ w, I w → I (snd (m w)).

(** [consistent] looks at the instruments' attributes, at the intensity
    type of the measurement and at the commands sent. *)
Definition view (w : World) : Devices * option string * option float :=
  (dev w, running_intensity_type (ses w), integration_time_sent (log w)).

(** A session at the keyboard: both instruments are connected, a reference
    and a dark spectrum are stored, the parameters of the scenario are
    typed in with the given intensity type, and Start is pressed. *)
Definition demo_actions (intensity_type : string) : list action :=
  [ConnectSpectrometer (Some demo_spectrometer); ConnectPstat [demo_pstat];
   StoreReference demo_reference; StoreDark demo_dark;
   Edit (gui (fill_in intensity_type init_window)); Start demo_env].

(** ** The e-mails at the end of a measurement *)

(** [s.split(",")] *)
Fixpoint split_from (current : string) (s : string) : list string :=
  match s with
  | EmptyString => [current]
  | String c r =>
      if Ascii.eqb c ","%char then current :: split_from EmptyString r
      else split_from (current +:+ String c EmptyString) r
  end.

Definition split_commas (s : string) : list string :=
  split_from EmptyString s.

(** [s[:-4]] *)
Definition without_last_4 (s : string) : string :=
  String.substring 0 (String.length s - 4) s.

(** What the SMTP server does with a message: it takes it, or one of
    [SMTP_SSL], [login] and [sendmail] raises. *)
Inductive smtp_outcome :=
| SmtpSent
| SmtpConnectError
| SmtpAuthenticationError
| SmtpOtherError (strerror : string).

(** What the environment answers while the e-mails are sent. *)
Record MailEnv := MkMailEnv {
  (** the first two lines of [auth_token.txt], stripped; [None] when the
      file cannot be opened *)
  auth_token : option (string * string);
  (** [strftime("%a, %Y/%m/%d, %I:%M:%S %p")] of a timestamp *)
  strftime : float → string;
  (** the archive cannot be created, or the file cannot be added to it *)
  zip_error : string → bool;
  (** the archive cannot be read back *)
  attach_error : string → bool;
  smtp : smtp_outcome
}.

(** The archive attached to a message: its name, the files in it and the
    [Content-Disposition] header of the attachment. *)
Record Attachment := MkAttachment {
  archive : string;
  members : list string;
  disposition : string
}.

(** A message as it is handed to [sendmail], with the login used. *)
Record Email := MkEmail {
  mail_login : string * string;
  mail_sender : string;
  mail_receivers : list string;
  mail_from : string;
  mail_to : string;
  mail_subject : string;
  mail_body : string;
  mail_attachment : option Attachment
}.

(** A [try] block with a bare [except:] clause. *)
Definition try_except {A} (block handler : M A) : M A := λ w,
  match block w with
  | (inl _, w') => handler w'
  | (inr a, w') => (inr a, w')
  end.

(** The last [try] statement of both functions; its [finally] clause runs
    on every path.  The result is the message that the server took. *)
Definition send_mail (menv : MailEnv) (mail : Email) : M (option Email) :=
  let finally :=
    emit (StdoutLine "Other error occurred while trying to send the email.") in
  match smtp menv with
  | SmtpSent => finally ;; mret (Some mail)
  | SmtpConnectError =>
      emit (StdoutLine "Could not connect to SMTP server; this may be due to an internet issue on your side or GMail outage") ;;
      finally ;; mret None
  | SmtpAuthenticationError =>
      emit (StdoutLine "Error authenticating the automatic sender address. Most likely the login token is expired. Make a new email address and token or contact Carter Pryor.") ;;
      finally ;; mret None
  | SmtpOtherError strerror => finally ;; raise (OSError strerror)
  end.

(** The first line of the body of both messages, and the indentation of
    the second. *)
Definition mail_intro : string :=
  "This is an automated message from the Graham lab potentiostat/Ocean Optics spectroelectrochemistry setup."
  +:+ nl +:+ "          ".

(** [try_send_notif_emails] *)
Definition try_send_notif_emails (menv : MailEnv) : M (option Email) :=
  match auth_token menv with
  | None =>
      emit (StdoutLine "Error opening file containing the auth token") ;;
      mret None
  | Some (sender_email, password) =>
      g ← read gui;
      let receiver_emails := split_commas (emails g) in
      t ← attr "end_time" (end_time ∘ ses);
      let end_time_string := strftime menv t in
      let body :=
        mail_intro
        +:+ "This email is to notify you that the experiment concluded (successfully or unsuccesfully) at "
        +:+ end_time_string +:+ "." in
      send_mail menv
        (MkEmail (sender_email, password) sender_email receiver_emails
           "Lighthouse Spectroelectrochemistry Program" (emails g)
           "Lighthouse Measurement Ended" body None)
  end.

(** [myzip.write(self.<name>)] *)
Definition zip_write (menv : MailEnv) (name : string)
  (f : Session → option string) : M string :=
  path ← attr name (f ∘ ses);
  if zip_error menv path then raise (OSError path) else mret path.

(** [try_send_file_emails] *)
Definition try_send_file_emails (menv : MailEnv) : M (option Email) :=
  f ← attr "filename" (filename ∘ ses);
  let zip_name := without_last_4 f +:+ ".zip" in
  zipped ← try_except
    ((if zip_error menv zip_name then raise (OSError zip_name) else mret tt) ;;
     emit (FileOpen zip_name) ;;
     a ← zip_write menv "filename" filename;
     b ← zip_write menv "dark_filename" dark_filename;
     c ← zip_write menv "pstat_data_filename" pstat_data_filename;
     has_ref ← attr "has_reference_spec" (has_reference_spec ∘ dev);
     files ←
       (if has_ref : bool then
          r ← zip_write menv "reference_filename" reference_filename;
          mret [a; b; c; r]
        else mret [a; b; c]);
     emit (FileClose zip_name) ;;
     mret (Some files))
    (emit (StdoutLine "Failed to create zip file to send to emails") ;;
     mret None);
  match zipped with
  | None => mret None
  | Some files =>
  match auth_token menv with
  | None =>
      emit (StdoutLine "Error opening file containing the auth token") ;;
      mret None
  | Some (sender_email, password) =>
      g ← read gui;
      let receiver_emails := split_commas (emails g) in
      t ← attr "end_time" (end_time ∘ ses);
      let end_time_string := strftime menv t in
      let body :=
        mail_intro
        +:+ "This email contains the data for the experiment that concluded at "
        +:+ end_time_string +:+ "." in
      if attach_error menv zip_name then
        emit (StdoutLine "Error opening zip file or attaching to email") ;;
        mret None
      else
        send_mail menv
          (MkEmail (sender_email, password) sender_email receiver_emails
             "Lighthouse Spectroelectrochemistry Program" (emails g)
             "Lighthouse Measurement Data" body
             (Some (MkAttachment zip_name files
                      "attachment; filename=test_attach.txt")))
  end end.

(** ** The files that the window writes *)





(** ** The file of [collect_spec_now] *)

(** The lines above the rows, and a row: wavelength, value, reference
    intensity when there is a reference spectrum, dark intensity. *)
Definition collect_header `{Builtins} (g : Gui) (s : Spectrometer)
  (itm : float) (wl : list float) (has_ref : bool) : list string :=
  ["Ocean Optics spectrometer spectrum generated by Lighthouse" +:+ nl;
   "Spectrometer model: " +:+ model s +:+ nl;
   "Integration time (ms): " +:+ fixed 0 (itm / 1000) +:+ nl;
   "Electric dark correction enabled: "
     +:+ str_of_bool (enable_dark_correction g) +:+ nl;
   "Nonlinearity correction enabled: "
     +:+ str_of_bool (enable_nonlinearity_correction g) +:+ nl;
   "Number of data points: " +:+ str_of_len wl +:+ nl +:+ nl;
   ">>>Begin Data<<<" +:+ nl;
   "Wavelength_nm," +:+ spec_intensity_type g +:+ ","]
  ++ (if has_ref then ["Reference Int.,"] else [])
  ++ ["Dark Int." +:+ nl].

Definition collect_row_text `{Builtins} (wavelength value : float)
  (reference : option float) (dark : float) : string :=
  str_of_float wavelength +:+ "," +:+ str_of_float value +:+ ","
  +:+ match reference with
      | Some r => str_of_float r +:+ ","
      | None => EmptyString
      end
  +:+ str_of_float dark +:+ nl.

(** The reference intensity of a row. *)
Definition reference_at (d : Devices) (i : nat) : option float :=
  match has_reference_spec d with
  | Some true => reference_spec d ≫= (λ ref, ref !! i)
  | _ => None
  end.

Definition collect_path (env : Env) (g : Gui) (text : string) : string :=
  save_dir g +:+ "/" +:+
  replace_colons (text +:+ "_" +:+ isoformat (now env) +:+ ".csv").

(** Since the window was [w0], the cell has not been switched off. *)
Definition cell_left_on (w0 w : World) : Prop :=
  ∃ l, log w = log w0 ++ l ∧ ¬ In (PstatCmd (SetCell false)) l.

(** [float] also reads the text [nan]. *)
Definition demo_float_of_str_nan (s : string) : option float :=
  if String.eqb s "nan" then Some nan else demo_float_of_str s.

Definition demo_builtins_nan : Builtins := {|
  float_of_str := demo_float_of_str_nan;
  int_of_str := demo_int_of_str;
  str_of_float := demo_str_of_float;
  fixed := demo_fixed;
  np_log10 := demo_log10
|}.

(** The scenario with [nan] typed in as the time between two spectra. *)
Definition demo_nan_period : World :=
  MkWorld (MkGui "0.0" "1.0" "0.01" "1" "0.1" "nan" "s" "Raw Int."
                 true true true true "Experiment" "Graham Lab" EmptyString
                 EmptyString ".")
          (dev demo_connected) (ses demo_connected) (log demo_connected).

(** ** Scenarios for the properties of the whole window *)

(** The curve at the beginning of the loop. *)
Definition demo_curve : RcvCurve :=
  MkRcvCurve 4000000 (Some 5%float) true false [].

(** A measurement thread that finds no data point at its first tick. *)
Definition demo_crash : status * list MergedRecord * World :=
  run_measurement (H:=demo_builtins) demo_env [Tick demo_raw 0.25]
    (demo_started "Raw Int." demo_connected).


Definition demo_to_the_end : list event :=
  [Acquire demo_p0; Tick demo_raw 0.25; Acquire demo_p1; SignalDone;
   Tick demo_raw 0.25].

Definition demo_finished : status * list MergedRecord * World :=
  run_loop (H:=demo_builtins) demo_env demo_to_the_end demo_loop_start.

(** The same measurement with two addresses to notify, from the first
    press of Start to the end of the thread, and with a reference spectrum
    stored while it runs. *)
Definition demo_with_emails : Gui :=
  MkGui "0.0" "1.0" "0.01" "1" "0.1" "5" "s" "Raw Int."
        true true true true "Experiment" "Graham Lab" EmptyString
        "ann@example.org,bob@example.org" ".".

Definition demo_notified : World :=
  perform_all (H:=demo_builtins)
    ([Edit demo_with_emails; Start demo_env; WorkerBegin]
     ++ map (Worker demo_env) demo_to_the_end)
    demo_connected.

Definition demo_late_reference : World :=
  perform_all (H:=demo_builtins)
    ([Edit demo_with_emails; Start demo_env; WorkerBegin;
      StoreReference demo_reference]
     ++ map (Worker demo_env) demo_to_the_end)
    demo_connected.

(** A mail server that takes every message. *)
Definition demo_mail_env : MailEnv :=
  MkMailEnv (Some ("lighthouse@example.org", "token"))
            (λ _, "Mon, 2026/02/16, 10:35:00 AM")
            (λ _, false) (λ _, false) SmtpSent.

(** * Properties *)

#[local] Arguments str_of_len : simpl never.
#[local] Arguments str_of_bool : simpl never.
#[local] Arguments replace_colons : simpl never.
#[local] Arguments dict_get : simpl never.
#[local] Arguments open_output_files : simpl never.
#[local] Arguments parse_pstat_parameters : simpl never.
#[local] Arguments collection_time_in_ms : simpl never.

(** ** Strings, files and the log *)

Lemma append_assoc (a b c : string) : (a +:+ b) +:+ c = a +:+ (b +:+ c).
Proof.
  induction a as [|ch a IH]; [reflexivity|].
  change (String ch ((a +:+ b) +:+ c) = String ch (a +:+ (b +:+ c))).
  rewrite IH. reflexivity.
Qed.

Lemma append_empty_r (a : string) : a +:+ EmptyString = a.
Proof.
  induction a as [|ch a IH]; [reflexivity|].
  change (String ch (a +:+ EmptyString) = String ch a). rewrite IH. reflexivity.
Qed.

Lemma file_content_app path l1 l2 :
  file_content path (l1 ++ l2) = file_content path l1 +:+ file_content path l2.
Proof.
  induction l1 as [|e l1 IH]; cbn; [reflexivity|].
  destruct e; try assumption.
  destruct (String.eqb path0 path); [|assumption].
  rewrite IH. symmetry. apply append_assoc.
Qed.

Lemma file_content_writes path (l : list string) :
  file_content path (FileWrite path <$> l) = String.concat EmptyString l.
Proof.
  induction l as [|x l IH]; cbn; [reflexivity|].
  rewrite String.eqb_refl, IH. destruct l; cbn; [apply append_empty_r|reflexivity].
Qed.

Lemma add_log_nil w : add_log [] w = w.
Proof. destruct w. unfold add_log. cbn. rewrite app_nil_r. reflexivity. Qed.

Lemma add_log_app l1 l2 w : add_log l2 (add_log l1 w) = add_log (l1 ++ l2) w.
Proof. unfold add_log; cbn. rewrite app_assoc. reflexivity. Qed.

Lemma with_ses_add_log f l w : with_ses f (add_log l w) = add_log l (with_ses f w).
Proof. reflexivity. Qed.

Lemma new_effects_app w w' l : log w' = log w ++ l → new_effects w w' = l.
Proof. unfold new_effects. intros ->. apply drop_app_length. Qed.

(** ** Inversion of successful computations *)

Lemma bind_inv {A B} (m : M A) (f : A → M B) w b w' :
  (m ≫= f) w = (inr b, w') → ∃ a w1, m w = (inr a, w1) ∧ f a w1 = (inr b, w').
Proof.
  unfold mbind, M_bind. destruct (m w) as [[e|a] w1]; [discriminate|]. eauto.
Qed.

Lemma emit_inv e w a w' : emit e w = (inr a, w') → w' = add_log [e] w.
Proof. unfold emit. intros [= <- <-]. reflexivity. Qed.

Lemma attr_inv {A} n (f : World → option A) w a w' :
  attr n f w = (inr a, w') → f w = Some a ∧ w' = w.
Proof. unfold attr. destruct (f w); intros [= <- <-]; auto. Qed.

Lemma read_inv {A} (f : World → A) w a w' :
  read f w = (inr a, w') → a = f w ∧ w' = w.
Proof. unfold read. intros [= <- <-]; auto. Qed.

Lemma modify_ses_inv f w a w' : modify_ses f w = (inr a, w') → w' = with_ses f w.
Proof. unfold modify_ses. intros [= <- <-]. reflexivity. Qed.

Lemma not_none_inv {A} n (o : option A) w a w' :
  not_none n o w = (inr a, w') → o = Some a ∧ w' = w.
Proof. unfold not_none. destruct o; intros [= <- <-]; auto. Qed.

Lemma getitem_inv {A} (l : list A) i w a w' :
  getitem l i w = (inr a, w') → l !! i = Some a ∧ w' = w.
Proof. unfold getitem. destruct (l !! i); intros [= <- <-]; auto. Qed.

Lemma lift_exn_inv {A} (r : result A) w a w' :
  lift_exn r w = (inr a, w') → r = inr a ∧ w' = w.
Proof. unfold lift_exn. destruct r; intros [= <- <-]; auto. Qed.

Lemma the_spectrometer_inv n w a w' :
  the_spectrometer n w = (inr a, w') → spectrometer (dev w) = Some a ∧ w' = w.
Proof.
  unfold the_spectrometer. destruct (spectrometer (dev w)); intros [= <- <-]; auto.
Qed.

Lemma the_potentiostat_inv n w a w' :
  the_potentiostat n w = (inr a, w') → potentiostat (dev w) = Some a ∧ w' = w.
Proof.
  unfold the_potentiostat. destruct (potentiostat (dev w)); intros [= <- <-]; auto.
Qed.

Lemma mret_inv {A} (x : A) w a w' : mret (M:=M) x w = (inr a, w') → a = x ∧ w' = w.
Proof. intros [= <- <-]; auto. Qed.

Lemma dict_get_inv d k w v w' :
  dict_get d k w = (inr v, w') → d !! k = Some v ∧ w' = w.
Proof. unfold dict_get. destruct (d !! k); intros [= <- <-]; auto. Qed.


Lemma for_each_emit {A} (f : A → effect) (xs : list A) (w : World) :
  for_each xs (λ x, emit (f x)) w = (inr tt, add_log (f <$> xs) w).
Proof.
  revert w. induction xs as [|x xs IH]; intros w; cbn.
  - rewrite add_log_nil. reflexivity.
  - unfold mbind, M_bind. cbn. rewrite IH. unfold add_log; cbn.
    rewrite <- app_assoc. reflexivity.
Qed.

Lemma for_each_write_inv {A} out (f : A → string) (xs : list A) w a w' :
  for_each xs (λ x, write out (f x)) w = (inr a, w') →
  w' = add_log ((λ x, FileWrite out (f x)) <$> xs) w.
Proof.
  unfold write. rewrite (for_each_emit (λ x, FileWrite out (f x))).
  intros [= <- <-]. reflexivity.
Qed.

Lemma with_open_inv oe path (body : M unit) w a w' :
  with_open oe path body w = (inr a, w') →
  oe path = None ∧
  ∃ w1, body (add_log [FileOpen path] w) = (inr a, w1)
        ∧ w' = add_log [FileClose path] w1.
Proof.
  unfold with_open. destruct (oe path); [discriminate|].
  unfold mbind, M_bind, emit. cbn.
  fold (add_log [FileOpen path] w).
  destruct (body (add_log [FileOpen path] w)) as [[e|x] w1]; cbn; intros [= <- <-].
  split; [reflexivity|]. exists w1. split; reflexivity.
Qed.

(** One step of the inversion of a hypothesis that says that a computation
    returned. *)
Ltac minv_step :=
  match goal with
  | H : (_ ≫= _) _ = (inr _, _) |- _ =>
      let H1 := fresh "H" in
      apply bind_inv in H as (? & ? & H1 & H); cbn beta in H
  | H : emit _ _ = (inr _, _) |- _ => apply emit_inv in H; subst
  | H : write _ _ _ = (inr _, _) |- _ => apply emit_inv in H; subst
  | H : attr _ _ _ = (inr _, _) |- _ => apply attr_inv in H as [H ->]; cbn in H
  | H : read _ _ = (inr _, _) |- _ => apply read_inv in H as [-> ->]
  | H : modify_ses _ _ = (inr _, _) |- _ => apply modify_ses_inv in H; subst
  | H : not_none _ _ _ = (inr _, _) |- _ => apply not_none_inv in H as [H ->]
  | H : getitem _ _ _ = (inr _, _) |- _ => apply getitem_inv in H as [H ->]
  | H : lift_exn _ _ = (inr _, _) |- _ => apply lift_exn_inv in H as [H ->]
  | H : dict_get _ _ _ = (inr _, _) |- _ => apply dict_get_inv in H as [H ->]
  | H : the_spectrometer _ _ = (inr _, _) |- _ =>
      apply the_spectrometer_inv in H as [H ->]; cbn in H
  | H : the_potentiostat _ _ = (inr _, _) |- _ =>
      apply the_potentiostat_inv in H as [H ->]; cbn in H
  | H : for_each _ (λ x, write _ _) _ = (inr _, _) |- _ =>
      apply for_each_write_inv in H; subst
  | H : mret _ _ = (inr _, _) |- _ => apply mret_inv in H as [? ->]; subst
  | H : raise _ _ = (inr _, _) |- _ => discriminate H
  | H : with_open _ _ _ _ = (inr ?u, _) |- _ =>
      let Ho := fresh "Hopen" in
      destruct u; apply with_open_inv in H as (Ho & ? & H & ->)
  | H : (if ?b then _ else _) _ = (inr _, _) |- _ => destruct b eqn:?
  end.

Ltac minv := repeat minv_step.

Ltac unfold_monad :=
  unfold mbind, M_bind, read, attr, the_spectrometer, the_potentiostat, emit,
    modify_ses, modify_dev, not_none, getitem, lift_exn, raise, mret, M_ret,
    compose.

(** ** One tick of the merge loop *)

Section Tick.
Context `{Builtins}.

(** Everything a tick that returns has read and done. *)
Lemma merge_tick_inv raw capture_s w r w' :
  merge_tick raw capture_s w = (inr r, w') →
  ∃ c pt ty out last_flush period,
    acq_curve (ses w) = Some c ∧
    last_data_point c = Some pt ∧
    pt !! 1%nat = Some (rec_elapsed_time r) ∧
    pt !! 2%nat = Some (rec_potential r) ∧
    pt !! 4%nat = Some (rec_current r) ∧
    running_intensity_type (ses w) = Some ty ∧
    calculate_intensities ty raw (dev w) = inr (rec_intensities r) ∧
    outfile (ses w) = Some out ∧
    last_file_flush (ses w) = Some last_flush ∧
    num_freq_s (ses w) = Some period ∧
    let flush := PrimFloat.ltb 30 (rec_elapsed_time r - last_flush) in
    w' = MkWorld (gui w) (dev w)
           ((if flush then set_last_file_flush (rec_elapsed_time r) else id)
              (set_most_recent_pstat_pt (Some pt) (ses w)))
           (log w ++ [SpecCmd (Intensities true true); Elapsed capture_s]
                  ++ row_effects out r
                  ++ (if flush then [FileFlush out] else [])
                  ++ [Sleep period]).
Proof.
  unfold merge_tick. intros Hm. minv.
  all: match goal with
       | Hc : acq_curve _ = Some ?c, Hp : last_data_point ?c = Some ?pt,
         Ht : running_intensity_type _ = Some ?ty, Ho : outfile _ = Some ?out,
         Hl : last_file_flush _ = Some ?lf |- _ =>
           exists c, pt, ty, out, lf
       end.
  all: eexists; repeat split; try eassumption.
  all: cbn;
    match goal with
    | Hf : PrimFloat.ltb _ _ = _, Hp : last_data_point _ = Some _ |- _ =>
        rewrite Hf; unfold add_log, with_ses, row_effects; cbn; rewrite Hp
    end.
  all: rewrite <- ?app_assoc; reflexivity.
Qed.

Lemma merge_tick_frame raw capture_s w r w' :
  merge_tick raw capture_s w = (inr r, w') →
  gui w' = gui w ∧ dev w' = dev w ∧ acq_curve (ses w') = acq_curve (ses w)
  ∧ outfile (ses w') = outfile (ses w)
  ∧ running_intensity_type (ses w') = running_intensity_type (ses w)
  ∧ num_freq_s (ses w') = num_freq_s (ses w).
Proof.
  intros Hm. apply merge_tick_inv in Hm
    as (c & pt & ty & out & lf & period
        & _ & _ & _ & _ & _ & _ & _ & _ & _ & _ & ->).
  cbn. destruct (PrimFloat.ltb _ _); cbn; repeat split.
Qed.


End Tick.

(** ** [start_measurement] *)

Section Start.
Context `{Builtins}.

Lemma start_measurement_no_integration_time env w p :
  running (ses w) = false →
  parse_pstat_parameters (gui w) = Some p →
  integration_time_micros (dev w) = None →
  start_measurement env w = (inl (AttributeError "integration_time_micros"), w).
Proof.
  intros Hr Hp Hi. unfold start_measurement. unfold_monad. cbn.
  rewrite Hr, Hp. destruct p as [[[[v1 v2] sr] cy] sp]. cbn. rewrite Hi.
  reflexivity.
Qed.

(** Every way in which [start_measurement] can end before it opens the
    output files: the request is ignored because a measurement is running,
    an exception leaves the window as it was, or one warning is shown and
    nothing else is touched.  Otherwise all the checks have passed. *)
Lemma start_measurement_cases env w :
  (running (ses w) = true ∧ start_measurement env w = (inr tt, w))
  ∨ (∃ e, start_measurement env w = (inl e, w))
  ∨ (∃ title text,
       start_measurement env w = (inr tt, add_log [MboxWarning title text] w))
  ∨ (∃ v1 v2 sr cy sp ms itm num,
       running (ses w) = false ∧
       parse_pstat_parameters (gui w) = Some (v1, v2, sr, cy, sp) ∧
       integration_time_micros (dev w) = Some itm ∧
       float_of_str (spec_freq_txt (gui w)) = Some num ∧
       collection_time_in_ms (spec_freq_units (gui w)) num = Some ms ∧
       PrimFloat.leb ms (itm / 1000) = false ∧
       (spec_intensity_type (gui w) = "Raw Int."
        ∨ has_reference_spec (dev w) = Some true) ∧
       (use_pstat (gui w) = true → has_potentiostat (dev w) = true) ∧
       (use_spec (gui w) = true → has_spectrometer (dev w) = true) ∧
       start_measurement env w = open_output_files env v1 v2 sr cy sp ms w).
Proof.
  unfold start_measurement, warn_value_error, warn_collection_number,
    warn_collection_frequency, warn_reference_required, warn_potentiostat,
    warn_spectrometer.
  unfold_monad. cbn.
  destruct (running (ses w)) eqn:Hr; [by left|].
  destruct (parse_pstat_parameters (gui w)) as [[[[[v1 v2] sr] cy] sp]|] eqn:Hp;
    [|right; right; left; eauto].
  cbn. destruct (integration_time_micros (dev w)) as [itm|] eqn:Hi;
    [|right; left; eauto].
  destruct (float_of_str (spec_freq_txt (gui w))) as [num|] eqn:Hn;
    [|right; right; left; eauto].
  destruct (collection_time_in_ms (spec_freq_units (gui w)) num) as [ms|] eqn:Hms;
    [|right; left; eauto].
  destruct (PrimFloat.leb ms (itm / 1000)) eqn:Hle; [right; right; left; eauto|].
  destruct (String.eqb (spec_intensity_type (gui w)) "Raw Int.") eqn:Hty; cbn.
  - apply String.eqb_eq in Hty.
    destruct (use_pstat (gui w)) eqn:Hup, (has_potentiostat (dev w)) eqn:Hhp; cbn;
      try (right; right; left; eauto; fail).
    all: destruct (use_spec (gui w)) eqn:Hus, (has_spectrometer (dev w)) eqn:Hhs; cbn;
      try (right; right; left; eauto; fail).
    all: right; right; right; exists v1, v2, sr, cy, sp, ms, itm, num;
      repeat split; auto; try discriminate.
  - destruct (has_reference_spec (dev w)) as [[|]|] eqn:Hh; cbn;
      [|right; right; left; eauto|right; left; eauto].
    destruct (use_pstat (gui w)) eqn:Hup, (has_potentiostat (dev w)) eqn:Hhp; cbn;
      try (right; right; left; eauto; fail).
    all: destruct (use_spec (gui w)) eqn:Hus, (has_spectrometer (dev w)) eqn:Hhs; cbn;
      try (right; right; left; eauto; fail).
    all: right; right; right; exists v1, v2, sr, cy, sp, ms, itm, num;
      repeat split; auto; try discriminate.
Qed.

(** The rows of a baseline file: the loop over the wavelengths returns only
    when the spectrum has a value for each of them. *)
Lemma baseline_loop_inv path name (array : Devices → option (list float)) wl n :
  ∀ k w w',
  (k + n = length wl)%nat →
  for_each (seq k n) (λ i,
      wavelength ← getitem wl i;
      d ← read dev;
      spectrum ← not_none name (array d);
      intensity ← getitem spectrum i;
      write path (str_of_float wavelength +:+ "," +:+ str_of_float intensity +:+ nl)) w
  = (inr tt, w') →
  w' = add_log (zip_with (baseline_row path) (drop k wl)
                  (drop k (default [] (array (dev w))))) w
  ∧ (0 < n → ∃ spectrum, array (dev w) = Some spectrum
                         ∧ k + n ≤ length spectrum)%nat.
Proof.
  induction n as [|n IH]; intros k w w' Hk Hrun.
  - cbn in Hrun. injection Hrun as <-. split; [|lia].
    rewrite drop_ge by lia. cbn. rewrite add_log_nil. reflexivity.
  - cbn [seq for_each] in Hrun.
    apply bind_inv in Hrun as (a & w1 & Hbody & Hrest).
    minv.
    match goal with
    | Hw : wl !! k = Some ?x, Ha : array (dev w) = Some ?sp, Hs : ?sp !! k = Some ?y
      |- _ =>
        apply IH in Hrest; [|cbn; lia]; destruct Hrest as [-> Hlen]; cbn in *;
        rewrite Ha; cbn; rewrite (drop_S wl x k Hw), (drop_S sp y k Hs); cbn;
        rewrite add_log_app; split; [reflexivity|];
        intros _; exists sp; split; [reflexivity|];
        destruct n; [apply lookup_lt_Some in Hs; lia|];
        destruct Hlen as (sp' & Hsp & Hl); [lia|];
        rewrite Ha in Hsp; injection Hsp as <-; lia
    end.
Qed.

Lemma write_baseline_file_inv env title suffix name array keep w w' :
  write_baseline_file env title suffix name array keep w = (inr tt, w') →
  ∃ s itm wl,
    open_error env (baseline_path env (gui w) suffix) = None ∧
    spectrometer (dev w) = Some s ∧
    integration_time_micros (dev w) = Some itm ∧
    wavelengths (dev w) = Some wl ∧
    (0 < length wl → ∃ spectrum, array (dev w) = Some spectrum
                                 ∧ length wl ≤ length spectrum)%nat ∧
    w' = with_ses (keep (baseline_path env (gui w) suffix))
           (add_log (baseline_effects env (gui w) title suffix s itm wl
                       (default [] (array (dev w)))) w).
Proof.
  unfold write_baseline_file. intros Hm.
  apply bind_inv in Hm as (g & w0 & Hg & Hm). apply read_inv in Hg as [-> ->].
  fold (baseline_path env (gui w) suffix) in Hm.
  set (path := baseline_path env (gui w) suffix) in *.
  minv.
  match goal with
  | Hl : for_each (seq 0 _) _ _ = (inr ?u, _) |- _ =>
      destruct u; apply baseline_loop_inv in Hl as [-> Hlen]; [|reflexivity]
  end.
  match goal with
  | Hs : spectrometer _ = Some _ |- _ => cbn in Hs
  end.
  eexists _, _, _. repeat split; try eassumption.
  rewrite !with_ses_add_log, !add_log_app. reflexivity.
Qed.

(** The text of a baseline file. *)
Lemma baseline_file_content env g title suffix s itm wl spectrum :
  file_content (baseline_path env g suffix)
    (baseline_effects env g title suffix s itm wl spectrum)
  = String.concat EmptyString (baseline_metadata env g title s itm wl)
    +:+ "Wavelength_nm,Intensity"
    +:+ String.concat EmptyString
          (zip_with (λ wavelength intensity,
             str_of_float wavelength +:+ "," +:+ str_of_float intensity +:+ nl)
             wl spectrum).
Proof.
  unfold baseline_effects. set (path := baseline_path env g suffix).
  rewrite !file_content_app, file_content_writes.
  cbn [file_content]. rewrite String.eqb_refl, !append_empty_r.
  change (EmptyString +:+ ?x) with x. do 2 f_equal.
  revert spectrum. induction wl as [|x wl IH]; intros [|y sp]; cbn; try reflexivity.
  rewrite String.eqb_refl, IH.
  destruct (zip_with _ wl sp); cbn; [rewrite append_empty_r|]; reflexivity.
Qed.

Lemma write_main_header_inv env w w' :
  write_main_header env w = (inr tt, w') → ∃ l, w' = add_log l w.
Proof.
  unfold write_main_header. intros Hm. minv.
  all: rewrite !add_log_app; eexists; reflexivity.
Qed.

Lemma arm_and_begin_inv env v1 v2 sr cy sp ms w w' :
  arm_and_begin env v1 v2 sr cy sp ms w = (inr tt, w') →
  signal_error env = None ∧
  is_infinity (float_of_int cy) = false ∧
  ses w' = set_num_freq_s (ms / 1000)
             (set_calc_run_time (run_time_formula v1 v2 sr cy)
                (set_time_start (time_time env)
                   (set_acq_curve
                      (set_stop_i_max 5 (MkRcvCurve 4000000 None false false []))
                      (ses w)))) ∧
  dev w' = dev w ∧ gui w' = gui w ∧
  ∃ l, log w' = log w ++ l ++ [ThreadStart "run_measurement"].
Proof.
  unfold arm_and_begin. intros Hm. minv.
  destruct (signal_error env) eqn:Hsig; [discriminate|].
  minv. repeat split.
  cbn. rewrite <- !app_assoc. eexists [_; _; _; _; _; _; _]. reflexivity.
Qed.

(** A call of [open_output_files] that returns either reported that the
    main file could not be opened, or has started the measurement thread. *)
Lemma open_output_files_inv env v1 v2 sr cy sp ms w w' :
  open_output_files env v1 v2 sr cy sp ms w = (inr tt, w') →
  (∃ strerror, log w' = log w ++ [MboxError "Error opening file" strerror])
  ∨ (calc_run_time (ses w') = Some (run_time_formula v1 v2 sr cy)
     ∧ num_freq_s (ses w') = Some (ms / 1000)%float
     ∧ running_intensity_type (ses w') = Some (spec_intensity_type (gui w))
     ∧ acq_curve (ses w') = Some (MkRcvCurve 4000000 (Some 5%float) false false [])
     ∧ dev w' = dev w ∧ gui w' = gui w
     ∧ ∃ l, log w' = log w ++ l ++ [ThreadStart "run_measurement"]).
Proof.
  unfold open_output_files. intros Hm. minv.
  destruct (open_error env _) eqn:Hopen.
  - left. minv. cbn. eauto.
  - right. minv.
    all: repeat match goal with
    | Hb : write_reference_file _ _ = (inr ?u, _) |- _ =>
        unfold write_reference_file in Hb; destruct u;
        apply write_baseline_file_inv in Hb as (? & ? & ? & ? & ? & ? & ? & ? & ->)
    | Hb : write_dark_file _ _ = (inr ?u, _) |- _ =>
        unfold write_dark_file in Hb; destruct u;
        apply write_baseline_file_inv in Hb as (? & ? & ? & ? & ? & ? & ? & ? & ->)
    | Hb : write_main_header _ _ = (inr ?u, _) |- _ =>
        destruct u; apply write_main_header_inv in Hb as [? ->]
    | Hb : arm_and_begin _ _ _ _ _ _ _ _ = (inr ?u, _) |- _ =>
        destruct u;
        apply arm_and_begin_inv in Hb as (? & ? & Hses & Hdev & Hgui & l & Hlog)
    end.
    all: rewrite Hses, Hdev, Hgui, Hlog; cbn; repeat split.
    all: rewrite <- ?app_assoc; eexists; f_equal; rewrite !app_assoc; reflexivity.
Qed.

(** What a call of [start_measurement] that starts the measurement thread
    leaves in the session: the run time computed from the parsed
    parameters, the collection period in seconds, the intensity type
    selected at that moment, and a curve armed with the 5 A limit. *)
Lemma start_measurement_started env w w' l :
  start_measurement env w = (inr tt, w') →
  log w' = log w ++ l ++ [ThreadStart "run_measurement"] →
  ∃ v1 v2 sr cy sp ms,
    parse_pstat_parameters (gui w) = Some (v1, v2, sr, cy, sp) ∧
    calc_run_time (ses w') = Some (run_time_formula v1 v2 sr cy) ∧
    num_freq_s (ses w') = Some (ms / 1000)%float ∧
    running_intensity_type (ses w') = Some (spec_intensity_type (gui w)) ∧
    acq_curve (ses w') = Some (MkRcvCurve 4000000 (Some 5%float) false false []).
Proof.
  intros Hstart Hlog.
  destruct (start_measurement_cases env w)
    as [[_ Hs]|[[e Hs]|[(title & text & Hs)|Hs]]].
  - rewrite Hs in Hstart. injection Hstart as <-.
    apply (f_equal length) in Hlog. rewrite !length_app in Hlog. cbn in Hlog. lia.
  - rewrite Hs in Hstart. discriminate.
  - rewrite Hs in Hstart. injection Hstart as <-. cbn in Hlog.
    apply app_inv_head in Hlog. destruct l as [|x [|y l]]; discriminate.
  - destruct Hs as (v1 & v2 & sr & cy & sp & ms & itm & num
                    & _ & Hp & _ & _ & _ & _ & _ & _ & _ & Hs).
    rewrite Hs in Hstart.
    apply open_output_files_inv in Hstart
      as [[msg Hl]|(Hcalc & Hfreq & Hty & Hcurve & _)].
    + rewrite Hl in Hlog. apply app_inv_head in Hlog.
      destruct l as [|x [|y l]]; discriminate.
    + exists v1, v2, sr, cy, sp, ms. auto.
Qed.

(** A start request that does not pass the checks touches nothing but the
    log, where it leaves at most one warning: no file effect and no
    instrument command. *)
Lemma rejected_start_touches_nothing env w :
  (∃ v1 v2 sr cy sp ms,
     start_measurement env w = open_output_files env v1 v2 sr cy sp ms w)
  ∨ (gui (snd (start_measurement env w)) = gui w
     ∧ dev (snd (start_measurement env w)) = dev w
     ∧ ses (snd (start_measurement env w)) = ses w
     ∧ Forall (λ e, is_report e = true ∧ is_file_effect e = false
                    ∧ is_hardware_effect e = false)
         (new_effects w (snd (start_measurement env w)))).
Proof.
  destruct (start_measurement_cases env w)
    as [[_ Hs]|[[e Hs]|[(title & text & Hs)|Hs]]].
  - right. rewrite Hs. cbn. repeat split.
    erewrite new_effects_app; [constructor|by rewrite app_nil_r].
  - right. rewrite Hs. cbn. repeat split.
    erewrite new_effects_app; [constructor|by rewrite app_nil_r].
  - right. rewrite Hs. cbn. repeat split.
    erewrite new_effects_app by reflexivity. by repeat constructor.
  - left. destruct Hs as (v1 & v2 & sr & cy & sp & ms & itm & num & Hs).
    exists v1, v2, sr, cy, sp, ms. apply Hs.
Qed.

(** The combobox values and the two dictionaries: [start_measurement] has
    a file name for each intensity type, [collect_spec_now] for all but
    ["Raw Int. - Ref"]. *)
Lemma filename_intensity_type_total :
  Forall (λ v, is_Some (filename_intensity_type !! v)) intensity_type_values.
Proof.
  unfold intensity_type_values.
  repeat (apply List.Forall_cons; [vm_compute; by eexists|]).
  apply List.Forall_nil.
Qed.

Lemma collect_filename_intensity_type_misses :
  filter (λ v, collect_filename_intensity_type !! v = None) intensity_type_values
  = ["Raw Int. - Ref"].
Proof. by vm_compute. Qed.

(** Each unit of the combobox has a conversion. *)
Lemma collection_time_in_ms_total unit n :
  unit ∈ spec_freq_unit_values → is_Some (collection_time_in_ms unit n).
Proof.
  unfold spec_freq_unit_values. rewrite !elem_of_cons, elem_of_nil.
  intros [->|[->|[->|[->|[]]]]]; by eexists.
Qed.

(** Without a spectrometer the attributes that [connect_spectrometer]
    creates do not exist. *)
Lemma before_start_no_spectrometer w :
  before_start w →
  has_spectrometer (dev w) = false →
  integration_time_micros (dev w) = None.
Proof.
  induction 1 as [|g w Hw IH|devices w Hw IH|found w Hw IH
                 |reading w Hw IH|reading w Hw IH]; cbn.
  - reflexivity.
  - exact IH.
  - destruct devices; cbn; exact IH.
  - destruct found; cbn; [discriminate|exact IH].
  - unfold exec, store_reference_spectrum. unfold_monad. cbn.
    destruct (has_spectrometer (dev w)) eqn:Hs; cbn; [|intros _; by apply IH].
    destruct (spectrometer (dev w)); cbn; rewrite ?Hs; discriminate.
  - unfold exec, store_dark_spectrum. unfold_monad. cbn.
    destruct (has_spectrometer (dev w)) eqn:Hs; cbn; [|intros _; by apply IH].
    destruct (spectrometer (dev w)); cbn; rewrite ?Hs; discriminate.
Qed.

Lemma before_start_not_running w : before_start w → running (ses w) = false.
Proof.
  induction 1 as [|g w Hw IH|devices w Hw IH|found w Hw IH
                 |reading w Hw IH|reading w Hw IH]; cbn; try assumption.
  - reflexivity.
  - destruct devices; cbn; exact IH.
  - destruct found; cbn; exact IH.
  - unfold exec, store_reference_spectrum. unfold_monad. cbn.
    destruct (has_spectrometer (dev w)); cbn; [|exact IH].
    destruct (spectrometer (dev w)); cbn; exact IH.
  - unfold exec, store_dark_spectrum. unfold_monad. cbn.
    destruct (has_spectrometer (dev w)); cbn; [|exact IH].
    destruct (spectrometer (dev w)); cbn; exact IH.
Qed.

(** A reference spectrum can only be stored through a spectrometer. *)
Lemma before_start_reference_stored w :
  before_start w →
  has_reference_spec (dev w) = Some true →
  has_spectrometer (dev w) = true.
Proof.
  induction 1 as [|g w Hw IH|devices w Hw IH|found w Hw IH
                 |reading w Hw IH|reading w Hw IH]; cbn.
  - discriminate.
  - exact IH.
  - destruct devices; cbn; exact IH.
  - destruct found; cbn; [discriminate|exact IH].
  - unfold exec, store_reference_spectrum. unfold_monad. cbn.
    destruct (has_spectrometer (dev w)) eqn:Hs; cbn; [|rewrite Hs; exact IH].
    destruct (spectrometer (dev w)); cbn; rewrite ?Hs; auto.
  - unfold exec, store_dark_spectrum. unfold_monad. cbn.
    destruct (has_spectrometer (dev w)) eqn:Hs; cbn; [|rewrite Hs; exact IH].
    destruct (spectrometer (dev w)); cbn; rewrite ?Hs; auto.
Qed.

(** A start request with numeric potentiostat parameters, made while no
    spectrometer has been connected, never reaches the dialog that says
    so: the integration time is read first. *)
Lemma start_measurement_spectrometer_not_connected env w p :
  before_start w →
  has_spectrometer (dev w) = false →
  parse_pstat_parameters (gui w) = Some p →
  start_measurement env w = (inl (AttributeError "integration_time_micros"), w).
Proof.
  intros Hw Hs Hp.
  apply (start_measurement_no_integration_time env w p).
  - by apply before_start_not_running.
  - exact Hp.
  - by apply before_start_no_spectrometer.
Qed.

End Start.

(** ** The merge loop *)

Lemma driver_step_curve f w c :
  acq_curve (ses w) = Some c → acq_curve (ses (driver_step f w)) = Some (f c).
Proof. unfold driver_step. intros ->. reflexivity. Qed.

Lemma driver_step_log f w : log (driver_step f w) = log w.
Proof. unfold driver_step. destruct (acq_curve (ses w)); reflexivity. Qed.


Lemma curve_acquire_points p c :
  ∃ added, rc_points (curve_acquire p c) = rc_points c ++ added.
Proof.
  unfold curve_acquire. destruct (rc_running c); [|exists []; by rewrite app_nil_r].
  destruct (exceeds_i_max c p); cbn; eauto.
Qed.

(** The driver stops a running curve on the very point that exceeds the
    current limit, and on no other. *)
Lemma curve_acquire_trips p c :
  rc_running c = true →
  rc_running (curve_acquire p c) = negb (exceeds_i_max c p)
  ∧ rc_tripped (curve_acquire p c) = (exceeds_i_max c p || rc_tripped c).
Proof.
  unfold curve_acquire. intros ->. destruct (exceeds_i_max c p); cbn; auto.
Qed.

Lemma abort_measurement_inv w r w' :
  abort_measurement w = (r, w') →
  gui w' = gui w ∧ dev w' = dev w ∧ outfile (ses w') = outfile (ses w)
  ∧ (∀ c, acq_curve (ses w) = Some c →
          ∃ c', acq_curve (ses w') = Some c' ∧ rc_points c' = rc_points c)
  ∧ ∃ l, log w' = log w ++ l ∧ ∀ path, file_content path l = EmptyString.
Proof.
  unfold abort_measurement. unfold_monad. cbn.
  destruct (running (ses w)).
  - destruct (acq_curve (ses w)) as [c|] eqn:Hc; intros [= <- <-]; cbn; repeat split.
    + intros c0 [= <-]. eauto.
    + eauto.
    + discriminate.
    + exists []. by rewrite app_nil_r.
  - intros [= <- <-]. repeat split; eauto. exists []. by rewrite app_nil_r.
Qed.

Section Loop.
Context `{Builtins}.


(** The loop starts with the time of the last flush at -100. *)
Lemma run_measurement_begin_inv w w' :
  run_measurement_begin w = (inr tt, w') →
  last_file_flush (ses w') = Some (-100)%float
  ∧ running (ses w') = true
  ∧ ∃ c, acq_curve (ses w) = Some c ∧ acq_curve (ses w') = Some (curve_run c).
Proof.
  unfold run_measurement_begin. intros Hm. minv. cbn. eauto.
Qed.






End Loop.

(** ** The loop does not look at the selector *)

Lemma same_but_selection_fields w1 w2 :
  same_but_selection w1 w2 →
  dev w1 = dev w2 ∧ ses w1 = ses w2 ∧ log w1 = log w2
  ∧ save_dir (gui w1) = save_dir (gui w2)
  ∧ experiment_name (gui w1) = experiment_name (gui w2)
  ∧ emails (gui w1) = emails (gui w2).
Proof.
  unfold same_but_selection, user_select, select_intensity_type.
  intros Heq. injection Heq. intros. repeat split; assumption.
Qed.

Lemma same_but_selection_intro w1 w2 :
  dev w1 = dev w2 → ses w1 = ses w2 → log w1 = log w2 →
  select_intensity_type EmptyString (gui w1)
  = select_intensity_type EmptyString (gui w2) →
  same_but_selection w1 w2.
Proof.
  unfold same_but_selection, user_select. intros -> -> -> ->. reflexivity.
Qed.

Lemma same_but_selection_gui w1 w2 :
  same_but_selection w1 w2 →
  select_intensity_type EmptyString (gui w1)
  = select_intensity_type EmptyString (gui w2).
Proof. intros Heq. apply (f_equal gui) in Heq. exact Heq. Qed.

Lemma blind_bind {A B} (m : M A) (f : A → M B) :
  blind m → (∀ a, blind (f a)) → blind (m ≫= f).
Proof.
  intros Hm Hf w1 w2 Hw. unfold mbind, M_bind.
  destruct (Hm w1 w2 Hw) as [Hr Hs].
  destruct (m w1) as [[e1|a1] w1'], (m w2) as [[e2|a2] w2']; cbn in *;
    try discriminate; injection Hr as <-; [done|].
  by apply Hf.
Qed.

Lemma blind_mret {A} (a : A) : blind (mret a).
Proof. intros w1 w2 Hw. done. Qed.

Lemma blind_raise {A} e : blind (raise (A:=A) e).
Proof. intros w1 w2 Hw. done. Qed.

Lemma blind_emit e : blind (emit e).
Proof.
  intros w1 w2 Hw. split; [done|]. cbn.
  pose proof (same_but_selection_gui _ _ Hw).
  destruct (same_but_selection_fields _ _ Hw) as (? & ? & ? & _).
  apply same_but_selection_intro; cbn; congruence.
Qed.

Lemma blind_modify_ses f : blind (modify_ses f).
Proof.
  intros w1 w2 Hw. split; [done|]. cbn.
  pose proof (same_but_selection_gui _ _ Hw).
  destruct (same_but_selection_fields _ _ Hw) as (? & ? & ? & _).
  apply same_but_selection_intro; cbn; congruence.
Qed.

Lemma blind_attr_ses {A} name (f : Session → option A) :
  blind (attr name (f ∘ ses)).
Proof.
  intros w1 w2 Hw. unfold attr, compose.
  destruct (same_but_selection_fields _ _ Hw) as (_ & -> & _).
  destruct (f (ses w2)); done.
Qed.

Lemma blind_attr_dev {A} name (f : Devices → option A) :
  blind (attr name (f ∘ dev)).
Proof.
  intros w1 w2 Hw. unfold attr, compose.
  destruct (same_but_selection_fields _ _ Hw) as (-> & _).
  destruct (f (dev w2)); done.
Qed.

Lemma blind_read_dev : blind (read dev).
Proof.
  intros w1 w2 Hw. unfold read.
  destruct (same_but_selection_fields _ _ Hw) as (-> & _). done.
Qed.

Lemma blind_read_ses : blind (read ses).
Proof.
  intros w1 w2 Hw. unfold read.
  destruct (same_but_selection_fields _ _ Hw) as (_ & -> & _). done.
Qed.

Lemma blind_the_spectrometer n : blind (the_spectrometer n).
Proof.
  intros w1 w2 Hw. unfold the_spectrometer.
  destruct (same_but_selection_fields _ _ Hw) as (-> & _).
  destruct (spectrometer (dev w2)); done.
Qed.

Lemma blind_the_potentiostat n : blind (the_potentiostat n).
Proof.
  intros w1 w2 Hw. unfold the_potentiostat.
  destruct (same_but_selection_fields _ _ Hw) as (-> & _).
  destruct (potentiostat (dev w2)); done.
Qed.

Lemma blind_not_none {A} n (o : option A) : blind (not_none n o).
Proof. destruct o; [apply blind_mret|apply blind_raise]. Qed.

Lemma blind_getitem {A} (l : list A) i : blind (getitem l i).
Proof. unfold getitem. destruct (l !! i); [apply blind_mret|apply blind_raise]. Qed.

Lemma blind_lift_exn {A} (r : result A) : blind (lift_exn r).
Proof. destruct r; [apply blind_raise|apply blind_mret]. Qed.

Lemma blind_for_each {A} (xs : list A) (body : A → M unit) :
  (∀ x, blind (body x)) → blind (for_each xs body).
Proof.
  intros Hb. induction xs as [|x xs IH]; cbn; [apply blind_mret|].
  apply blind_bind; [apply Hb|]. intros _. exact IH.
Qed.

Lemma blind_with_open oe path body : blind body → blind (with_open oe path body).
Proof.
  intros Hb w1 w2 Hw. unfold with_open. destruct (oe path); [done|].
  destruct (blind_bind (emit (FileOpen path)) (λ _, body) (blind_emit _)
              (λ _, Hb) w1 w2 Hw) as [Hr Hs].
  destruct ((emit (FileOpen path) ≫= λ _, body) w1) as [r1 w1'],
           ((emit (FileOpen path) ≫= λ _, body) w2) as [r2 w2']; cbn in *.
  split; [done|]. by apply blind_emit.
Qed.

(** Reading the Tk variables is harmless when the rest uses them only
    through settings other than the selector. *)
Lemma blind_read_gui {A} (k : Gui → M A) :
  (∀ g, blind (k g)) →
  (∀ g1 g2 w, select_intensity_type EmptyString g1
              = select_intensity_type EmptyString g2 →
              k g1 w = k g2 w) →
  blind (read gui ≫= k).
Proof.
  intros Hk Hext w1 w2 Hw. unfold mbind, M_bind, read.
  rewrite (Hext (gui w1) (gui w2) w1 (same_but_selection_gui _ _ Hw)).
  by apply Hk.
Qed.

Ltac blind_tac :=
  repeat first
    [ apply blind_bind; [|intros ?]
    | apply blind_emit | apply blind_modify_ses | apply blind_attr_ses
    | apply blind_attr_dev | apply blind_read_dev | apply blind_read_ses
    | apply blind_the_spectrometer | apply blind_the_potentiostat
    | apply blind_not_none | apply blind_getitem | apply blind_lift_exn
    | apply blind_mret | apply blind_raise
    | apply blind_for_each; intros ?
    | apply blind_with_open
    | match goal with |- blind (if ?b then _ else _) => destruct b end ].

Section Blind.
Context `{Builtins}.

Lemma blind_merge_tick raw capture_s : blind (merge_tick raw capture_s).
Proof. unfold merge_tick, write. blind_tac. Qed.

Lemma blind_abort_measurement : blind abort_measurement.
Proof. unfold abort_measurement. blind_tac. Qed.

Lemma blind_run_measurement_begin : blind run_measurement_begin.
Proof. unfold run_measurement_begin. blind_tac. Qed.

Lemma blind_run_measurement_end env : blind (run_measurement_end env).
Proof.
  unfold run_measurement_end.
  do 7 (apply blind_bind; [blind_tac|intros ?]).
  apply blind_read_gui.
  - intros g. blind_tac.
  - intros g1 g2 w Hg.
    pose proof (f_equal save_dir Hg) as Hd.
    pose proof (f_equal experiment_name Hg) as Hn.
    pose proof (f_equal emails Hg) as He.
    cbn in Hd, Hn, He. rewrite Hd, Hn, He. reflexivity.
Qed.

(** On two windows that differ at most in the selector, a schedule and the
    same schedule without the user's edits of the selector give the same
    status and the same records, and leave windows that differ at most in
    the selector. *)
Lemma run_loop_without_selections env events :
  ∀ w1 w2, same_but_selection w1 w2 →
  let '(st1, rs1, w1') := run_loop env events w1 in
  let '(st2, rs2, w2') := run_loop env (without_selections events) w2 in
  st1 = st2 ∧ rs1 = rs2 ∧ same_but_selection w1' w2'.
Proof.
  induction events as [|ev rest IH]; intros w1 w2 Hw; [done|].
  destruct (same_but_selection_fields _ _ Hw) as (Hdev & Hses & Hlog & _).
  pose proof (same_but_selection_gui _ _ Hw) as Hgui.
  destruct ev as [p| |v| |raw capture_s]; cbn [run_loop without_selections].
  - apply IH. unfold driver_step. rewrite Hses.
    destruct (acq_curve (ses w2)); [|done].
    apply same_but_selection_intro; cbn; congruence.
  - apply IH. unfold driver_step. rewrite Hses.
    destruct (acq_curve (ses w2)); [|done].
    apply same_but_selection_intro; cbn; congruence.
  - apply IH. unfold same_but_selection in *. rewrite <- Hw. reflexivity.
  - destruct (blind_abort_measurement w1 w2 Hw) as [_ Hs].
    destruct (abort_measurement w1) as [r1 w1'], (abort_measurement w2) as [r2 w2'].
    by apply IH.
  - unfold attr, compose. rewrite Hses.
    destruct (acq_curve (ses w2)) as [c|]; [|done].
    destruct (rc_running c).
    + destruct (blind_merge_tick raw capture_s w1 w2 Hw) as [Hr Hs].
      destruct (merge_tick raw capture_s w1) as [[e1|r1] w1'],
               (merge_tick raw capture_s w2) as [[e2|r2] w2']; cbn in Hr, Hs;
        try discriminate; injection Hr as <-; [done|].
      specialize (IH w1' w2' Hs).
      destruct (run_loop env rest w1') as [[st1 rs1] w1''],
               (run_loop env (without_selections rest) w2') as [[st2 rs2] w2''].
      destruct IH as (-> & -> & Hs'). done.
    + destruct (blind_run_measurement_end env w1 w2 Hw) as [Hr Hs].
      destruct (run_measurement_end env w1) as [[e1|r1] w1'],
               (run_measurement_end env w2) as [[e2|r2] w2']; cbn in Hr, Hs;
        try discriminate; injection Hr as <-; done.
Qed.

End Blind.

(** * The claims *)

Section Claims.
Context `{Builtins}.



(** C3.  Two runs of the measurement thread from the same window, against
    schedules that differ only in the user's edits of the intensity-type
    selector, end in the same status, compute the same records and perform
    the same effects, file writes included. *)
Theorem selector_edits_do_not_reach_the_records env events1 events2 w :
  without_selections events1 = without_selections events2 →
  let '(st1, rs1, w1) := run_measurement env events1 w in
  let '(st2, rs2, w2) := run_measurement env events2 w in
  st1 = st2 ∧ rs1 = rs2 ∧ log w1 = log w2 ∧ ses w1 = ses w2 ∧ dev w1 = dev w2.
Proof.
  intros Heq. unfold run_measurement.
  destruct (run_measurement_begin w) as [[e|u] wb]; [done|].
  pose proof (run_loop_without_selections env events1 wb wb eq_refl) as H1.
  pose proof (run_loop_without_selections env events2 wb wb eq_refl) as H2.
  rewrite Heq in H1.
  destruct (run_loop env events1 wb) as [[st1 rs1] w1],
           (run_loop env events2 wb) as [[st2 rs2] w2],
           (run_loop env (without_selections events2) wb) as [[st0 rs0] w0].
  destruct H1 as (-> & -> & Hs1), H2 as (-> & -> & Hs2).
  apply same_but_selection_fields in Hs1 as (-> & -> & -> & _).
  apply same_but_selection_fields in Hs2 as (-> & -> & -> & _).
  done.
Qed.

(** The effects of a row are writes. *)
Lemma row_effects_writes out r e :
  In e (row_effects out r) → ∃ data, e = FileWrite out data.
Proof.
  unfold row_effects. rewrite in_app_iff. cbn [In].
  intros [[<-|[<-|[]]]|Hin]; eauto.
  apply in_map_iff in Hin as (x & <- & _). eauto.
Qed.


(** C6 (as the code has it).  A tick flushes the main data file exactly
    when the elapsed time of its record exceeds the elapsed time kept at
    the last flush by more than 30, and then keeps the new elapsed time;
    otherwise the kept time stays. *)
Theorem flush_when_more_than_30_s raw capture_s w r w' out last_flush :
  merge_tick raw capture_s w = (inr r, w') →
  outfile (ses w) = Some out →
  last_file_flush (ses w) = Some last_flush →
  (In (FileFlush out) (new_effects w w')
   ↔ PrimFloat.ltb 30 (rec_elapsed_time r - last_flush) = true)
  ∧ last_file_flush (ses w')
    = Some (if PrimFloat.ltb 30 (rec_elapsed_time r - last_flush)
            then rec_elapsed_time r else last_flush).
Proof.
  intros Hm Hout Hlast.
  apply merge_tick_inv in Hm
    as (c & pt & ty & out' & lf & period
        & _ & _ & _ & _ & _ & _ & _ & Hout' & Hlast' & _ & ->).
  rewrite Hout in Hout'. injection Hout' as <-.
  rewrite Hlast in Hlast'. injection Hlast' as <-.
  erewrite new_effects_app by reflexivity.
  rewrite !in_app_iff. cbn [In].
  destruct (PrimFloat.ltb 30 (rec_elapsed_time r - last_flush)) eqn:Hf.
  - split; [|reflexivity]. split; [done|]. intros _.
    right. right. left. by left.
  - split; [|cbn; exact Hlast]. split; [|discriminate].
    intros [[Hin|[Hin|[]]]|[Hin|[[]|[Hin|[]]]]]; try discriminate.
    apply row_effects_writes in Hin as [d Hd]. discriminate.
Qed.


(** C8.  When [start_measurement] starts the measurement thread, the run
    time it has computed from the parsed parameters is
    |v2 - v1| / scan rate * 2 * cycles, evaluated in float arithmetic from
    left to right. *)
Theorem calc_run_time_formula env w w' v1 v2 sr cy sp l :
  parse_pstat_parameters (gui w) = Some (v1, v2, sr, cy, sp) →
  start_measurement env w = (inr tt, w') →
  log w' = log w ++ l ++ [ThreadStart "run_measurement"] →
  calc_run_time (ses w')
  = Some (PrimFloat.abs (v2 - v1) / sr * 2 * float_of_int cy)%float.
Proof.
  intros Hp Hstart Hlog.
  destruct (start_measurement_started env w w' l Hstart Hlog)
    as (v1' & v2' & sr' & cy' & sp' & ms & Hp' & Hcalc & _).
  rewrite Hp in Hp'. injection Hp' as <- <- <- <- <-. exact Hcalc.
Qed.


End Claims.

(** ** The text of the baseline files *)

Section Baseline.
Context `{Builtins}.

(** What a baseline file holds once it has been written: the metadata
    lines, the sentinel line, then the column header and, with no line
    break after it, the rows. *)
Lemma baseline_file_text env title suffix name array keep w w' :
  write_baseline_file env title suffix name array keep w = (inr tt, w') →
  file_content (baseline_path env (gui w) suffix) (log w) = EmptyString →
  ∃ s itm wl,
    spectrometer (dev w) = Some s ∧
    integration_time_micros (dev w) = Some itm ∧
    wavelengths (dev w) = Some wl ∧
    file_content (baseline_path env (gui w) suffix) (log w')
    = String.concat EmptyString (baseline_metadata env (gui w) title s itm wl)
      +:+ "Wavelength_nm,Intensity"
      +:+ String.concat EmptyString
            (zip_with (λ wavelength intensity,
               str_of_float wavelength +:+ "," +:+ str_of_float intensity +:+ nl)
               wl (default [] (array (dev w)))).
Proof.
  intros Hm Hfresh.
  apply write_baseline_file_inv in Hm
    as (s & itm & wl & _ & Hs & Hi & Hwl & _ & ->).
  exists s, itm, wl. repeat split; try assumption.
  cbn [with_ses add_log log]. rewrite file_content_app, Hfresh.
  apply baseline_file_content.
Qed.

End Baseline.

(** * The claims on concrete runs *)





(** C3, on two runs of an absorbance measurement during which the user
    selects other intensity types at different moments. *)
Lemma selector_edits_do_not_reach_the_records_witness :
  without_selections demo_edits_1 = without_selections demo_edits_2
  ∧ fst (run_measurement (H:=demo_builtins) demo_env demo_edits_1
           (demo_started "Abs" demo_with_baselines))
    = fst (run_measurement (H:=demo_builtins) demo_env demo_edits_2
             (demo_started "Abs" demo_with_baselines))
  ∧ log (snd (run_measurement (H:=demo_builtins) demo_env demo_edits_1
                (demo_started "Abs" demo_with_baselines)))
    = log (snd (run_measurement (H:=demo_builtins) demo_env demo_edits_2
                  (demo_started "Abs" demo_with_baselines))).
Proof.
  split; [reflexivity|].
  pose proof (selector_edits_do_not_reach_the_records (H:=demo_builtins) demo_env
                demo_edits_1 demo_edits_2 (demo_started "Abs" demo_with_baselines)
                eq_refl) as Hsame.
  destruct (run_measurement demo_env demo_edits_1 _) as [[st1 rs1] w1],
           (run_measurement demo_env demo_edits_2 _) as [[st2 rs2] w2].
  destruct Hsame as (Hst & Hrs & Hlog & _). cbn. split; congruence.
Defined.

(** C4, failing input.  The potentiostat is connected, the spectrometer is
    not, the parameters are numeric and the spectrometer is selected for
    use: [start_measurement] raises [AttributeError] and shows no dialog. *)
Theorem start_without_spectrometer_shows_no_dialog :
  use_spec (gui demo_no_spectrometer) = true
  ∧ has_spectrometer (dev demo_no_spectrometer) = false
  ∧ start_measurement (H:=demo_builtins) demo_env demo_no_spectrometer
    = (inl (AttributeError "integration_time_micros"), demo_no_spectrometer).
Proof. repeat split; vm_compute; reflexivity. Qed.



(** C6, counterexample.  The file was flushed at elapsed time 0 and the
    record of this tick has elapsed time 30: the elapsed time has advanced
    by 30 s, and the tick does not flush. *)
Lemma no_flush_after_exactly_30_s :
  ∃ r w',
    merge_tick (H:=demo_builtins) demo_raw 0.25 demo_before_second_tick
    = (inr r, w')
    ∧ last_file_flush (ses demo_before_second_tick) = Some 0%float
    ∧ rec_elapsed_time r = 30%float
    ∧ PrimFloat.leb 30 (rec_elapsed_time r - 0) = true
    ∧ ¬ In (FileFlush demo_outfile) (new_effects demo_before_second_tick w').
Proof.
  eexists _, _. split; [vm_compute; reflexivity|].
  repeat split; try (vm_compute; reflexivity).
  vm_compute. intuition discriminate.
Qed.

(** C6, on the first tick of a run: the kept time is the initial -100. *)
Lemma flush_when_more_than_30_s_witness :
  ∃ r w',
    merge_tick (H:=demo_builtins) demo_raw 0.25
      (driver_step (curve_acquire demo_p0) demo_loop_start) = (inr r, w')
    ∧ last_file_flush (ses demo_loop_start) = Some (-100)%float
    ∧ In (FileFlush demo_outfile)
         (new_effects (driver_step (curve_acquire demo_p0) demo_loop_start) w')
    ∧ last_file_flush (ses w') = Some 0%float.
Proof.
  eexists _, _. split; [vm_compute; reflexivity|]. split; [reflexivity|].
  edestruct (flush_when_more_than_30_s (H:=demo_builtins) demo_raw 0.25
               (driver_step (curve_acquire demo_p0) demo_loop_start))
    as (Hflush & Hkept).
  - vm_compute. reflexivity.
  - vm_compute. reflexivity.
  - vm_compute. reflexivity.
  - split; [apply Hflush; vm_compute; reflexivity|exact Hkept].
Defined.



(** C8, on the scenario of the specification: 0 V to 1 V at 0.01 V/s, one
    cycle, gives 200 s. *)
Lemma calc_run_time_formula_witness :
  parse_pstat_parameters (H:=demo_builtins) (gui (fill_in "Raw Int." demo_connected))
  = Some (0, 1, 0.01, 1%Z, 0.1)%float
  ∧ calc_run_time (ses (demo_started "Raw Int." demo_connected)) = Some 200%float.
Proof.
  split; [vm_compute; reflexivity|].
  rewrite (calc_run_time_formula (H:=demo_builtins) demo_env
             (fill_in "Raw Int." demo_connected)
             (demo_started "Raw Int." demo_connected) 0 1 0.01 1 0.1
             (removelast (new_effects (fill_in "Raw Int." demo_connected)
                            (demo_started "Raw Int." demo_connected)))).
  - vm_compute. reflexivity.
  - vm_compute. reflexivity.
  - vm_compute. reflexivity.
  - vm_compute. reflexivity.
Defined.

(** C9, failing input.  The dark and the reference file of a measurement
    with the five-pixel spectrometer: the line after the sentinel holds
    the column header and the first row. *)
Theorem baseline_column_header_runs_into_first_row :
  lines (file_content "./Experiment_2026-02-16T10-30-00_DARK_SPECTRUM.csv"
           (log (demo_started "Abs" demo_with_baselines)))
  = ["Ocean Optics spectrometer dark spectrum generated by Lighthouse";
     "For experiment: Experiment";
     "Experiment began at: 2026-02-16T10:30:00";
     "Spectrometer model: USB2000";
     "Integration time (ms): 3";
     "Electric dark correction enabled: True";
     "Nonlinearity correction enabled: True";
     "Number of data points: 5";
     EmptyString;
     ">>>Begin Data<<<";
     "Wavelength_nm,Intensity400.0,0.0";
     "401.0,100.0"; "402.0,400.0"; "403.0,400.0"; "404.0,50.0"; EmptyString]
  ∧ lines (file_content "./Experiment_2026-02-16T10-30-00_REFERENCE_SPECTRUM.csv"
             (log (demo_started "Abs" demo_with_baselines)))
    = ["Ocean Optics spectrometer reference spectrum generated by Lighthouse";
       "For experiment: Experiment";
       "Experiment began at: 2026-02-16T10:30:00";
       "Spectrometer model: USB2000";
       "Integration time (ms): 3";
       "Electric dark correction enabled: True";
       "Nonlinearity correction enabled: True";
       "Number of data points: 5";
       EmptyString;
       ">>>Begin Data<<<";
       "Wavelength_nm,Intensity400.0,100.0";
       "401.0,100.0"; "402.0,400.0"; "403.0,401.0"; "404.0,60.0"; EmptyString].
Proof. split; vm_compute; reflexivity. Qed.


(** * Properties of the rest of the window *)

(** ** Properties kept by a computation, whatever its outcome *)

Lemma keeps_bind {A B} I (m : M A) (f : A → M B) :
  keeps I m → (∀ a, keeps I (f a)) → keeps I (m ≫= f).
Proof.
  intros Hm Hf w Hw. specialize (Hm w Hw). unfold mbind, M_bind.
  destruct (m w) as [[e|a] w1]; cbn in *; [assumption|]. by apply Hf.
Qed.

Lemma keeps_mret {A} I (a : A) : keeps I (mret a).
Proof. by intros w Hw. Qed.

Lemma keeps_raise {A} I e : keeps I (raise (A:=A) e).
Proof. by intros w Hw. Qed.

Lemma keeps_read {A} I (f : World → A) : keeps I (read f).
Proof. by intros w Hw. Qed.

Lemma keeps_attr {A} I name (f : World → option A) : keeps I (attr name f).
Proof. intros w Hw. unfold attr. by destruct (f w). Qed.

Lemma keeps_the_spectrometer I name : keeps I (the_spectrometer name).
Proof. intros w Hw. unfold the_spectrometer. by destruct (spectrometer _). Qed.

Lemma keeps_the_potentiostat I name : keeps I (the_potentiostat name).
Proof. intros w Hw. unfold the_potentiostat. by destruct (potentiostat _). Qed.

Lemma keeps_not_none {A} I what (o : option A) : keeps I (not_none what o).
Proof. intros w Hw. by destruct o. Qed.

Lemma keeps_getitem {A} I (l : list A) i : keeps I (getitem l i).
Proof. intros w Hw. unfold getitem. by destruct (l !! i). Qed.

Lemma keeps_lift_exn {A} I (r : result A) : keeps I (lift_exn r).
Proof. intros w Hw. by destruct r. Qed.

Lemma keeps_dict_get I d k : keeps I (dict_get d k).
Proof. intros w Hw. unfold dict_get. by destruct (d !! k). Qed.

Lemma keeps_emit I e : (∀ w, I w → I (add_log [e] w)) → keeps I (emit e).
Proof. intros He w Hw. by apply He. Qed.

Lemma keeps_modify_ses I f :
  (∀ w, I w → I (with_ses f w)) → keeps I (modify_ses f).
Proof. intros Hf w Hw. by apply Hf. Qed.

Lemma keeps_for_each {A} I (xs : list A) (body : A → M unit) :
  (∀ x, keeps I (body x)) → keeps I (for_each xs body).
Proof.
  intros Hb. induction xs as [|x xs IH]; cbn; [apply keeps_mret|].
  apply keeps_bind; [apply Hb|]. intros _. apply IH.
Qed.

Lemma keeps_with_open I oe path body :
  (∀ w, I w → I (add_log [FileOpen path] w)) →
  (∀ w, I w → I (add_log [FileClose path] w)) →
  keeps I body → keeps I (with_open oe path body).
Proof.
  intros Ho Hc Hb w Hw. unfold with_open. destruct (oe path); [assumption|].
  unfold mbind, M_bind, emit. cbn. fold (add_log [FileOpen path] w).
  specialize (Hb _ (Ho w Hw)).
  destruct (body (add_log [FileOpen path] w)) as [r w1]. cbn in *.
  by apply Hc.
Qed.

Lemma keeps_modify_gui I f :
  (∀ w, I w → I (MkWorld (f (gui w)) (dev w) (ses w) (log w))) →
  keeps I (modify_gui f).
Proof. intros Hf w Hw. by apply Hf. Qed.

Lemma keeps_modify_dev I f :
  (∀ w, I w → I (MkWorld (gui w) (f (dev w)) (ses w) (log w))) →
  keeps I (modify_dev f).
Proof. intros Hf w Hw. by apply Hf. Qed.

Lemma keeps_axes_plot I x y fmt colour : keeps I (axes_plot x y fmt colour).
Proof. intros w Hw. unfold axes_plot. by destruct (decide _). Qed.

Lemma keeps_getitem_last {A} I (l : list A) : keeps I (getitem_last l).
Proof. intros w Hw. unfold getitem_last. by destruct (last l). Qed.

Lemma keeps_draw_computed I wl ys colour ylabel :
  keeps I (draw_computed wl ys colour ylabel).
Proof.
  unfold draw_computed.
  repeat first [ apply keeps_bind; [|intros ?] | apply keeps_axes_plot
               | apply keeps_getitem | apply keeps_getitem_last
               | apply keeps_mret ].
Qed.

Lemma keeps_column I data j : keeps I (column data j).
Proof.
  induction data as [|row data IH]; cbn; [apply keeps_mret|].
  apply keeps_bind; [apply keeps_getitem|intros x].
  apply keeps_bind; [apply IH|intros xs]. apply keeps_mret.
Qed.

(** Reading a part of the window that the property fixes. *)
Lemma keeps_read_fixed {A B} I (f : World → A) (v : A) (k : A → M B) :
  (∀ w, I w → f w = v) → keeps I (k v) → keeps I (read f ≫= k).
Proof.
  intros Hv Hk w Hw. unfold mbind, M_bind, read. rewrite (Hv w Hw). by apply Hk.
Qed.

(** Going through a computation rule by rule; [side] proves that an
    effect or an assignment keeps the property. *)
Ltac keeps_with side :=
  repeat
    lazymatch goal with
    | |- keeps _ (read gui ≫= _) =>
        first [ eapply keeps_read_fixed; [solve [intros ? [Hg _]; exact Hg]|]
              | apply keeps_bind; [|intros ?] ]
    | |- keeps _ (_ ≫= _) => apply keeps_bind; [|intros ?]
    | |- keeps _ (mret _) => apply keeps_mret
    | |- keeps _ (raise _) => apply keeps_raise
    | |- keeps _ (read _) => apply keeps_read
    | |- keeps _ (attr _ _) => apply keeps_attr
    | |- keeps _ (the_spectrometer _) => apply keeps_the_spectrometer
    | |- keeps _ (the_potentiostat _) => apply keeps_the_potentiostat
    | |- keeps _ (not_none _ _) => apply keeps_not_none
    | |- keeps _ (getitem _ _) => apply keeps_getitem
    | |- keeps _ (getitem_last _) => apply keeps_getitem_last
    | |- keeps _ (lift_exn _) => apply keeps_lift_exn
    | |- keeps _ (dict_get _ _) => apply keeps_dict_get
    | |- keeps _ (axes_plot _ _ _ _) => apply keeps_axes_plot
    | |- keeps _ (draw_computed _ _ _ _) => apply keeps_draw_computed
    | |- keeps _ (column _ _) => apply keeps_column
    | |- keeps _ (for_each _ _) => apply keeps_for_each; intros ?
    | |- keeps _ (emit _) => apply keeps_emit; side
    | |- keeps _ (write _ _) => apply keeps_emit; side
    | |- keeps _ (modify_ses _) => apply keeps_modify_ses; side
    | |- keeps _ (modify_dev _) => apply keeps_modify_dev; side
    | |- keeps _ (modify_gui _) => apply keeps_modify_gui; side
    | |- keeps _ (with_open _ _ _) => apply keeps_with_open; [side|side|]
    | |- keeps _ (if ?b then _ else _) => destruct b eqn:?
    | |- keeps _ (match ?o with Some _ => _ | None => _ end) =>
        destruct o eqn:?
    | |- keeps _ (match ?l with [] => _ | _ :: _ => _ end) => destruct l
    | |- keeps _ _ => progress cbv beta zeta
    end.

(** ** The spectrometer attributes *)

Lemma integration_time_sent_snoc l e :
  integration_time_sent (l ++ [e])
  = match e with
    | SpecCmd (SetIntegrationTime x) => Some x
    | _ => integration_time_sent l
    end.
Proof. unfold integration_time_sent. rewrite foldl_app. reflexivity. Qed.

Lemma consistent_view w w' : view w' = view w → consistent w → consistent w'.
Proof.
  unfold view, consistent. intros [= Hd Ht Hs]. rewrite Hd, Ht, Hs. done.
Qed.

Ltac view_side :=
  let w := fresh "w" in let Hw := fresh "Hw" in
  intros w Hw; unfold view in *; cbn;
  rewrite ?integration_time_sent_snoc; exact Hw.

Ltac keeps_view := keeps_with view_side.

Section View.
Context `{Builtins}.

Lemma collect_spec_now_view env reading v :
  keeps (λ w, view w = v) (collect_spec_now env reading).
Proof. unfold collect_spec_now, collect_row. keeps_view. Qed.

Lemma merge_tick_view raw capture_s v :
  keeps (λ w, view w = v) (merge_tick raw capture_s).
Proof. unfold merge_tick. keeps_view. Qed.

Lemma run_measurement_begin_view v :
  keeps (λ w, view w = v) run_measurement_begin.
Proof. unfold run_measurement_begin. keeps_view. Qed.

Lemma run_measurement_end_view env v :
  keeps (λ w, view w = v) (run_measurement_end env).
Proof. unfold run_measurement_end. keeps_view. Qed.

Lemma abort_measurement_view v : keeps (λ w, view w = v) abort_measurement.
Proof. unfold abort_measurement. keeps_view. Qed.

Lemma draw_spec_body_view reading v :
  keeps (λ w, view w = v) (draw_spec_body reading).
Proof. unfold draw_spec_body. keeps_view. Qed.

Lemma plot_pstat_body_view v : keeps (λ w, view w = v) plot_pstat_body.
Proof.
  unfold plot_pstat_body. apply keeps_bind; [apply keeps_attr|intros c].
  destruct (_ <? _)%nat, (last_data_point c); keeps_view.
Qed.

Lemma choose_out_dir_view answer v :
  keeps (λ w, view w = v) (choose_out_dir answer).
Proof.
  unfold choose_out_dir. keeps_view.
Qed.

Lemma run_loop_view env ev w : view (snd (run_loop env [ev] w)) = view w.
Proof.
  destruct ev as [p| |t| |raw capture_s]; cbn.
  - unfold driver_step. by destruct (acq_curve (ses w)).
  - unfold driver_step. by destruct (acq_curve (ses w)).
  - reflexivity.
  - pose proof (abort_measurement_view (view w) w eq_refl) as Hv.
    by destruct (abort_measurement w).
  - unfold attr, compose. destruct (acq_curve (ses w)) as [c|]; [|reflexivity].
    destruct (rc_running c).
    + pose proof (merge_tick_view raw capture_s (view w) w eq_refl) as Hv.
      by destruct (merge_tick raw capture_s w) as [[e|r] w1].
    + pose proof (run_measurement_end_view env (view w) w eq_refl) as Hv.
      by destruct (run_measurement_end env w) as [[e|r] w1].
Qed.

End View.

Section Consistent.
Context `{Builtins}.

(** What [open_output_files] leaves as it found it, whatever its outcome;
    the intensity type of the measurement becomes the selected one at
    most. *)
Lemma open_output_files_view env v1 v2 sr cy sp ms w0 :
  keeps (λ w, gui w = gui w0 ∧ dev w = dev w0
              ∧ integration_time_sent (log w) = integration_time_sent (log w0)
              ∧ (running_intensity_type (ses w) = running_intensity_type (ses w0)
                 ∨ running_intensity_type (ses w)
                   = Some (spec_intensity_type (gui w0))))
    (open_output_files env v1 v2 sr cy sp ms).
Proof.
  unfold open_output_files, write_reference_file, write_dark_file,
    write_baseline_file, write_main_header, arm_and_begin.
  eapply keeps_read_fixed; [intros w (Hg & _); exact Hg|].
  keeps_with ltac:(intros ? (? & ? & ? & ?); cbn;
                   rewrite ?integration_time_sent_snoc; auto).
Qed.

End Consistent.

Section Consistent2.
Context `{Builtins}.

Lemma start_measurement_consistent env w :
  consistent w → consistent (exec (start_measurement env) w).
Proof.
  intros Hc. unfold exec.
  destruct (start_measurement_cases env w)
    as [[_ Hs]|[[e Hs]|[(title & text & Hs)|Hs]]].
  - by rewrite Hs.
  - by rewrite Hs.
  - rewrite Hs. revert Hc. apply consistent_view. unfold view. cbn.
    by rewrite integration_time_sent_snoc.
  - destruct Hs as (v1 & v2 & sr & cy & sp & ms & itm & num
                    & _ & _ & Hitm & _ & _ & _ & Href & _ & _ & ->).
    destruct (open_output_files_view env v1 v2 sr cy sp ms w w)
      as (Hg & Hd & Hsent & Ht); [by auto|].
    destruct Hc as (C1 & C2 & C3 & C4 & C5 & C6).
    assert (Hbase : is_Some (wavelengths (dev w))
                    ∧ is_Some (has_reference_spec (dev w))
                    ∧ is_Some (dark_spec (dev w))).
    { apply C3. by rewrite Hitm. }
    unfold consistent. rewrite Hd, Hsent.
    split; [done|]. split; [done|]. split; [done|].
    split; [|done].
    intros t Hrt Hraw. destruct Ht as [Ht|Ht]; rewrite Ht in Hrt.
    + by apply C4 in Hrt.
    + injection Hrt as <-. destruct Href as [Href|Href]; [done|].
      split; [by apply C1|]. apply Hbase.
Qed.

Lemma connect_pstat_consistent devices w :
  consistent w → consistent (exec (connect_pstat devices) w).
Proof.
  intros Hc. destruct devices as [|p devices]; unfold exec, consistent,
    connect_pstat; unfold_monad; cbn.
  - by rewrite integration_time_sent_snoc.
  - unfold integration_time_sent. rewrite !foldl_app. cbn. exact Hc.
Qed.

Lemma connect_spectrometer_consistent found w :
  consistent w → consistent (exec (connect_spectrometer found) w).
Proof.
  intros (C1 & C2 & C3 & C4 & C5 & C6).
  destruct found as [s|]; unfold consistent, exec, connect_spectrometer;
    unfold_monad; cbn.
  - split; [done|]. split; [done|]. split; [done|].
    split; [|split].
    + intros t Ht Hraw. split; [by apply (C4 t)|done].
    + intros s' [= <-]. eexists. split; [done|]. by left.
    + unfold integration_time_sent. by rewrite !foldl_app.
  - by rewrite integration_time_sent_snoc.
Qed.

Lemma set_integ_time_consistent text w :
  consistent w → consistent (exec (set_integ_time text) w).
Proof.
  intros Hc. pose proof Hc as (C1 & C2 & C3 & C4 & C5 & C6).
  unfold exec, set_integ_time. unfold_monad. cbn.
  destruct (has_spectrometer (dev w)) eqn:Hhas; [|exact Hc].
  destruct (float_of_str text) as [x|]; cbn.
  - destruct (spectrometer (dev w)) as [s|] eqn:Hs; cbn; [|exact Hc].
    destruct (_ && _) eqn:Hin; cbn.
    + apply andb_prop in Hin as [Hlo Hhi].
      unfold consistent. cbn. rewrite Hhas, Hs.
      split; [done|]. split; [done|]. split; [intros _; by apply C3, C2|].
      split; [done|]. split.
      * intros s' [= <-]. eexists. split; [done|]. by right.
      * unfold integration_time_sent. by rewrite !foldl_app.
    + unfold consistent. cbn. rewrite integration_time_sent_snoc.
      rewrite Hhas, Hs. done.
  - unfold consistent. cbn. rewrite integration_time_sent_snoc.
    rewrite Hhas. done.
Qed.

Lemma store_reference_spectrum_consistent reading w :
  consistent w → consistent (exec (store_reference_spectrum reading) w).
Proof.
  intros Hc. pose proof Hc as (C1 & C2 & C3 & C4 & C5 & C6).
  unfold exec, store_reference_spectrum. unfold_monad. cbn.
  destruct (has_spectrometer (dev w)) eqn:Hhas; [|exact Hc].
  destruct (spectrometer (dev w)) as [s|] eqn:Hs; cbn; [|exact Hc].
  unfold consistent. cbn. rewrite integration_time_sent_snoc, Hhas, Hs.
  split; [done|]. split; [done|].
  split; [intros Hi; destruct (C3 Hi) as (? & ? & ?); done|].
  split; [|done].
  intros t Ht Hraw. split; [done|by apply (C4 t)].
Qed.

Lemma store_dark_spectrum_consistent reading w :
  consistent w → consistent (exec (store_dark_spectrum reading) w).
Proof.
  intros Hc. pose proof Hc as (C1 & C2 & C3 & C4 & C5 & C6).
  unfold exec, store_dark_spectrum. unfold_monad. cbn.
  destruct (has_spectrometer (dev w)) eqn:Hhas; [|exact Hc].
  destruct (spectrometer (dev w)) as [s|] eqn:Hs; cbn; [|exact Hc].
  unfold consistent. cbn. rewrite integration_time_sent_snoc, Hhas, Hs.
  split; [done|]. split; [done|].
  split; [intros Hi; destruct (C3 Hi) as (? & ? & ?); done|].
  split; [|done].
  intros t Ht Hraw. split; [by apply (C4 t)|done].
Qed.

Lemma perform_consistent a w : consistent w → consistent (perform a w).
Proof.
  destruct a; cbn.
  - apply consistent_view. reflexivity.
  - apply connect_pstat_consistent.
  - apply connect_spectrometer_consistent.
  - apply set_integ_time_consistent.
  - apply store_reference_spectrum_consistent.
  - apply store_dark_spectrum_consistent.
  - apply consistent_view. by apply choose_out_dir_view.
  - apply consistent_view. by apply collect_spec_now_view.
  - apply start_measurement_consistent.
  - apply consistent_view. by apply run_measurement_begin_view.
  - apply consistent_view. apply run_loop_view.
  - apply consistent_view. by apply draw_spec_body_view.
  - apply consistent_view. by apply plot_pstat_body_view.
Qed.

Lemma after_snoc actions a : after (actions ++ [a]) = perform a (after actions).
Proof. unfold after, perform_all. by rewrite foldl_app. Qed.

Lemma after_consistent actions : consistent (after actions).
Proof.
  induction actions as [|a actions IH] using rev_ind.
  - unfold consistent. cbn. repeat split; try done.
    all: by intros [? [=]].
  - rewrite after_snoc. by apply perform_consistent.
Qed.

Lemma np_binop_inv f a b e : np_binop f a b = inl e → ∃ what, e = ValueError what.
Proof.
  unfold np_binop. destruct (decide _); [discriminate|].
  destruct a as [|x [|x' a]], b as [|y [|y' b]]; intros [= <-]; eauto.
Qed.

End Consistent2.

(** X1: once a measurement has been started, the baselines that its
    intensity type needs are stored: whatever the user and the threads have
    done, computing the intensities of a spectrum never fails for a missing
    reference or dark spectrum. *)
Theorem baselines_of_a_measurement_are_stored `{Builtins} actions t raw what :
  running_intensity_type (ses (after actions)) = Some t →
  calculate_intensities t raw (dev (after actions)) ≠ inl (TypeError what).
Proof.
  intros Ht. destruct (after_consistent actions) as (_ & _ & _ & C4 & _).
  unfold calculate_intensities.
  destruct (String.eqb_spec t "Raw Int.") as [->|Hraw]; [done|].
  destruct (C4 t Ht Hraw) as [[ref ->] [dark ->]].
  assert (Hb : ∀ f a b (k : list float → result (list float)),
             (∀ c, k c ≠ inl (TypeError what)) →
             (np_binop f a b ≫= k) ≠ inl (TypeError what)).
  { intros f a b k Hk. destruct (np_binop f a b) as [e|c] eqn:Hn; cbn.
    - apply np_binop_inv in Hn as [msg ->]. done.
    - apply Hk. }
  assert (Hn : ∀ f a b, np_binop f a b ≠ inl (TypeError what)).
  { intros f a b Hn. apply np_binop_inv in Hn as [msg [=]]. }
  repeat (destruct (String.eqb _ _)); cbn.
  - apply Hn.
  - apply Hb. intros num. cbn. apply Hb. intros den. apply Hn.
  - apply Hb. intros num. cbn. apply Hb. intros den. apply Hb. done.
Qed.

(** X2: the integration time that the window keeps is the one it last sent
    to the spectrometer, and while there is a handle it is the handle's
    minimum or a value strictly between its limits. *)
Theorem integration_time_follows_the_instrument `{Builtins} actions :
  integration_time_sent (log (after actions))
  = integration_time_micros (dev (after actions))
  ∧ ∀ s, spectrometer (dev (after actions)) = Some s →
         ∃ x, integration_time_micros (dev (after actions)) = Some x
              ∧ within_limits s x.
Proof.
  destruct (after_consistent actions) as (_ & _ & _ & _ & C5 & C6). done.
Qed.

(** ** Floats *)

Lemma SFcompare_refl s : SFcompare s s = Some Eq ∨ SFcompare s s = None.
Proof.
  destruct s as [[]|[]| |[] m e]; cbn; auto.
  all: rewrite Z.compare_refl, Pos.compare_refl; auto.
Qed.

Lemma ltb_irrefl x : PrimFloat.ltb x x = false.
Proof.
  rewrite ltb_spec. unfold SFltb.
  by destruct (SFcompare_refl (Prim2SF x)) as [-> | ->].
Qed.

(** ** [set_integ_time] *)

Section IntegTime.
Context `{Builtins}.

(** X3: the limits of the integration time are exclusive.  Right after a
    spectrometer is connected the integration time is its minimum; asking
    for that same value, or for the maximum, is refused with a warning and
    changes nothing. *)
Theorem minimum_integration_time_is_refused s text x w :
  float_of_str text = Some x →
  (1000 * x)%float = fst (integration_time_micros_limits s)
  ∨ (1000 * x)%float = snd (integration_time_micros_limits s) →
  let connected := exec (connect_spectrometer (Some s)) w in
  integration_time_micros (dev connected)
  = Some (fst (integration_time_micros_limits s))
  ∧ set_integ_time text connected
    = (inr tt,
       add_log [MboxWarning "Could not set integ. time"
                  "Value is outside hardcoded spectrometer limits"]
         connected).
Proof.
  intros Hx Hlim connected. subst connected. split; [reflexivity|].
  unfold set_integ_time, exec, connect_spectrometer. unfold_monad. cbn.
  rewrite Hx. cbn.
  destruct Hlim as [-> | ->]; rewrite ltb_irrefl, ?andb_false_r; reflexivity.
Qed.

End IntegTime.

(** ** The [running] flag *)

Ltac flag_side :=
  let w := fresh "w" in let Hw := fresh "Hw" in
  intros w Hw; exact Hw.

Ltac keeps_flag := keeps_with flag_side.

Section Flag.
Context `{Builtins}.

Lemma merge_tick_running raw capture_s b :
  keeps (λ w, running (ses w) = b) (merge_tick raw capture_s).
Proof. unfold merge_tick. keeps_flag. Qed.

Lemma abort_measurement_running b :
  keeps (λ w, running (ses w) = b) abort_measurement.
Proof. unfold abort_measurement. keeps_flag. Qed.










(** [start_measurement] leaves the flag to the measurement thread. *)
Lemma start_measurement_running env b :
  keeps (λ w, running (ses w) = b) (start_measurement env).
Proof.
  unfold start_measurement, open_output_files, write_reference_file,
    write_dark_file, write_baseline_file, write_main_header, arm_and_begin,
    warn_value_error, warn_collection_number,
    warn_collection_frequency, warn_reference_required, warn_potentiostat,
    warn_spectrometer.
  apply keeps_bind; [apply keeps_read|intros g].
  apply keeps_bind; [apply keeps_read|intros s].
  destruct (running s); [apply keeps_mret|].
  destruct (parse_pstat_parameters g) as [[[[[v1 v2] sr] cy] sp]|];
    [|keeps_flag].
  apply keeps_bind; [apply keeps_attr|intros itm].
  destruct (float_of_str (spec_freq_txt g)) as [num|]; [|keeps_flag].
  destruct (collection_time_in_ms (spec_freq_units g) num) as [ms|];
    [|keeps_flag].
  keeps_flag.
Qed.

Lemma run_measurement_begin_running w :
  running (ses (snd (run_measurement_begin w))) = true.
Proof.
  unfold run_measurement_begin. unfold_monad. cbn.
  destruct (potentiostat (dev w)); cbn; [|reflexivity].
  destruct (acq_curve (ses w)); reflexivity.
Qed.





End Flag.

(** ** The end of a measurement *)


Section End.
Context `{Builtins}.

(** What the part after the loop does when it returns. *)
Lemma run_measurement_end_effects env w w' :
  run_measurement_end env w = (inr tt, w') →
  ∃ out t c,
    outfile (ses w) = Some out ∧ filename_time (ses w) = Some t ∧
    acq_curve (ses w) = Some c ∧
    let path := save_dir (gui w) +:+ "/" +:+
                replace_colons (experiment_name (gui w) +:+ "_Raw_PStat_Data_"
                                +:+ datetime_str t +:+ ".csv") in
    running (ses w') = false ∧ should_draw_pstat (ses w') = false ∧
    pstat_data_filename (ses w') = Some path ∧
    acq_curve (ses w') = Some c ∧
    log w' = log w
             ++ [PstatCmd (SetCell false);
                 Configure "lbl_cell_state" "Cell Off" "red"; FileClose out;
                 FileOpen path; PstatCmd AcqData;
                 SaveTxt path
                   "point,time,vf,vu,im,ach,vsig,temp,cycle,ie_range,overload,stop_test"
                   (rc_points c);
                 FileClose path; Configure "lbl_running" "not running" "red"]
             ++ (if negb (String.eqb (emails (gui w)) EmptyString)
                 then [SendEmails] else []).
Proof.
  unfold run_measurement_end. intros Hm. minv.
  all: do 3 eexists; repeat (split; [eassumption|]); cbn.
  all: match goal with Hb : negb _ = _ |- _ => cbn in Hb; rewrite Hb end.
  all: repeat split; try eassumption; rewrite <- ?app_assoc; reflexivity.
Qed.



(** The window, the curve and the records of a loop that has finished. *)
Lemma run_loop_finished env events :
  ∀ w c rs w',
  acq_curve (ses w) = Some c →
  run_loop env events w = (Finished, rs, w') →
  ∃ c' added path before rest,
    acq_curve (ses w') = Some c' ∧ rc_points c' = rc_points c ++ added ∧
    running (ses w') = false ∧
    pstat_data_filename (ses w') = Some path ∧
    log w' = log w ++ before
             ++ [SaveTxt path
                   "point,time,vf,vu,im,ach,vsig,temp,cycle,ie_range,overload,stop_test"
                   (rc_points c')] ++ rest ∧
    Forall (λ r, ∃ pt, In pt (rc_points c')
                       ∧ pt !! 1%nat = Some (rec_elapsed_time r)
                       ∧ pt !! 2%nat = Some (rec_potential r)
                       ∧ pt !! 4%nat = Some (rec_current r)) rs.
Proof.
  induction events as [|ev events IH]; intros w c rs w' Hc Hrun; cbn in Hrun.
  - discriminate.
  - destruct ev as [p| |t| |raw capture_s].
    + apply (IH _ (curve_acquire p c)) in Hrun; [|by apply driver_step_curve].
      destruct Hrun as (c' & added & path & before & rest
                        & Hc' & Hpts & Hflag & Hname & Hlog & Hrs).
      destruct (curve_acquire_points p c) as [added0 Hadd].
      exists c', (added0 ++ added), path, before, rest.
      rewrite driver_step_log in Hlog. rewrite Hadd, <- app_assoc in Hpts. repeat split; assumption.
    + apply (IH _ (curve_stop c)) in Hrun; [|by apply driver_step_curve].
      destruct Hrun as (c' & added & path & before & rest
                        & Hc' & Hpts & Hflag & Hname & Hlog & Hrs).
      exists c', added, path, before, rest.
      rewrite driver_step_log in Hlog. repeat split; assumption.
    + apply (IH _ c) in Hrun; [|exact Hc]. exact Hrun.
    + destruct (abort_measurement w) as [r w1] eqn:Hab.
      apply abort_measurement_inv in Hab
        as (_ & _ & _ & Hcurve & l & Hl & _).
      destruct (Hcurve c Hc) as (c1 & Hc1 & Hpts1).
      apply (IH _ c1) in Hrun; [|exact Hc1].
      destruct Hrun as (c' & added & path & before & rest
                        & Hc' & Hpts & Hflag & Hname & Hlog & Hrs).
      exists c', added, path, (l ++ before), rest.
      rewrite Hl, <- !app_assoc in Hlog. rewrite Hpts1 in Hpts.
      repeat split; try assumption. rewrite Hlog, <- !app_assoc. reflexivity.
    + unfold attr, compose in Hrun. rewrite Hc in Hrun.
      destruct (rc_running c).
      * destruct (merge_tick raw capture_s w) as [[e|r] w1] eqn:Htick;
          [discriminate|].
        destruct (run_loop env events w1) as [[st rs'] w2] eqn:Hrest.
        injection Hrun as -> <- ->.
        pose proof (merge_tick_frame _ _ _ _ _ Htick)
          as (_ & _ & Hcurve & _).
        apply merge_tick_inv in Htick
          as (c0 & pt & ty & out & lf & period
              & Hc0 & Hlast & Ht & Hv & Hi & _ & _ & _ & _ & _ & Hw1).
        rewrite Hc in Hc0. injection Hc0 as <-.
        apply (IH _ c) in Hrest; [|by rewrite Hcurve].
        destruct Hrest as (c' & added & path & before & rest
                           & Hc' & Hpts & Hflag & Hname & Hlog & Hrs).
        cbv zeta in Hw1. apply (f_equal log) in Hw1. cbn [log] in Hw1.
        match type of Hw1 with _ = _ ++ ?l1 =>
          exists c', added, path, (l1 ++ before), rest
        end.
        split; [exact Hc'|]. split; [exact Hpts|]. split; [exact Hflag|].
        split; [exact Hname|]. split.
        -- rewrite Hlog, Hw1. rewrite <- !app_assoc. reflexivity.
        -- constructor; [|exact Hrs]. exists pt.
           split; [|split; [exact Ht|split; [exact Hv|exact Hi]]].
           rewrite Hpts. apply in_or_app. left.
           unfold last_data_point in Hlast. apply last_Some in Hlast as [l' ->].
           apply in_or_app. right. by left.
      * destruct (run_measurement_end env w) as [[e|[]] w1] eqn:Hend;
          [discriminate|].
        injection Hrun as <- <-.
        apply run_measurement_end_effects in Hend
          as (out & t & c0 & _ & _ & Hc0 & Hflag & _ & Hname & Hc' & Hlog).
        rewrite Hc in Hc0. injection Hc0 as <-.
        match type of Hlog with
        | _ = _ ++ [?a; ?b; ?c1; ?d; ?e; SaveTxt ?p _ _; ?f; ?g] ++ ?mails =>
            exists c, [], p, [a; b; c1; d; e], ([f; g] ++ mails)
        end.
        split; [exact Hc'|]. split; [by rewrite app_nil_r|].
        split; [exact Hflag|]. split; [exact Hname|]. split; [|constructor].
        rewrite Hlog. reflexivity.
Qed.

End End.

(** ** The e-mails *)




Lemma send_mail_inv menv mail w m w' :
  send_mail menv mail w = (inr (Some m), w') →
  smtp menv = SmtpSent ∧ m = mail
  ∧ w' = add_log
           [StdoutLine "Other error occurred while trying to send the email."] w.
Proof.
  unfold send_mail. destruct (smtp menv); unfold_monad; cbn; intros [=].
  subst. done.
Qed.

Lemma try_except_inv {A} (block handler : M A) w a w' :
  try_except block handler w = (inr a, w') →
  block w = (inr a, w')
  ∨ ∃ e w1, block w = (inl e, w1) ∧ handler w1 = (inr a, w').
Proof.
  unfold try_except. destruct (block w) as [[e|a'] w1]; intros Hr.
  - right. eauto.
  - left. exact Hr.
Qed.

(** A message that the server took. *)
Lemma delivered_inv menv w mail w' :
  try_send_notif_emails menv w = (inr (Some mail), w')
  ∨ try_send_file_emails menv w = (inr (Some mail), w') →
  smtp menv = SmtpSent
  ∧ mail_receivers mail = split_commas (emails (gui w))
  ∧ mail_to mail = emails (gui w)
  ∧ last (log w')
    = Some (StdoutLine "Other error occurred while trying to send the email.").
Proof.
  intros [Hsend|Hsend].
  - unfold try_send_notif_emails in Hsend.
    destruct (auth_token menv) as [[sender_email password]|].
    + minv. apply send_mail_inv in Hsend as (Hsmtp & -> & ->).
      cbn. rewrite last_snoc. done.
    + minv. discriminate.
  - unfold try_send_file_emails in Hsend. minv.
    match goal with Hz : try_except _ _ _ = _ |- _ =>
      apply try_except_inv in Hz as [Hz|(e & w1 & _ & Hz)]
    end.
    + unfold zip_write in *.
      destruct (auth_token menv) as [[sender_email password]|]; minv;
        try discriminate.
      all: apply send_mail_inv in Hsend as (Hsmtp & -> & ->).
      all: cbn; rewrite last_snoc; done.
    + minv. discriminate.
Qed.

(** X6: every message that is delivered is followed by the line that says
    that an error occurred: the [finally] clause of the last [try]
    statement prints it on every path. *)
Theorem delivered_mail_reports_an_error menv w mail w' :
  try_send_notif_emails menv w = (inr (Some mail), w')
  ∨ try_send_file_emails menv w = (inr (Some mail), w') →
  last (log w')
  = Some (StdoutLine "Other error occurred while trying to send the email.").
Proof. intros Hsend. by apply delivered_inv in Hsend as (_ & _ & _ & Hlast). Qed.


(** X8: the archive takes the reference file when [has_reference_spec] is
    set at the end of the measurement, not when the measurement wrote one.
    After a measurement that was started without a reference spectrum, with
    one stored while it ran, there is no [reference_filename]: the archive
    is given up and no data is sent. *)
Theorem reference_stored_while_running_loses_the_data_mail menv w f d p :
  filename (ses w) = Some f →
  dark_filename (ses w) = Some d →
  pstat_data_filename (ses w) = Some p →
  reference_filename (ses w) = None →
  has_reference_spec (dev w) = Some true →
  (∀ path, zip_error menv path = false) →
  try_send_file_emails menv w
  = (inr None,
     add_log [FileOpen (without_last_4 f +:+ ".zip");
              StdoutLine "Failed to create zip file to send to emails"] w).
Proof.
  intros Hf Hd Hp Hr Href Hzip.
  unfold try_send_file_emails, try_except, zip_write. unfold_monad. cbn.
  rewrite Hf, !Hzip. cbn. rewrite Hf, Hzip. cbn. rewrite Hd, Hzip. cbn.
  rewrite Hp, Hzip. cbn. rewrite Href. cbn. rewrite Hr. cbn.
  unfold add_log. cbn. rewrite <- app_assoc. reflexivity.
Qed.

(** ** The names of the files *)








Section Files.
Context `{Builtins}.















End Files.

(** ** The drawing threads *)

Lemma axes_plot_inv x y fmt colour w p w' :
  axes_plot x y fmt colour w = (inr p, w') →
  length x = length y ∧ p = AxesPlot x y fmt colour ∧ w' = w.
Proof. unfold axes_plot. destruct (decide _); intros [= <- <-]; auto. Qed.

Lemma getitem_last_inv {A} (l : list A) w a w' :
  getitem_last l w = (inr a, w') → last l = Some a ∧ w' = w.
Proof. unfold getitem_last. destruct (last l); intros [= <- <-]; auto. Qed.

Ltac draw_inv_step :=
  first
    [ minv_step
    | match goal with
      | H : axes_plot _ _ _ _ _ = (inr _, _) |- _ =>
          apply axes_plot_inv in H as (? & -> & ->)
      | H : getitem_last _ _ = (inr _, _) |- _ =>
          apply getitem_last_inv in H as (_ & ->)
      end ].

Lemma draw_computed_inv wl ys colour ylabel w cmds w' :
  draw_computed wl ys colour ylabel w = (inr cmds, w') →
  length wl = length ys ∧ In (AxesPlot wl ys None colour) cmds ∧ w' = w.
Proof.
  unfold draw_computed. intros Hd. repeat draw_inv_step.
  split; [assumption|]. split; [|reflexivity]. right. by left.
Qed.


Section Drawing.
Context `{Builtins}.

(** X9: what the preview draws for the selected intensity type is what a
    measurement of that type records for the same spectrum: one curve over
    the wavelengths with the intensities of [calculate_intensities]. *)
Theorem preview_shows_what_a_measurement_records reading w cmds w' :
  draw_spec_body reading w = (inr cmds, w') →
  cmds ≠ [] →
  ∃ wl ys colour,
    wavelengths (dev w) = Some wl ∧
    calculate_intensities (spec_intensity_type (gui w)) reading (dev w) = inr ys ∧
    length wl = length ys ∧
    In (AxesPlot wl ys None colour) cmds.
Proof.
  unfold draw_spec_body. intros Hd Hne. cbv zeta in Hd.
  unfold calculate_intensities.
  repeat first
    [ draw_inv_step
    | match goal with
      | H : draw_computed _ _ _ _ _ = (inr _, _) |- _ =>
          apply draw_computed_inv in H as (? & ? & ->)
      end ].
  all: try done.
  all: repeat match goal with
       | H : String.eqb _ _ = true |- _ => apply String.eqb_eq in H
       end.
  all: cbn in *.
  all: repeat match goal with
       | H : spec_intensity_type (gui ?w) = _ |- _ => rewrite !H
       | H : String.eqb (spec_intensity_type (gui ?w)) _ = false |- _ =>
           rewrite !H
       end.
  all: cbn in *.
  all: repeat match goal with
       | H : is_array _ ?o = inr _ |- _ =>
           destruct o eqn:?; [injection H as ->|discriminate H]
       end.
  all: cbn.
  all: repeat match goal with
       | H : np_binop _ _ _ = inr _ |- _ => rewrite H; cbn
       end.
  all: do 3 eexists; split; [eassumption|]; split; [reflexivity|].
  all: split; [eassumption|]; try eassumption.
  all: right; by left.
Qed.

(** X10: with an intensity type other than the raw one selected and no
    reference spectrum stored, the preview reads the spectrometer and
    sleeps, and draws nothing: the picture stays as it was, without a
    warning. *)
Theorem preview_without_reference_draws_nothing reading w s :
  has_spectrometer (dev w) = true →
  spectrometer (dev w) = Some s →
  has_reference_spec (dev w) = Some false →
  spec_intensity_type (gui w) ≠ "Raw Int." →
  draw_spec_body reading w
  = (inr [], add_log [SpecCmd (Intensities true true); Sleep 5] w).
Proof.
  intros Hhas Hs Href Hraw.
  unfold draw_spec_body. unfold_monad. cbn. rewrite Hhas. cbn. rewrite Hs. cbn.
  apply String.eqb_neq in Hraw. rewrite Hraw.
  repeat (destruct (String.eqb _ _); cbn; rewrite ?Href; cbn).
  all: unfold add_log; cbn; rewrite <- app_assoc; reflexivity.
Qed.


End Drawing.

(** ** More about starting and ending a measurement *)

Section More.
Context `{Builtins}.


(** X13: when the loop has ended and the part after it has run, [running]
    is cleared and the raw data file holds the table of the curve: the
    points it had at the beginning and those acquired since, among them
    the point of every record of the main file - as long as the buffer of
    the curve, which the driver overwrites from its oldest point on when
    it is full, has room for them. *)
Theorem finished_run_saves_every_recorded_point env events w c rs w' :
  acq_curve (ses w) = Some c →
  (Z.of_nat (length (rc_points c) + length events) ≤ rc_capacity c)%Z →
  run_loop env events w = (Finished, rs, w') →
  running (ses w') = false ∧
  ∃ path added,
    pstat_data_filename (ses w') = Some path ∧
    In (SaveTxt path
          "point,time,vf,vu,im,ach,vsig,temp,cycle,ie_range,overload,stop_test"
          (rc_points c ++ added))
       (new_effects w w') ∧
    Forall (λ r, ∃ pt, In pt (rc_points c ++ added)
                       ∧ pt !! 1%nat = Some (rec_elapsed_time r)
                       ∧ pt !! 2%nat = Some (rec_potential r)
                       ∧ pt !! 4%nat = Some (rec_current r)) rs.
Proof.
  intros Hc _ Hrun.
  destruct (run_loop_finished env events w c rs w' Hc Hrun)
    as (c' & added & path & before & rest
        & Hc' & Hpts & Hflag & Hname & Hlog & Hrs).
  split; [exact Hflag|]. exists path, added. rewrite <- Hpts.
  split; [exact Hname|]. split; [|exact Hrs].
  rewrite (new_effects_app _ _ _ Hlog).
  apply in_or_app. right. by left.
Qed.

(** The checks of [start_measurement], passed. *)
Lemma start_measurement_passes env w v1 v2 sr cy sp itm num ms :
  running (ses w) = false →
  parse_pstat_parameters (gui w) = Some (v1, v2, sr, cy, sp) →
  integration_time_micros (dev w) = Some itm →
  float_of_str (spec_freq_txt (gui w)) = Some num →
  collection_time_in_ms (spec_freq_units (gui w)) num = Some ms →
  PrimFloat.leb ms (itm / 1000) = false →
  (spec_intensity_type (gui w) = "Raw Int."
   ∨ has_reference_spec (dev w) = Some true) →
  (use_pstat (gui w) = true → has_potentiostat (dev w) = true) →
  (use_spec (gui w) = true → has_spectrometer (dev w) = true) →
  start_measurement env w = open_output_files env v1 v2 sr cy sp ms w.
Proof.
  intros Hrun Hparse Hitm Hnum Hms Hleb Href Hp Hs.
  unfold start_measurement. unfold_monad. cbn.
  rewrite Hrun, Hparse. cbn. rewrite Hitm. cbn. rewrite Hnum, Hms, Hleb.
  assert (Hdev : (if use_pstat (gui w) && negb (has_potentiostat (dev w))
                  then true
                  else use_spec (gui w) && negb (has_spectrometer (dev w)))
                 = false).
  { destruct (use_pstat (gui w)); [rewrite Hp by done|];
      (destruct (use_spec (gui w)); [rewrite Hs by done|]); reflexivity. }
  destruct Href as [Href|Href].
  - rewrite Href. cbn.
    destruct (use_pstat (gui w) && negb (has_potentiostat (dev w)));
      [discriminate|].
    by rewrite Hdev.
  - destruct (negb (String.eqb _ _)); cbn; rewrite ?Href; cbn.
    all: destruct (use_pstat (gui w) && negb (has_potentiostat (dev w)));
      [discriminate|].
    all: by rewrite Hdev.
Qed.

(** X14: [start_measurement] leaves [running] as it is: only the measurement
    thread sets it.  Until that thread has run its first statements a
    second press of Start is not ignored: it passes the same checks and
    goes on to open the output files again. *)
Theorem second_start_before_the_thread_begins env w w' env' :
  start_measurement env w = (inr tt, w') →
  running (ses w) = false →
  last (log w') = Some (ThreadStart "run_measurement") →
  running (ses w') = false
  ∧ ∃ v1 v2 sr cy sp ms,
      start_measurement env' w' = open_output_files env' v1 v2 sr cy sp ms w'.
Proof.
  intros Hstart Hidle Hlast.
  pose proof (start_measurement_running env (running (ses w)) w eq_refl) as Hflag.
  rewrite Hstart in Hflag. cbn in Hflag.
  destruct (start_measurement_cases env w)
    as [[Hbusy _]|[[e Hs]|[(title & text & Hs)|Hs]]].
  - congruence.
  - rewrite Hs in Hstart. discriminate.
  - rewrite Hs in Hstart. injection Hstart as <-. cbn in Hlast.
    rewrite last_snoc in Hlast. discriminate.
  - destruct Hs as (v1 & v2 & sr & cy & sp & ms & itm & num
                    & Hrun & Hparse & Hitm & Hnum & Hms & Hleb & Href
                    & Hp & Hsp & Hs).
    rewrite Hs in Hstart.
    apply open_output_files_inv in Hstart
      as [[msg Hl]|(_ & _ & _ & _ & Hd & Hg & _)].
    + rewrite Hl, last_snoc in Hlast. discriminate.
    + split; [congruence|]. exists v1, v2, sr, cy, sp, ms.
      apply (start_measurement_passes env' w' v1 v2 sr cy sp itm num ms);
        rewrite ?Hd, ?Hg; try assumption. congruence.
Qed.

(** X15: a reconnection that finds no spectrometer clears the handle and
    leaves [has_spectrometer] set.  From then on the actions that are
    guarded by the flag go on to use the handle: storing a baseline,
    setting the integration time and the preview all raise
    [AttributeError]. *)
Theorem failed_reconnection_breaks_the_spectrometer w reading text x :
  has_spectrometer (dev w) = true →
  float_of_str text = Some x →
  let w1 := exec (connect_spectrometer None) w in
  has_spectrometer (dev w1) = true
  ∧ store_reference_spectrum reading w1 = (inl (AttributeError "intensities"), w1)
  ∧ store_dark_spectrum reading w1 = (inl (AttributeError "intensities"), w1)
  ∧ draw_spec_body reading w1 = (inl (AttributeError "intensities"), w1)
  ∧ set_integ_time text w1
    = (inl (AttributeError "integration_time_micros_limits"), w1).
Proof.
  intros Hhas Hx w1. subst w1.
  unfold exec, connect_spectrometer, store_reference_spectrum,
    store_dark_spectrum, draw_spec_body, set_integ_time.
  unfold_monad. cbn. rewrite Hhas, Hx. cbn. done.
Qed.

End More.

(** ** [collect_spec_now] and [calculate_intensities] *)

Lemma np_binop_lookup f a b c i x y :
  np_binop f a b = inr c →
  a !! i = Some x → b !! i = Some y → c !! i = Some (f x y).
Proof.
  unfold np_binop. intros Hc Ha Hb. destruct (decide _).
  - injection Hc as <-. rewrite lookup_zip_with, Ha. cbn. by rewrite Hb.
  - destruct a as [|x0 [|x1 a]], b as [|y0 [|y1 b]]; try discriminate;
      injection Hc as <-.
    all: try (destruct i; [|discriminate]).
    all: cbn in *; congruence.
Qed.

Lemma concat_cons_empty x (l : list string) :
  String.concat EmptyString (x :: l) = x +:+ String.concat EmptyString l.
Proof. destruct l; cbn; [by rewrite append_empty_r|reflexivity]. Qed.

Lemma concat_app_empty (a b : list string) :
  String.concat EmptyString (a ++ b)
  = String.concat EmptyString a +:+ String.concat EmptyString b.
Proof.
  induction a as [|x a IH]; [reflexivity|].
  change ((x :: a) ++ b) with (x :: (a ++ b)).
  rewrite !concat_cons_empty, IH, append_assoc. reflexivity.
Qed.

Lemma new_effects_add_log l w : new_effects w (add_log l w) = l.
Proof. by apply new_effects_app. Qed.

Lemma file_content_write path data :
  file_content path [FileWrite path data] = data.
Proof. cbn. by rewrite String.eqb_refl, append_empty_r. Qed.

Section Collect.
Context `{Builtins}.

(** The intensity that [calculate_intensities] gives at an index, from the
    intensities at that index. *)
Lemma calculate_intensities_raw reading d ys :
  calculate_intensities "Raw Int." reading d = inr ys → ys = reading.
Proof. by intros [= <-]. Qed.

Lemma calculate_intensities_fraction reading d ys dark ref i x k r :
  calculate_intensities "%T or %R" reading d = inr ys →
  dark_spec d = Some dark → reference_spec d = Some ref →
  reading !! i = Some x → dark !! i = Some k → ref !! i = Some r →
  ys !! i = Some ((x - k) / (r - k))%float.
Proof.
  unfold calculate_intensities. cbn. intros Hc Hdark Href Hx Hk Hr.
  rewrite Hdark, Href in Hc. cbn in Hc.
  destruct (np_binop PrimFloat.sub reading dark) as [|num] eqn:Hnum;
    [discriminate|]. cbn in Hc.
  destruct (np_binop PrimFloat.sub ref dark) as [|den] eqn:Hden;
    [discriminate|]. cbn in Hc.
  eapply np_binop_lookup; [exact Hc| |].
  - eapply np_binop_lookup; eassumption.
  - eapply np_binop_lookup; eassumption.
Qed.

Lemma calculate_intensities_abs reading d ys dark ref i x k r :
  calculate_intensities "Abs" reading d = inr ys →
  dark_spec d = Some dark → reference_spec d = Some ref →
  reading !! i = Some x → dark !! i = Some k → ref !! i = Some r →
  ys !! i = Some (-1 * np_log10 ((x - k) / (r - k)))%float.
Proof.
  unfold calculate_intensities. cbn. intros Hc Hdark Href Hx Hk Hr.
  rewrite Hdark, Href in Hc. cbn in Hc.
  destruct (np_binop PrimFloat.sub reading dark) as [|num] eqn:Hnum;
    [discriminate|]. cbn in Hc.
  destruct (np_binop PrimFloat.sub ref dark) as [|den] eqn:Hden;
    [discriminate|]. cbn in Hc.
  destruct (np_binop PrimFloat.div num den) as [|fraction] eqn:Hdiv;
    [discriminate|]. cbn in Hc. injection Hc as <-.
  rewrite list_lookup_fmap.
  erewrite np_binop_lookup; [reflexivity|exact Hdiv| |].
  - eapply np_binop_lookup; eassumption.
  - eapply np_binop_lookup; eassumption.
Qed.

(** One row of the file. *)
Lemma collect_row_inv path reading i w w' ys :
  collect_row path reading i w = (inr tt, w') →
  spec_intensity_type (gui w) = "Raw Int."
  ∨ spec_intensity_type (gui w) = "%T or %R"
  ∨ spec_intensity_type (gui w) = "Abs" →
  calculate_intensities (spec_intensity_type (gui w)) reading (dev w) = inr ys →
  ∃ wl wv y dark k,
    wavelengths (dev w) = Some wl ∧ wl !! i = Some wv ∧
    ys !! i = Some y ∧
    dark_spec (dev w) = Some dark ∧ dark !! i = Some k ∧
    (has_reference_spec (dev w) = Some true → is_Some (reference_at (dev w) i)) ∧
    ∃ l, w' = add_log l w
         ∧ file_content path l
           = collect_row_text wv y (reference_at (dev w) i) k.
Proof.
  unfold collect_row. intros Hrow Htype Hcalc.
  minv.
  all: repeat match goal with
       | Hb : String.eqb _ _ = true |- _ => apply String.eqb_eq in Hb
       | Hb : String.eqb _ _ = false |- _ => apply String.eqb_neq in Hb
       end.
  all: cbn in *.
  all: try (destruct Htype as [Htype|[Htype|Htype]]; congruence).
  all: repeat match goal with
       | Ha : ?e = Some ?x, Hb : ?e = Some ?y |- _ =>
           assert (y = x) by congruence; subst y; clear Hb
       end.
  all: repeat match goal with
       | Ht : spec_intensity_type (gui _) = _ |- _ => rewrite Ht in Hcalc
       end.
  all: match goal with
       | Hw : wavelengths (dev _) = Some ?wl, Hi : ?wl !! _ = Some ?wv,
         Hd : dark_spec (dev _) = Some ?dark |- _ =>
           exists wl, wv
       end.
  all: first
    [ apply calculate_intensities_raw in Hcalc as ->; eexists
    | eexists ].
  all: do 2 eexists.
  all: split; [eassumption|]; split; [eassumption|].
  all: split;
    [ first [ eassumption
            | eapply calculate_intensities_fraction; eassumption
            | eapply calculate_intensities_abs; eassumption ] |].
  all: split; [eassumption|]; split; [eassumption|].
  all: unfold reference_at.
  all: repeat match goal with
       | Hr : has_reference_spec (dev _) = Some _ |- _ => rewrite Hr
       | Hr : reference_spec (dev _) = Some _ |- _ => rewrite Hr
       end.
  all: cbn.
  all: repeat match goal with
       | Hr : _ !! _ = Some _ |- _ => rewrite Hr
       end.
  all: split; [intros; eauto; discriminate|].
  all: eexists; split;
    [ rewrite ?add_log_app; reflexivity |].
  all: unfold collect_row_text; cbn; rewrite !String.eqb_refl.
  all: rewrite ?append_assoc, ?append_empty_r; reflexivity.
Qed.

(** The rows of the file. *)
Lemma collect_rows_inv path reading ys d n :
  ∀ k w w',
  dev w = d →
  for_each (seq k n) (collect_row path reading) w = (inr tt, w') →
  spec_intensity_type (gui w) = "Raw Int."
  ∨ spec_intensity_type (gui w) = "%T or %R"
  ∨ spec_intensity_type (gui w) = "Abs" →
  calculate_intensities (spec_intensity_type (gui w)) reading d = inr ys →
  ∃ rows l,
    w' = add_log l w ∧
    file_content path l = String.concat EmptyString rows ∧
    length rows = n ∧
    ∀ j, (j < n)%nat →
      ∃ wl wv y dark kk,
        wavelengths d = Some wl ∧ wl !! (k + j)%nat = Some wv ∧
        ys !! (k + j)%nat = Some y ∧
        dark_spec d = Some dark ∧ dark !! (k + j)%nat = Some kk ∧
        rows !! j = Some (collect_row_text wv y (reference_at d (k + j)) kk).
Proof.
  induction n as [|n IH]; intros k w w' Hd Hloop Htype Hcalc; cbn in Hloop.
  - apply mret_inv in Hloop as [_ ->]. exists [], [].
    rewrite add_log_nil. repeat split. intros j Hj. lia.
  - apply bind_inv in Hloop as ([] & w1 & Hrow & Hloop). subst d.
    destruct (collect_row_inv _ _ _ _ _ _ Hrow Htype Hcalc)
      as (wl & wv & y & dark & kk & Hwl & Hwv & Hy & Hdark & Hkk & _
          & l1 & -> & Htext).
    apply (IH (S k) (add_log l1 w) w' eq_refl) in Hloop
      as (rows & l & -> & Hrows & Hlen & Hall);
      [|exact Htype|exact Hcalc].
    exists (collect_row_text wv y (reference_at (dev w) k) kk :: rows),
      (l1 ++ l).
    split; [by rewrite add_log_app|]. split.
    { rewrite file_content_app, concat_cons_empty, Htext, Hrows. reflexivity. }
    split; [cbn; by rewrite Hlen|].
    intros [|j] Hj.
    + exists wl, wv, y, dark, kk. rewrite Nat.add_0_r. done.
    + destruct (Hall j) as (wl' & wv' & y' & dark' & kk' & H1 & H2 & H3
                            & H4 & H5 & H6); [lia|].
      cbn in H1, H4, H6. exists wl', wv', y', dark', kk'.
      replace (k + S j)%nat with (S k + j)%nat by lia. done.
Qed.

(** X16: the file that Collect now writes holds, under its header, one row
    per wavelength: the wavelength, the intensity that a measurement of the
    selected type records for the same spectrum, the reference intensity
    when there is a reference spectrum, and the dark intensity. *)
Theorem collected_file_holds_the_intensities_of_a_measurement
  env reading w w' ys :
  collect_spec_now env reading w = (inr tt, w') →
  has_spectrometer (dev w) = true →
  In (spec_intensity_type (gui w)) intensity_type_values →
  spec_intensity_type (gui w) = "Raw Int."
  ∨ has_reference_spec (dev w) = Some true →
  calculate_intensities (spec_intensity_type (gui w)) reading (dev w) = inr ys →
  ∃ text s itm wl has_ref rows,
    collect_filename_intensity_type !! spec_intensity_type (gui w) = Some text ∧
    spectrometer (dev w) = Some s ∧
    integration_time_micros (dev w) = Some itm ∧
    wavelengths (dev w) = Some wl ∧
    has_reference_spec (dev w) = Some has_ref ∧
    file_content (collect_path env (gui w) text) (new_effects w w')
    = String.concat EmptyString (collect_header (gui w) s itm wl has_ref)
      +:+ String.concat EmptyString rows ∧
    length rows = length wl ∧
    ∀ i wv, wl !! i = Some wv →
      ∃ y dark k,
        ys !! i = Some y ∧ dark_spec (dev w) = Some dark ∧ dark !! i = Some k ∧
        rows !! i = Some (collect_row_text wv y (reference_at (dev w) i) k).
Proof.
  intros Hcollect Hhas Hvalues Href Hcalc.
  assert (Htype : collect_filename_intensity_type !! spec_intensity_type (gui w)
                  ≠ None →
                  spec_intensity_type (gui w) = "Raw Int."
                  ∨ spec_intensity_type (gui w) = "%T or %R"
                  ∨ spec_intensity_type (gui w) = "Abs").
  { unfold intensity_type_values in Hvalues. cbn in Hvalues.
    destruct Hvalues as [<-|[<-|[<-|[<-|[]]]]]; auto.
    intros Hk. exfalso. apply Hk. by vm_compute. }
  unfold collect_spec_now in Hcollect. minv.
  1: { rewrite Hhas in *. discriminate. }
  1, 2: exfalso;
    repeat match goal with
    | Hm : mret _ _ = _ |- _ => apply mret_inv in Hm as [? ?]
    | Hb : (inr _, _) = (inr _, _) |- _ => injection Hb as ? ?
    end; subst;
    first
      [ discriminate
      | destruct Href as [Hr|Hr];
        first
          [ match goal with
            | Hb : negb (String.eqb _ _) = true |- _ => rewrite Hr in Hb
            end; discriminate
          | cbn in *; congruence ] ].
  all: repeat match goal with
       | Hd : context [dev (add_log ?l ?w0)] |- _ =>
           change (dev (add_log l w0)) with (dev w0) in Hd
       end.
  all: match goal with
       | Hloop : for_each _ (collect_row ?p _) ?w1 = (_, ?w2) |- _ =>
           assert (Hdev : dev w1 = dev w) by reflexivity;
           apply (collect_rows_inv p reading ys (dev w) _ 0%nat w1 w2 Hdev)
             in Hloop as (rows & l & -> & Htext & Hlen & Hrows);
             [|apply Htype; congruence|exact Hcalc]
       end.
  all: match goal with
       | Hk : collect_filename_intensity_type !! _ = Some ?text,
         Hs : spectrometer (dev _) = Some ?s,
         Hi : integration_time_micros (dev _) = Some ?itm,
         Hw : wavelengths (dev _) = Some ?wl,
         Hr : has_reference_spec (dev _) = Some ?b |- _ =>
           exists text, s, itm, wl, b, rows
       end.
  all: repeat (split; [assumption|]).
  all: split; [|split; [exact Hlen|]].
  all: try (intros i wv Hwv;
            destruct (Hrows i) as (wl' & wv' & y & dark & k & H1' & H2' & H3'
                                   & H4' & H5' & H6');
            [ by apply lookup_lt_Some in Hwv
            | change (0 + i)%nat with i in *;
              exists y, dark, k;
              repeat match goal with
              | Ha : ?e = Some ?a, Hb : ?e = Some ?b |- _ =>
                  assert (b = a) by congruence; subst b; clear Hb
              end;
              done ]).
  all: rewrite !add_log_app, new_effects_add_log.
  all: unfold collect_path, collect_header.
  all: rewrite !file_content_app, !file_content_write, Htext.
  all: rewrite !concat_app_empty, !concat_cons_empty.
  all: cbn [file_content String.concat].
  all: rewrite ?append_assoc, ?append_empty_r; reflexivity.
Qed.


End Collect.

(** ** The cell *)

Lemma cell_left_on_refl w : cell_left_on w w.
Proof. exists []. split; [by rewrite app_nil_r|]. intros []. Qed.

Lemma cell_left_on_emit w0 e :
  e ≠ PstatCmd (SetCell false) →
  ∀ w, cell_left_on w0 w → cell_left_on w0 (add_log [e] w).
Proof.
  intros He w (l & Hl & Hno). exists (l ++ [e]).
  split; [cbn; by rewrite Hl, <- app_assoc|].
  intros [Hin|[Heq|[]]]%in_app_or; [by apply Hno|by apply He].
Qed.

Ltac cell_side :=
  first
    [ apply cell_left_on_emit; discriminate
    | let w := fresh "w" in let Hw := fresh "Hw" in intros w Hw; exact Hw ].

Section Cell.
Context `{Builtins}.

Lemma merge_tick_cell raw capture_s w0 :
  keeps (cell_left_on w0) (merge_tick raw capture_s).
Proof. unfold merge_tick. keeps_with cell_side. Qed.

Lemma abort_measurement_cell w0 : keeps (cell_left_on w0) abort_measurement.
Proof. unfold abort_measurement. keeps_with cell_side. Qed.

Lemma run_measurement_begin_cell w0 :
  keeps (cell_left_on w0) run_measurement_begin.
Proof. unfold run_measurement_begin. keeps_with cell_side. Qed.

(** The part after the loop leaves the curve as it is, whatever its
    outcome. *)
Lemma run_measurement_end_curve env c :
  keeps (λ w, acq_curve (ses w) = c) (run_measurement_end env).
Proof.
  unfold run_measurement_end.
  keeps_with ltac:(let w := fresh "w" in let Hw := fresh "Hw" in
                   intros w Hw; exact Hw).
Qed.

Lemma run_loop_cell env events :
  ∀ w0 w st rs w' c',
  cell_left_on w0 w → running (ses w) = true →
  run_loop env events w = (st, rs, w') →
  acq_curve (ses w') = Some c' → rc_running c' = true →
  cell_left_on w0 w' ∧ running (ses w') = true.
Proof.
  induction events as [|ev events IH];
    intros w0 w st rs w' c' Hw Hflag Hrun Hc' Hon; cbn in Hrun.
  - by injection Hrun as _ _ <-.
  - destruct ev as [p| |t| |raw capture_s].
    + eapply IH; [| |exact Hrun|exact Hc'|exact Hon].
      * destruct Hw as (l & Hl & Hno). exists l. by rewrite driver_step_log.
      * unfold driver_step. by destruct (acq_curve (ses w)).
    + eapply IH; [| |exact Hrun|exact Hc'|exact Hon].
      * destruct Hw as (l & Hl & Hno). exists l. by rewrite driver_step_log.
      * unfold driver_step. by destruct (acq_curve (ses w)).
    + eapply IH; [| |exact Hrun|exact Hc'|exact Hon]; [exact Hw|exact Hflag].
    + pose proof (abort_measurement_cell w0 w Hw) as Hab.
      pose proof (abort_measurement_running true w Hflag) as Hab'.
      destruct (abort_measurement w) as [r w1].
      eapply IH; [exact Hab|exact Hab'|exact Hrun|exact Hc'|exact Hon].
    + unfold attr, compose in Hrun.
      destruct (acq_curve (ses w)) as [c|] eqn:Hc;
        [|by injection Hrun as _ _ <-].
      destruct (rc_running c) eqn:Hrunning.
      * pose proof (merge_tick_cell raw capture_s w0 w Hw) as Hm.
        pose proof (merge_tick_running raw capture_s true w Hflag) as Hm'.
        destruct (merge_tick raw capture_s w) as [[e|r] w1]; cbn in Hm, Hm'.
        -- by injection Hrun as _ _ <-.
        -- destruct (run_loop env events w1) as [[st' rs'] w2] eqn:Hrest.
           injection Hrun as _ _ <-.
           eapply IH; [exact Hm|exact Hm'|exact Hrest|exact Hc'|exact Hon].
      * pose proof (run_measurement_end_curve env (Some c) w Hc) as Hend.
        destruct (run_measurement_end env w) as [[e|r] w1]; cbn in Hend;
          injection Hrun as _ _ <-; congruence.
Qed.

(** X17: only the part of [run_measurement] after the loop switches the
    cell off.  When the measurement thread stops while the curve is still
    running - it dies of an exception in the loop, or it is not scheduled
    any more - no command to switch the cell off has been sent, and
    [running] is still set. *)
Theorem cell_stays_on_while_the_curve_runs env events w st rs w' c' :
  run_measurement env events w = (st, rs, w') →
  acq_curve (ses w') = Some c' →
  rc_running c' = true →
  ¬ In (PstatCmd (SetCell false)) (new_effects w w')
  ∧ running (ses w') = true.
Proof.
  unfold run_measurement. intros Hrun Hc' Hon.
  pose proof (run_measurement_begin_cell w w (cell_left_on_refl w)) as Hb.
  pose proof (run_measurement_begin_running w) as Hflag.
  destruct (run_measurement_begin w) as [[e|[]] w1] eqn:Hbegin;
    cbn in Hb, Hflag.
  - injection Hrun as _ _ <-. split; [|exact Hflag].
    destruct Hb as (l & Hl & Hno). by rewrite (new_effects_app _ _ _ Hl).
  - pose proof (run_loop_cell env events w w1 st rs w' c' Hb Hflag Hrun Hc' Hon)
      as ((l & Hl & Hno) & Hflag').
    split; [by rewrite (new_effects_app _ _ _ Hl)|exact Hflag'].
Qed.

End Cell.

(** ** A period that is not a number *)

Lemma is_nan_Prim2SF x : is_nan x = true → Prim2SF x = S754_nan.
Proof.
  unfold is_nan. rewrite FloatAxioms.eqb_spec. unfold SFeqb, SFcompare.
  destruct (Prim2SF x) as [[]|[]| |[] m e]; cbn; try discriminate; try done.
  all: rewrite Z.compare_refl, Pos.compare_refl; discriminate.
Qed.

Lemma is_nan_mul x y : is_nan x = true → is_nan (x * y) = true.
Proof.
  intros Hx. apply is_nan_Prim2SF in Hx.
  unfold is_nan. rewrite FloatAxioms.eqb_spec, FloatAxioms.mul_spec, Hx. reflexivity.
Qed.

Lemma leb_nan x y : is_nan x = true → PrimFloat.leb x y = false.
Proof.
  intros Hx. apply is_nan_Prim2SF in Hx. rewrite FloatAxioms.leb_spec, Hx. reflexivity.
Qed.

Section Period.
Context `{Builtins}.

(** X18: the time between two spectra is checked by
    [collection_time_ms <= integration_time_ms] only.  A text that [float]
    reads as not-a-number passes: every comparison with it is false, and
    [start_measurement] goes on to open the files with a period that is
    not a number. *)
Theorem period_that_is_not_a_number_passes env w v1 v2 sr cy sp itm x :
  running (ses w) = false →
  parse_pstat_parameters (gui w) = Some (v1, v2, sr, cy, sp) →
  integration_time_micros (dev w) = Some itm →
  float_of_str (spec_freq_txt (gui w)) = Some x →
  is_nan x = true →
  In (spec_freq_units (gui w)) spec_freq_unit_values →
  spec_intensity_type (gui w) = "Raw Int."
  ∨ has_reference_spec (dev w) = Some true →
  (use_pstat (gui w) = true → has_potentiostat (dev w) = true) →
  (use_spec (gui w) = true → has_spectrometer (dev w) = true) →
  ∃ ms, is_nan ms = true
        ∧ start_measurement env w = open_output_files env v1 v2 sr cy sp ms w.
Proof.
  intros Hrun Hparse Hitm Hx Hnan Hunit Href Hp Hs.
  assert (Hms : ∃ ms, collection_time_in_ms (spec_freq_units (gui w)) x = Some ms
                      ∧ is_nan ms = true).
  { unfold spec_freq_unit_values in Hunit. cbn in Hunit.
    destruct Hunit as [<-|[<-|[<-|[<-|[]]]]]; eexists; (split; [reflexivity|]).
    all: repeat apply is_nan_mul; exact Hnan. }
  destruct Hms as (ms & Hms & Hnan'). exists ms. split; [exact Hnan'|].
  eapply start_measurement_passes; try eassumption.
  by apply leb_nan.
Qed.


End Period.

Lemma baselines_of_a_measurement_are_stored_witness :
  calculate_intensities (H:=demo_builtins) "Abs" demo_raw
    (dev (after (H:=demo_builtins) (demo_actions "Abs")))
  ≠ inl (TypeError "reference_spec").
Proof.
  apply (baselines_of_a_measurement_are_stored (H:=demo_builtins)
           (demo_actions "Abs") "Abs" demo_raw).
  vm_compute. reflexivity.
Defined.

Lemma minimum_integration_time_is_refused_witness :
  integration_time_micros
    (dev (exec (connect_spectrometer (Some demo_spectrometer)) init_window))
  = Some 3000%float
  ∧ set_integ_time (H:=demo_builtins) "3"
      (exec (connect_spectrometer (Some demo_spectrometer)) init_window)
    = (inr tt,
       add_log [MboxWarning "Could not set integ. time"
                  "Value is outside hardcoded spectrometer limits"]
         (exec (connect_spectrometer (Some demo_spectrometer)) init_window)).
Proof.
  apply (minimum_integration_time_is_refused (H:=demo_builtins)
           demo_spectrometer "3" 3%float init_window).
  - vm_compute. reflexivity.
  - left. vm_compute. reflexivity.
Defined.

(** ** The properties on the bench *)



Lemma finished_run_saves_every_recorded_point_witness :
  running (ses demo_finished.2) = false ∧
  ∃ path added,
    pstat_data_filename (ses demo_finished.2) = Some path ∧
    In (SaveTxt path
          "point,time,vf,vu,im,ach,vsig,temp,cycle,ie_range,overload,stop_test"
          (rc_points demo_curve ++ added))
       (new_effects demo_loop_start demo_finished.2) ∧
    Forall (λ r, ∃ pt, In pt (rc_points demo_curve ++ added)
                       ∧ pt !! 1%nat = Some (rec_elapsed_time r)
                       ∧ pt !! 2%nat = Some (rec_potential r)
                       ∧ pt !! 4%nat = Some (rec_current r)) demo_finished.1.2.
Proof.
  apply (finished_run_saves_every_recorded_point (H:=demo_builtins) demo_env
           demo_to_the_end demo_loop_start demo_curve
           demo_finished.1.2 demo_finished.2).
  - vm_compute. reflexivity.
  - vm_compute. discriminate.
  - vm_compute. reflexivity.
Defined.


Lemma second_start_before_the_thread_begins_witness :
  running (ses (demo_started "Raw Int." demo_connected)) = false
  ∧ ∃ v1 v2 sr cy sp ms,
      start_measurement (H:=demo_builtins) demo_env
        (demo_started "Raw Int." demo_connected)
      = open_output_files (H:=demo_builtins) demo_env v1 v2 sr cy sp ms
          (demo_started "Raw Int." demo_connected).
Proof.
  apply (second_start_before_the_thread_begins (H:=demo_builtins) demo_env
           (fill_in "Raw Int." demo_connected)
           (demo_started "Raw Int." demo_connected) demo_env).
  - vm_compute. reflexivity.
  - vm_compute. reflexivity.
  - vm_compute. reflexivity.
Defined.

Lemma failed_reconnection_breaks_the_spectrometer_witness :
  let w1 := exec (connect_spectrometer None) demo_connected in
  has_spectrometer (dev w1) = true
  ∧ store_reference_spectrum demo_raw w1
    = (inl (AttributeError "intensities"), w1)
  ∧ store_dark_spectrum demo_raw w1 = (inl (AttributeError "intensities"), w1)
  ∧ draw_spec_body (H:=demo_builtins) demo_raw w1
    = (inl (AttributeError "intensities"), w1)
  ∧ set_integ_time (H:=demo_builtins) "5" w1
    = (inl (AttributeError "integration_time_micros_limits"), w1).
Proof.
  apply (failed_reconnection_breaks_the_spectrometer (H:=demo_builtins)
           demo_connected demo_raw "5" 5%float).
  - vm_compute. reflexivity.
  - vm_compute. reflexivity.
Defined.

Lemma preview_shows_what_a_measurement_records_witness :
  ∃ wl ys colour,
    wavelengths (dev (fill_in "Abs" demo_with_baselines)) = Some wl ∧
    calculate_intensities (H:=demo_builtins) "Abs" demo_raw
      (dev (fill_in "Abs" demo_with_baselines)) = inr ys ∧
    length wl = length ys ∧
    In (AxesPlot wl ys None colour)
       [AxesClear;
        AxesPlot [400; 401; 402; 403; 404]%float
          [-1; nan; nan; -2; infinity]%float None None;
        AxesSetXLabel "Wavelength (nm)"; AxesSetYLabel "Absorbance";
        AxesSetXLim 400 404; AxesGrid; CanvasDraw].
Proof.
  apply (preview_shows_what_a_measurement_records (H:=demo_builtins) demo_raw
           (fill_in "Abs" demo_with_baselines) _
           (exec (draw_spec_body (H:=demo_builtins) demo_raw)
              (fill_in "Abs" demo_with_baselines))).
  - vm_compute. reflexivity.
  - discriminate.
Defined.

Lemma preview_without_reference_draws_nothing_witness :
  draw_spec_body (H:=demo_builtins) demo_raw (fill_in "Abs" demo_connected)
  = (inr [], add_log [SpecCmd (Intensities true true); Sleep 5]
               (fill_in "Abs" demo_connected)).
Proof.
  apply (preview_without_reference_draws_nothing (H:=demo_builtins) demo_raw
           (fill_in "Abs" demo_connected) demo_spectrometer).
  - vm_compute. reflexivity.
  - vm_compute. reflexivity.
  - vm_compute. reflexivity.
  - discriminate.
Defined.


Lemma delivered_mail_reports_an_error_witness :
  last (log (exec (try_send_notif_emails demo_mail_env) demo_notified))
  = Some (StdoutLine "Other error occurred while trying to send the email.").
Proof.
  apply (delivered_mail_reports_an_error demo_mail_env demo_notified
           (MkEmail ("lighthouse@example.org", "token")
              "lighthouse@example.org"
              ["ann@example.org"; "bob@example.org"]
              "Lighthouse Spectroelectrochemistry Program"
              "ann@example.org,bob@example.org"
              "Lighthouse Measurement Ended"
              (mail_intro
               +:+ "This email is to notify you that the experiment concluded (successfully or unsuccesfully) at Mon, 2026/02/16, 10:35:00 AM.")
              None)).
  left. vm_compute. reflexivity.
Defined.


Lemma reference_stored_while_running_loses_the_data_mail_witness :
  try_send_file_emails demo_mail_env demo_late_reference
  = (inr None,
     add_log [FileOpen (without_last_4 demo_outfile +:+ ".zip");
              StdoutLine "Failed to create zip file to send to emails"]
       demo_late_reference).
Proof.
  apply (reference_stored_while_running_loses_the_data_mail demo_mail_env
           demo_late_reference demo_outfile
           "./Experiment_2026-02-16T10-30-00_DARK_SPECTRUM.csv"
           "./Experiment_Raw_PStat_Data_2026-02-16 10-30-00.csv").
  - vm_compute. reflexivity.
  - vm_compute. reflexivity.
  - vm_compute. reflexivity.
  - vm_compute. reflexivity.
  - vm_compute. reflexivity.
  - intros path. reflexivity.
Defined.

Lemma collected_file_holds_the_intensities_of_a_measurement_witness :
  let w := fill_in "Abs" demo_with_baselines in
  let w' := exec (collect_spec_now (H:=demo_builtins) demo_env demo_raw) w in
  ∃ text s itm wl has_ref rows,
    collect_filename_intensity_type !! spec_intensity_type (gui w) = Some text ∧
    spectrometer (dev w) = Some s ∧
    integration_time_micros (dev w) = Some itm ∧
    wavelengths (dev w) = Some wl ∧
    has_reference_spec (dev w) = Some has_ref ∧
    file_content (collect_path demo_env (gui w) text) (new_effects w w')
    = String.concat EmptyString
        (collect_header (H:=demo_builtins) (gui w) s itm wl has_ref)
      +:+ String.concat EmptyString rows ∧
    length rows = length wl ∧
    ∀ i wv, wl !! i = Some wv →
      ∃ y dark k,
        [-1; nan; nan; -2; infinity]%float !! i = Some y ∧
        dark_spec (dev w) = Some dark ∧ dark !! i = Some k ∧
        rows !! i
        = Some (collect_row_text (H:=demo_builtins) wv y
                  (reference_at (dev w) i) k).
Proof.
  intros w w'.
  apply (collected_file_holds_the_intensities_of_a_measurement
           (H:=demo_builtins) demo_env demo_raw w w'
           [-1; nan; nan; -2; infinity]%float).
  - vm_compute. reflexivity.
  - vm_compute. reflexivity.
  - vm_compute. right. right. right. left. reflexivity.
  - right. vm_compute. reflexivity.
  - vm_compute. reflexivity.
Defined.

Lemma cell_stays_on_while_the_curve_runs_witness :
  ¬ In (PstatCmd (SetCell false))
      (new_effects (demo_started "Raw Int." demo_connected) demo_crash.2)
  ∧ running (ses demo_crash.2) = true.
Proof.
  apply (cell_stays_on_while_the_curve_runs (H:=demo_builtins) demo_env
           [Tick demo_raw 0.25] (demo_started "Raw Int." demo_connected)
           demo_crash.1.1 demo_crash.1.2 demo_crash.2 demo_curve).
  - vm_compute. reflexivity.
  - vm_compute. reflexivity.
  - reflexivity.
Defined.

Lemma period_that_is_not_a_number_passes_witness :
  ∃ ms, is_nan ms = true
        ∧ start_measurement (H:=demo_builtins_nan) demo_env demo_nan_period
          = open_output_files (H:=demo_builtins_nan) demo_env
              0 1 0.01 1 0.1 ms demo_nan_period.
Proof.
  apply (period_that_is_not_a_number_passes (H:=demo_builtins_nan) demo_env
           demo_nan_period 0 1 0.01 1 0.1 3000 nan).
  - vm_compute. reflexivity.
  - vm_compute. reflexivity.
  - vm_compute. reflexivity.
  - vm_compute. reflexivity.
  - vm_compute. reflexivity.
  - vm_compute. right. left. reflexivity.
  - left. reflexivity.
  - intros _. vm_compute. reflexivity.
  - intros _. vm_compute. reflexivity.
Defined.

